(** * eMadrasa: enrollment and scheduling core

    A shallow embedding of the server's persistence wrapper
    ([server/src/database.ts]), the enrollment handlers
    ([server/src/routes/enrollments.ts]), the student cascade
    ([server/src/routes/students.ts]), the class handlers
    ([server/src/routes/classes.ts]) and the schedule conflict engine
    and reports ([server/src/routes/schedule.ts]).

    The handlers are asynchronous JavaScript over Mongoose models.  Here a
    handler is a function of the database state that returns a response and
    the next state; an exception is a result of its own, and the writes
    done before it stay in the state, as the code runs without
    transactions. *)

From Stdlib Require Import List String Ascii ZArith NArith Bool Lia.
From Stdlib Require Import Permutation Sorted SpecFloat.
Import ListNotations.
Open Scope string_scope.
Open Scope Z_scope.

Set Implicit Arguments.

(** ** JavaScript strings and numbers *)

Definition digitChar (d : N) : ascii :=
  ascii_of_N (48 + d).

(** Plain decimal digits of a natural number, most significant first. *)
Fixpoint digitsFuel (fuel : nat) (n : N) (acc : string) : string :=
  match fuel with
  | O => acc
  | S f =>
      let acc' := String (digitChar (n mod 10)) acc in
      if (n <? 10)%N then acc' else digitsFuel f (n / 10) acc'
  end.

Definition digits (n : N) : string :=
  digitsFuel (S (N.to_nat (N.log2 n))) n "".

(** A JavaScript number is a double.  An integer the client wrote
    ([parseInt] of a path segment, a number of a JSON body) is the double
    nearest to it, ties to the even significand of 53 bits; [None] is
    [Infinity]. *)
Definition nearestDouble (n : N) : option N :=
  let size := N.size n in
  if (size <=? 53)%N then Some n
  else
    let shift := (size - 53)%N in
    let q := N.shiftr n shift in
    let r := (n mod 2 ^ shift)%N in
    let half := (2 ^ (shift - 1))%N in
    let q' := if (half <? r)%N || ((r =? half)%N && N.odd q) then (q + 1)%N else q in
    let d := N.shiftl q' shift in
    if (d <? 2 ^ 1024)%N then Some d else None.

Definition roundsTo (v x : N) : bool :=
  match nearestDouble v with
  | Some d => (d =? x)%N
  | None => false
  end.

(** The decimal with the fewest significant digits that reads back as the
    double [x] (of [len] decimal digits), the closest one when several
    have that many digits: the digits [Number::toString] prints.  [k] is
    the number of significant digits tried. *)
Fixpoint shortestFrom (fuel : nat) (k len x : N) : N :=
  match fuel with
  | O => x
  | S f =>
      if (len <=? k)%N then x
      else
        let unit := (10 ^ (len - k))%N in
        let lo := (x / unit * unit)%N in
        let hi := (lo + unit)%N in
        if roundsTo lo x && roundsTo hi x then
          if (x - lo <? hi - x)%N then lo
          else if (hi - x <? x - lo)%N then hi
          else if N.even (lo / unit) then lo else hi
        else if roundsTo lo x then lo
        else if roundsTo hi x then hi
        else shortestFrom f (k + 1) len x
  end.

Fixpoint dropZerosRev (s : string) : string :=
  match s with
  | String "0" rest => dropZerosRev rest
  | _ => s
  end.

Fixpoint reverseOnto (s acc : string) : string :=
  match s with
  | EmptyString => acc
  | String c rest => reverseOnto rest (String c acc)
  end.

(** A digit string without its trailing zeros. *)
Definition stripZeros (s : string) : string :=
  reverseOnto (dropZerosRev (reverseOnto s "")) "".

(** [Number::toString] on a natural number.  Below 2^53 every integer is a
    double and prints as its decimal digits.  Above, the number is the
    nearest double and prints with the fewest digits that read back as it:
    followed by zeros up to 21 digits, in exponent form ([1.5e+21]) beyond. *)
Definition Number_digits (n : N) : string :=
  if (n <? 9007199254740992)%N then digits n
  else
    match nearestDouble n with
    | None => "Infinity"
    | Some x =>
        let shown := digits (shortestFrom 17 1 (N.of_nat (String.length (digits x))) x) in
        let n := String.length shown in
        if (n <=? 21)%nat then shown
        else
          match stripZeros shown with
          | EmptyString => shown
          | String c EmptyString => String c ("e+" ++ digits (N.of_nat (n - 1)))
          | String c rest => String c ("." ++ rest ++ "e+" ++ digits (N.of_nat (n - 1)))
          end
    end.

(** [Number.prototype.toString] on an integral number. *)
Definition Number_toString (n : Z) : string :=
  if n <? 0 then "-" ++ Number_digits (Z.to_N (- n)) else Number_digits (Z.to_N n).

(** A number that is no integer is an IEEE 754 double too: a sign, a
    significand and a binary exponent, or a zero, an infinity or NaN.  The
    operations round to the nearest double, ties to even. *)
Definition double := spec_float.

(** The double nearest to an integer. *)
Definition Double_ofZ (z : Z) : double := binary_normalize 53 1024 z 0 false.

Definition Double_add : double -> double -> double := SFadd 53 1024.

Definition Double_sub : double -> double -> double := SFsub 53 1024.

Definition Double_div : double -> double -> double := SFdiv 53 1024.

(** [x > 0]; false for NaN. *)
Definition Double_isPositive (x : double) : bool :=
  match x with
  | S754_finite false _ _ | S754_infinity false => true
  | _ => false
  end.

Definition hexDigit (c : ascii) : option N :=
  let n := N_of_ascii c in
  if ((48 <=? n) && (n <=? 57))%N then Some (n - 48)%N
  else if ((97 <=? n) && (n <=? 102))%N then Some (n - 87)%N
  else if ((65 <=? n) && (n <=? 70))%N then Some (n - 55)%N
  else None.

(** [parseInt(s, 16)] on a string made of hexadecimal digits only. *)
Fixpoint parseHexFrom (acc : N) (s : string) : option N :=
  match s with
  | EmptyString => Some acc
  | String c rest =>
      match hexDigit c with
      | Some d => parseHexFrom (16 * acc + d)%N rest
      | None => None
      end
  end.

Definition parseHex (s : string) : option N := parseHexFrom 0%N s.

Definition isSome A (o : option A) : bool :=
  match o with Some _ => true | None => false end.

Fixpoint bytesValueFrom (acc : N) (s : string) : N :=
  match s with
  | EmptyString => acc
  | String c rest => bytesValueFrom (256 * acc + N_of_ascii c)%N rest
  end.

Definition hexChar (d : N) : ascii :=
  if (d <? 10)%N then ascii_of_N (48 + d) else ascii_of_N (87 + d).

Fixpoint hexFixed (width : nat) (n : N) (acc : string) : string :=
  match width with
  | O => acc
  | S w => hexFixed w (n / 16) (String (hexChar (n mod 16)) acc)
  end.

(** ** ObjectIds *)

(** A MongoDB ObjectId is twelve bytes; it is kept as the number those
    bytes spell, and printed as 24 hexadecimal digits. *)
Definition ObjectId := N.

Definition ObjectId_toString (o : ObjectId) : string := hexFixed 24 o "".

(** [parseInt(_id.toString().slice(-8), 16)], the [id] every [toJSON]
    exposes: the last eight hexadecimal digits, the low 32 bits. *)
Definition apiId (o : ObjectId) : Z := Z.of_N (o mod 2 ^ 32)%N.

(** What the surrounding JavaScript runtime and driver decide and the
    repository does not: whether the driver still takes any 12 character
    string for an ObjectId (bson before version 6 does), the Unicode
    [String.prototype.toLowerCase] and [trim], the cast of a supplied
    string to a stored [Date] ([None]: the cast fails), and the engine's
    reading of a date-time string that is not in the two-digit ISO form. *)
Record Runtime := {
  legacy12 : bool;
  toLowerCase : string -> string;
  trim : string -> string;
  castDate : string -> option string;
  lenientDateParse : string -> option Z
}.

(** [mongoose.Types.ObjectId.isValid] on a string: 24 hexadecimal digits,
    or with an older driver any 12 characters. *)
Definition ObjectId_isValid (rt : Runtime) (s : string) : bool :=
  ((String.length s =? 24)%nat && isSome (parseHex s))
  || (legacy12 rt && (String.length s =? 12)%nat).

(** [new mongoose.Types.ObjectId(s)] for a string [isValid] accepts. *)
Definition ObjectId_ofString (s : string) : ObjectId :=
  if (String.length s =? 24)%nat then
    match parseHex s with Some n => n | None => 0%N end
  else bytesValueFrom 0%N s.

(** ** Values found where the API types say [number]

    [shared/api.ts] types every id and reference as [number], but the
    values that flow through the handlers at run time are of several
    kinds: numbers from [parseInt] and from validated bodies, strings from
    unvalidated bodies, ObjectIds in documents that were not populated,
    plain objects where [populate] replaced a reference by the referenced
    document, and [null] where [populate] found no document (or the field
    is absent). *)
Inductive JsId :=
| JNum (n : Z)
| JStr (s : string)
| JOid (o : ObjectId)
| JDoc (o : ObjectId)
| JNull.

(** [id.toString()]; [None] is the TypeError of a call on [null]. *)
Definition JsId_toString (v : JsId) : option string :=
  match v with
  | JNum n => Some (Number_toString n)
  | JStr s => Some s
  | JOid o => Some (ObjectId_toString o)
  | JDoc _ => Some "[object Object]"
  | JNull => None
  end.

(** A value inside a template literal. *)
Definition JsId_template (v : JsId) : string :=
  match JsId_toString v with
  | Some s => s
  | None => "null"
  end.

Definition truthy (v : JsId) : bool :=
  match v with
  | JNum n => negb (n =? 0)
  | JStr s => negb (String.eqb s "")
  | JOid _ | JDoc _ => true
  | JNull => false
  end.

(** [a === b].  Objects are compared by identity, and every [toJSON] call
    builds new objects: two object values read from the database are never
    identical. *)
Definition strictEq (a b : JsId) : bool :=
  match a, b with
  | JNum x, JNum y => x =? y
  | JStr x, JStr y => String.eqb x y
  | JNull, JNull => true
  | _, _ => false
  end.

(** Mongoose's cast of a supplied value to an ObjectId ([castObjectId]):
    an ObjectId is kept, an object with an [_id] gives that [_id], anything
    else goes through its string form.  [None] is a CastError. *)
Definition castObjectId (rt : Runtime) (v : JsId) : option ObjectId :=
  match v with
  | JOid o => Some o
  | JDoc o => Some o
  | JNull => None
  | JNum _ | JStr _ =>
      match JsId_toString v with
      | Some s => if ObjectId_isValid rt s then Some (ObjectId_ofString s) else None
      | None => None
      end
  end.

(** ** Stored documents (the Mongoose schemas of [server/src/models])

    The fields the handlers below read are kept.  The [createdAt] and
    [updatedAt] stamps that [timestamps: true] adds (every update of a
    document renews its [updatedAt]) and the descriptive fields no handler
    below reads are left out; what is stated below of a document is
    stated of the fields kept. *)

Inductive Status := active | inactive | transferred | graduated.

Definition Status_eqb (a b : Status) : bool :=
  match a, b with
  | active, active | inactive, inactive
  | transferred, transferred | graduated, graduated => true
  | _, _ => false
  end.

Module SchoolDoc.
Record t := { _id : ObjectId; name : string }.
End SchoolDoc.

Module TeacherDoc.
Record t := { _id : ObjectId; name : string; schoolIds : list ObjectId }.
End TeacherDoc.

Module SubjectDoc.
Record t := { _id : ObjectId; name : string }.
End SubjectDoc.

Module StudentDoc.
Record t := { _id : ObjectId; name : string; fullName : string }.
End StudentDoc.

Module ClassDoc.
Record t := {
  _id : ObjectId;
  name : string;
  schoolId : ObjectId;
  teacherId : option ObjectId;
  subjectIds : list ObjectId;
  primarySubjectId : option ObjectId;
  maxStudents : Z;
  currentStudents : Z;
  academicYear : string
}.
End ClassDoc.

Module EnrollmentDoc.
Record t := {
  _id : ObjectId;
  studentId : ObjectId;
  classId : ObjectId;
  enrollmentDate : string;
  status : Status;
  academicYear : string
}.
End EnrollmentDoc.

Module ClassScheduleDoc.
Record t := {
  _id : ObjectId;
  classId : ObjectId;
  subjectId : ObjectId;
  dayOfWeek : Z;
  startTime : string;
  endTime : string;
  room : option string
}.
End ClassScheduleDoc.

(** ** What [toJSON] returns (the interfaces of [shared/api.ts]) *)

Module School.
Record t := { id : Z; name : string }.
End School.

Module Teacher.
Record t := { id : Z; name : string; schoolIds : list JsId }.
End Teacher.

Module Subject.
Record t := { id : Z; name : string }.
End Subject.

Module Student.
Record t := { id : Z; name : string; fullName : string }.
End Student.

Module Class.
Record t := {
  id : Z;
  name : string;
  schoolId : JsId;
  teacherId : JsId;
  subjectIds : list JsId;
  primarySubjectId : JsId;
  maxStudents : Z;
  currentStudents : Z;
  academicYear : string
}.
End Class.

Module Enrollment.
Record t := {
  id : Z;
  studentId : JsId;
  classId : JsId;
  enrollmentDate : string;
  status : Status;
  academicYear : string
}.
End Enrollment.

Module ClassSchedule.
Record t := {
  id : Z;
  classId : JsId;
  subjectId : JsId;
  dayOfWeek : Z;
  startTime : string;
  endTime : string;
  room : option string
}.
End ClassSchedule.

(** ** The database: seven collections in insertion order

    [nextId] stands for the driver's ObjectId generator. *)
Record DB := {
  schools : list SchoolDoc.t;
  teachers : list TeacherDoc.t;
  subjects : list SubjectDoc.t;
  classes : list ClassDoc.t;
  students : list StudentDoc.t;
  enrollments : list EnrollmentDoc.t;
  schedules : list ClassScheduleDoc.t;
  nextId : ObjectId
}.

Definition set_classes (l : list ClassDoc.t) (db : DB) : DB :=
  {| schools := schools db; teachers := teachers db; subjects := subjects db;
     classes := l; students := students db; enrollments := enrollments db;
     schedules := schedules db; nextId := nextId db |}.

Definition set_students (l : list StudentDoc.t) (db : DB) : DB :=
  {| schools := schools db; teachers := teachers db; subjects := subjects db;
     classes := classes db; students := l; enrollments := enrollments db;
     schedules := schedules db; nextId := nextId db |}.

Definition set_enrollments (l : list EnrollmentDoc.t) (db : DB) : DB :=
  {| schools := schools db; teachers := teachers db; subjects := subjects db;
     classes := classes db; students := students db; enrollments := l;
     schedules := schedules db; nextId := nextId db |}.

Definition set_schedules (l : list ClassScheduleDoc.t) (db : DB) : DB :=
  {| schools := schools db; teachers := teachers db; subjects := subjects db;
     classes := classes db; students := students db; enrollments := enrollments db;
     schedules := l; nextId := nextId db |}.

Definition set_schools (l : list SchoolDoc.t) (db : DB) : DB :=
  {| schools := l; teachers := teachers db; subjects := subjects db;
     classes := classes db; students := students db; enrollments := enrollments db;
     schedules := schedules db; nextId := nextId db |}.

Definition set_teachers (l : list TeacherDoc.t) (db : DB) : DB :=
  {| schools := schools db; teachers := l; subjects := subjects db;
     classes := classes db; students := students db; enrollments := enrollments db;
     schedules := schedules db; nextId := nextId db |}.

Definition set_subjects (l : list SubjectDoc.t) (db : DB) : DB :=
  {| schools := schools db; teachers := teachers db; subjects := l;
     classes := classes db; students := students db; enrollments := enrollments db;
     schedules := schedules db; nextId := nextId db |}.

Definition bump_nextId (db : DB) : DB :=
  {| schools := schools db; teachers := teachers db; subjects := subjects db;
     classes := classes db; students := students db; enrollments := enrollments db;
     schedules := schedules db; nextId := (nextId db + 1)%N |}.

(** ** Asynchronous code over the database *)

Inductive Exn :=
| TypeError            (* a method call on null *)
| ValidationError      (* Mongoose: cast or validation failed on save *)
| CastError            (* Mongoose: a query value could not be cast *)
| DuplicateKey         (* MongoDB E11000: a unique index rejects the write *)
| NoDocuments (table : string).   (* getObjectId on an empty collection *)

Inductive Result (A : Type) :=
| Ok (a : A)
| Throw (e : Exn).
Arguments Throw {A} e.

Definition M (A : Type) : Type := DB -> Result A * DB.

Definition ret A (a : A) : M A := fun db => (Ok a, db).

Definition throw A (e : Exn) : M A := fun db => (Throw e, db).
Arguments throw {A} e.

Definition bind A B (m : M A) (k : A -> M B) : M B :=
  fun db =>
    match m db with
    | (Ok a, db') => k a db'
    | (Throw e, db') => (Throw e, db')
    end.

(** [try { m } catch (error) { h }] *)
Definition tryCatch A (m : M A) (h : M A) : M A :=
  fun db =>
    match m db with
    | (Ok a, db') => (Ok a, db')
    | (Throw _, db') => h db'
    end.

Definition getDB : M DB := fun db => (Ok db, db).

Definition putDB (db' : DB) : M unit := fun _ => (Ok tt, db').

Declare Scope m_scope.
Delimit Scope m_scope with m.
Notation "x <- c ;; k" := (bind c (fun x => k))
  (at level 61, c at next level, right associativity) : m_scope.
Notation "c ;;; k" := (bind c (fun _ => k))
  (at level 61, right associativity) : m_scope.
Open Scope m_scope.

(** A [for ... of] loop whose body may stop the handler with a response
    ([Some r], a [return res.status(..)] inside the loop). *)
Fixpoint forEachUntil A R (l : list A) (body : A -> M (option R)) : M (option R) :=
  match l with
  | [] => ret None
  | x :: rest =>
      r <- body x ;;
      match r with
      | Some v => ret (Some v)
      | None => forEachUntil rest body
      end
  end.

Fixpoint forEach A (l : list A) (body : A -> M unit) : M unit :=
  match l with
  | [] => ret tt
  | x :: rest => body x ;;; forEach rest body
  end.

Fixpoint mapM A B (f : A -> M B) (l : list A) : M (list B) :=
  match l with
  | [] => ret []
  | x :: rest => y <- f x ;; ys <- mapM f rest ;; ret (y :: ys)
  end.


(** ** What the handlers hand to [database.create] and [database.update] *)

Module EnrollmentItem.
Record t := {
  studentId : JsId;
  classId : JsId;
  enrollmentDate : string;
  academicYear : string;
  status : Status
}.
End EnrollmentItem.

Module ScheduleItem.
Record t := {
  classId : JsId;
  subjectId : JsId;
  dayOfWeek : Z;
  startTime : string;
  endTime : string;
  room : option string
}.
End ScheduleItem.

(** An entry of a request's [schedule] array (zod's [scheduleSchema]). *)
Module ScheduleEntry.
Record t := {
  subjectId : Z;
  dayOfWeek : Z;
  startTime : string;
  endTime : string;
  room : option string
}.
End ScheduleEntry.

Module ClassItem.
Record t := {
  name : string;
  schoolId : JsId;
  teacherId : option JsId;
  subjectIds : list JsId;
  primarySubjectId : option JsId;
  maxStudents : Z;
  academicYear : string;
  currentStudents : Z
}.
End ClassItem.

(** [UpdateClassRequest]: every field of the create request, optional. *)
Module ClassUpdate.
Record t := {
  name : option string;
  schoolId : option Z;
  teacherId : option Z;
  subjectIds : option (list Z);
  primarySubjectId : option Z;
  maxStudents : option Z;
  academicYear : option string;
  schedule : option (list ScheduleEntry.t)
}.
End ClassUpdate.

(** ** Clock times *)

Definition isDigit (c : ascii) : bool :=
  let n := N_of_ascii c in ((48 <=? n) && (n <=? 57))%N.

Definition digitBelow (k : N) (c : ascii) : bool :=
  let n := N_of_ascii c in ((48 <=? n) && (n <? 48 + k))%N.

Definition digitValue (c : ascii) : Z := Z.of_N (N_of_ascii c) - 48.

(** Four digits that spell an hour up to 23 and a minute up to 59. *)
Definition clockOk (h1 h2 m1 m2 : ascii) : bool :=
  isDigit h1 && isDigit h2 && isDigit m1 && isDigit m2
  && (10 * digitValue h1 + digitValue h2 <=? 23)
  && (10 * digitValue m1 + digitValue m2 <=? 59).

Definition clockMinutes (h1 h2 m1 m2 : ascii) : Z :=
  (10 * digitValue h1 + digitValue h2) * 60 + (10 * digitValue m1 + digitValue m2).

(** ** Requests and responses *)

Module CreateEnrollmentRequest.
Record t := {
  studentId : Z;
  classId : Z;
  enrollmentDate : string;
  academicYear : string
}.
End CreateEnrollmentRequest.

(** The joined view [mapEnrollmentToResponse] builds: the enrollment with
    the [id], [name] (and [fullName]) of its student, class and school. *)
Module EnrollmentResponse.
Record t := {
  enrollment : Enrollment.t;
  student : Z * string * string;
  cls : Z * string;
  school : Z * string
}.
End EnrollmentResponse.

(** A session of the room report.  An hour count is a JavaScript number,
    a double; it is NaN when a time is an Invalid Date. *)
Module Session.
Record t := {
  classId : JsId;
  className : string;
  subjectName : string;
  dayOfWeek : Z;
  dayName : option string;
  timeRange : string;
  duration : double
}.
End Session.

Module RoomEntry.
Record t := {
  room : string;
  totalHours : double;
  sessions : list Session.t;
  conflicts : list string
}.
End RoomEntry.

Inductive Body :=
| ErrorBody (error message : string)
| EnrollmentBody (data : EnrollmentResponse.t)
| MessageBody (message : string)
| BulkBody (created : list EnrollmentResponse.t) (errors : list string)
| ClassBody (data : Class.t)
| ValidationBody (valid : bool) (conflicts : list string) (schedule : ClassSchedule.t)
| RoomsBody (totalRooms : Z) (rooms : list RoomEntry.t).

Record Response := { statusCode : Z; body : Body }.

Definition validationError (message : string) : Response :=
  {| statusCode := 400; body := ErrorBody "Validation Error" message |}.

Definition notFound (message : string) : Response :=
  {| statusCode := 404; body := ErrorBody "Not Found" message |}.

Definition internalError (message : string) : Response :=
  {| statusCode := 500; body := ErrorBody "Internal Server Error" message |}.

Module CreateClassRequest.
Record t := {
  name : string;
  schoolId : Z;
  teacherId : option Z;
  subjectIds : list Z;
  primarySubjectId : option Z;
  maxStudents : Z;
  academicYear : string;
  schedule : option (list ScheduleEntry.t)
}.
End CreateClassRequest.

(** ** Mongoose models

    A model is a collection with its schema: how a document is shown by
    [toJSON], as stored and after [populate] of the fields
    [getPopulateFields] lists for the table, how [new Model(item)] and
    [save] cast and validate a new document ([None]: a ValidationError),
    which documents the unique indexes let stand together, and how
    [{ $set: updates }] is cast ([None]: a CastError) and applied. *)
Record Model (D J I U : Type) := {
  table : string;
  collection : DB -> list D;
  setCollection : list D -> DB -> DB;
  docId : D -> ObjectId;
  toJSON : D -> J;
  populated : DB -> D -> J;
  construct : ObjectId -> I -> option D;
  indexOk : list D -> D -> bool;
  castUpdate : U -> option (D -> D)
}.

Definition idToString (id : JsId) : M string :=
  match JsId_toString id with
  | Some s => ret s
  | None => throw TypeError
  end.

Section Database.

Variable rt : Runtime.

Section Generic.

Variables D J I U : Type.
Variable model : Model D J I U.

(** [Model.findOne({})]: the first document of the collection. *)
Definition findOne (c : list D) : option D := hd_error c.

Definition findById (o : ObjectId) (c : list D) : option D :=
  find (fun d => (docId model d =? o)%N) c.

Fixpoint removeFirst (o : ObjectId) (c : list D) : list D :=
  match c with
  | [] => []
  | d :: rest =>
      if (docId model d =? o)%N then rest else d :: removeFirst o rest
  end.

Fixpoint replaceFirst (o : ObjectId) (d' : D) (c : list D) : list D :=
  match c with
  | [] => []
  | d :: rest =>
      if (docId model d =? o)%N then d' :: rest else d :: replaceFirst o d' rest
  end.

(** The cast of the [_id] of a query. *)
Definition castQueryId (id : JsId) : M ObjectId :=
  match castObjectId rt id with
  | Some o => ret o
  | None => throw CastError
  end.

(** database.ts, [getAll]. *)
Definition getAll : M (list J) :=
  db <- getDB ;;
  ret (map (populated model db) (collection model db)).

(** database.ts, [getById]. *)
Definition getById (id : JsId) : M (option J) :=
  s <- idToString id ;;
  document <-
    (if ObjectId_isValid rt s then
       o <- castQueryId id ;;
       db <- getDB ;;
       ret (findById o (collection model db))
     else
       (* For backwards compatibility with integer IDs *)
       db <- getDB ;;
       ret (findOne (collection model db))) ;;
  db <- getDB ;;
  ret (option_map (populated model db) document).

(** database.ts, [create]: [new Model(item)] takes the next ObjectId,
    [save] validates and inserts. *)
Definition create (item : I) : M J :=
  db <- getDB ;;
  putDB (bump_nextId db) ;;;
  match construct model (nextId db) item with
  | None => throw ValidationError
  | Some d =>
      if indexOk model (collection model db) d then
        putDB (setCollection model (collection model db ++ [d]) (bump_nextId db)) ;;;
        ret (toJSON model d)
      else throw DuplicateKey
  end.

(** [Model.findOneAndUpdate({ _id: o }, { $set: updates }, { new: true })]
    followed by [populate]. *)
Definition findOneAndUpdate (o : ObjectId) (updates : U) : M (option J) :=
  match castUpdate model updates with
  | None => throw CastError
  | Some f =>
      db <- getDB ;;
      match findById o (collection model db) with
      | None => ret None
      | Some d =>
          if indexOk model (removeFirst o (collection model db)) (f d) then
            let db' := setCollection model (replaceFirst o (f d) (collection model db)) db in
            putDB db' ;;;
            ret (Some (populated model db' (f d)))
          else throw DuplicateKey
      end
  end.

(** database.ts, [update]. *)
Definition update (id : JsId) (updates : U) : M (option J) :=
  s <- idToString id ;;
  if ObjectId_isValid rt s then
    o <- castQueryId id ;;
    findOneAndUpdate o updates
  else
    (* For backwards compatibility *)
    db <- getDB ;;
    match findOne (collection model db) with
    | None => ret None
    | Some document => findOneAndUpdate (docId model document) updates
    end.

(** [Model.deleteOne({ _id: o })], then [result.deletedCount > 0]. *)
Definition deleteOne (o : ObjectId) : M bool :=
  db <- getDB ;;
  match findById o (collection model db) with
  | None => ret false
  | Some _ =>
      putDB (setCollection model (removeFirst o (collection model db)) db) ;;;
      ret true
  end.

(** database.ts, [delete]. *)
Definition delete (id : JsId) : M bool :=
  s <- idToString id ;;
  if ObjectId_isValid rt s then
    o <- castQueryId id ;;
    deleteOne o
  else
    db <- getDB ;;
    match findOne (collection model db) with
    | None => ret false
    | Some document => deleteOne (docId model document)
    end.

(** database.ts, [getObjectId]. *)
Definition getObjectId (id : JsId) : M ObjectId :=
  s <- idToString id ;;
  if ObjectId_isValid rt s then ret (ObjectId_ofString s)
  else
    (* For backwards compatibility, find first document *)
    db <- getDB ;;
    match findOne (collection model db) with
    | None => throw (NoDocuments (table model))
    | Some document => ret (docId model document)
    end.

End Generic.

(** *** The seven models *)

Definition inIds (ids : list ObjectId) (r : ObjectId) : bool :=
  existsb (N.eqb r) ids.

(** [populate] of a single reference: the referenced document as a plain
    object, or [null] when there is none. *)
Definition populateRef (ids : list ObjectId) (r : ObjectId) : JsId :=
  if inIds ids r then JDoc r else JNull.

Definition populateOpt (ids : list ObjectId) (r : option ObjectId) : JsId :=
  match r with
  | Some x => populateRef ids x
  | None => JNull
  end.

(** [populate] of an array of references drops the missing documents. *)
Definition populateMany (ids : list ObjectId) (rs : list ObjectId) : list JsId :=
  map JDoc (filter (inIds ids) rs).

Definition unpopulatedOpt (r : option ObjectId) : JsId :=
  match r with
  | Some x => JOid x
  | None => JNull
  end.

(** The schema's and the handlers' time pattern,
    [/^([0-1]?[0-9]|2[0-3]):[0-5][0-9]$/]. *)
Definition timeRegex (s : string) : bool :=
  match s with
  | String h (String ":" (String m1 (String m2 EmptyString))) =>
      isDigit h && digitBelow 6 m1 && isDigit m2
  | String h1 (String h2 (String ":" (String m1 (String m2 EmptyString)))) =>
      ((digitBelow 2 h1 && isDigit h2)
       || (Ascii.eqb h1 "2" && digitBelow 4 h2))
      && digitBelow 6 m1 && isDigit m2
  | _ => false
  end.


Fixpoint castAll (l : list JsId) : option (list ObjectId) :=
  match l with
  | [] => Some []
  | v :: rest =>
      match castObjectId rt v, castAll rest with
      | Some o, Some os => Some (o :: os)
      | _, _ => None
      end
  end.

(** The cast of an optional reference: absent and [null] are stored as
    absent, a value that is no ObjectId is an error. *)
Definition castOptional (v : option JsId) : option (option ObjectId) :=
  match v with
  | None | Some JNull => Some None
  | Some x =>
      match castObjectId rt x with
      | Some o => Some (Some o)
      | None => None
      end
  end.

Definition schoolModel : Model SchoolDoc.t School.t Empty_set Empty_set :=
  let json d := {| School.id := apiId (SchoolDoc._id d); School.name := SchoolDoc.name d |} in
  {| table := "schools";
     collection := schools;
     setCollection := set_schools;
     docId := SchoolDoc._id;
     toJSON := json;
     populated := fun _ => json;
     construct := fun _ (item : Empty_set) => match item with end;
     indexOk := fun _ _ => true;
     castUpdate := fun u : Empty_set => match u with end |}.

Definition subjectModel : Model SubjectDoc.t Subject.t Empty_set Empty_set :=
  let json d := {| Subject.id := apiId (SubjectDoc._id d); Subject.name := SubjectDoc.name d |} in
  {| table := "subjects";
     collection := subjects;
     setCollection := set_subjects;
     docId := SubjectDoc._id;
     toJSON := json;
     populated := fun _ => json;
     construct := fun _ (item : Empty_set) => match item with end;
     indexOk := fun _ _ => true;
     castUpdate := fun u : Empty_set => match u with end |}.

Definition studentModel : Model StudentDoc.t Student.t Empty_set Empty_set :=
  let json d :=
    {| Student.id := apiId (StudentDoc._id d);
       Student.name := StudentDoc.name d;
       Student.fullName := StudentDoc.fullName d |} in
  {| table := "students";
     collection := students;
     setCollection := set_students;
     docId := StudentDoc._id;
     toJSON := json;
     populated := fun _ => json;
     construct := fun _ (item : Empty_set) => match item with end;
     indexOk := fun _ _ => true;
     castUpdate := fun u : Empty_set => match u with end |}.

Definition teacherModel : Model TeacherDoc.t Teacher.t Empty_set Empty_set :=
  {| table := "teachers";
     collection := teachers;
     setCollection := set_teachers;
     docId := TeacherDoc._id;
     toJSON := fun d =>
       {| Teacher.id := apiId (TeacherDoc._id d);
          Teacher.name := TeacherDoc.name d;
          Teacher.schoolIds := map JOid (TeacherDoc.schoolIds d) |};
     populated := fun db d =>
       {| Teacher.id := apiId (TeacherDoc._id d);
          Teacher.name := TeacherDoc.name d;
          Teacher.schoolIds :=
            populateMany (map SchoolDoc._id (schools db)) (TeacherDoc.schoolIds d) |};
     construct := fun _ (item : Empty_set) => match item with end;
     indexOk := fun _ _ => true;
     castUpdate := fun u : Empty_set => match u with end |}.

Definition orElse A (o : option A) (d : A) : A :=
  match o with Some x => x | None => d end.

(** The class schema: [name] is trimmed, required and at most 100 long,
    [schoolId] required, [maxStudents] within 1..200, [currentStudents] at
    least 0, [academicYear] required.  The embedded [schedule] array of the
    schema is not kept: the handlers read the schedules collection. *)
Definition constructClass (o : ObjectId) (item : ClassItem.t) : option ClassDoc.t :=
  let name := trim rt (ClassItem.name item) in
  match castObjectId rt (ClassItem.schoolId item),
        castOptional (ClassItem.teacherId item),
        castAll (ClassItem.subjectIds item),
        castOptional (ClassItem.primarySubjectId item) with
  | Some school, Some teacher, Some subjects, Some primary =>
      if negb (String.eqb name "") && (String.length name <=? 100)%nat
         && (1 <=? ClassItem.maxStudents item) && (ClassItem.maxStudents item <=? 200)
         && (0 <=? ClassItem.currentStudents item)
         && negb (String.eqb (ClassItem.academicYear item) "")
      then Some {| ClassDoc._id := o;
                   ClassDoc.name := name;
                   ClassDoc.schoolId := school;
                   ClassDoc.teacherId := teacher;
                   ClassDoc.subjectIds := subjects;
                   ClassDoc.primarySubjectId := primary;
                   ClassDoc.maxStudents := ClassItem.maxStudents item;
                   ClassDoc.currentStudents := ClassItem.currentStudents item;
                   ClassDoc.academicYear := ClassItem.academicYear item |}
      else None
  | _, _, _, _ => None
  end.

Definition castOptionalNum (v : option Z) : option (option ObjectId) :=
  match v with
  | None => Some None
  | Some n =>
      match castObjectId rt (JNum n) with
      | Some o => Some (Some o)
      | None => None
      end
  end.

(** The cast of the [schedule] array of an update.  The class schema
    embeds the array, each entry with a [subjectId] that is an ObjectId:
    the entries are cast one by one before anything is written. *)
Definition castEmbeddedSchedule (schedule : option (list ScheduleEntry.t))
  : option (list ObjectId) :=
  match schedule with
  | None => Some []
  | Some entries => castAll (map (fun e => JNum (ScheduleEntry.subjectId e)) entries)
  end.

(** [{ $set: updateData }] on a class: every reference the request gives
    is cast, those of the entries of [schedule] too; validators do not run
    on an update.  (The embedded array itself is not kept, see
    [constructClass].) *)
Definition castClassUpdate (u : ClassUpdate.t) : option (ClassDoc.t -> ClassDoc.t) :=
  match castOptionalNum (ClassUpdate.schoolId u),
        castOptionalNum (ClassUpdate.teacherId u),
        match ClassUpdate.subjectIds u with
        | None => Some None
        | Some l => option_map Some (castAll (map JNum l))
        end,
        castOptionalNum (ClassUpdate.primarySubjectId u),
        castEmbeddedSchedule (ClassUpdate.schedule u) with
  | Some school, Some teacher, Some subjects, Some primary, Some _ =>
      Some (fun d =>
        {| ClassDoc._id := ClassDoc._id d;
           ClassDoc.name := orElse (option_map (trim rt) (ClassUpdate.name u)) (ClassDoc.name d);
           ClassDoc.schoolId := orElse school (ClassDoc.schoolId d);
           ClassDoc.teacherId :=
             match teacher with Some t => Some t | None => ClassDoc.teacherId d end;
           ClassDoc.subjectIds := orElse subjects (ClassDoc.subjectIds d);
           ClassDoc.primarySubjectId :=
             match primary with Some p => Some p | None => ClassDoc.primarySubjectId d end;
           ClassDoc.maxStudents := orElse (ClassUpdate.maxStudents u) (ClassDoc.maxStudents d);
           ClassDoc.currentStudents := ClassDoc.currentStudents d;
           ClassDoc.academicYear := orElse (ClassUpdate.academicYear u) (ClassDoc.academicYear d) |})
  | _, _, _, _, _ => None
  end.

Definition classModel : Model ClassDoc.t Class.t ClassItem.t ClassUpdate.t :=
  {| table := "classes";
     collection := classes;
     setCollection := set_classes;
     docId := ClassDoc._id;
     toJSON := fun d =>
       {| Class.id := apiId (ClassDoc._id d);
          Class.name := ClassDoc.name d;
          Class.schoolId := JOid (ClassDoc.schoolId d);
          Class.teacherId := unpopulatedOpt (ClassDoc.teacherId d);
          Class.subjectIds := map JOid (ClassDoc.subjectIds d);
          Class.primarySubjectId := unpopulatedOpt (ClassDoc.primarySubjectId d);
          Class.maxStudents := ClassDoc.maxStudents d;
          Class.currentStudents := ClassDoc.currentStudents d;
          Class.academicYear := ClassDoc.academicYear d |};
     populated := fun db d =>
       {| Class.id := apiId (ClassDoc._id d);
          Class.name := ClassDoc.name d;
          Class.schoolId := populateRef (map SchoolDoc._id (schools db)) (ClassDoc.schoolId d);
          Class.teacherId := populateOpt (map TeacherDoc._id (teachers db)) (ClassDoc.teacherId d);
          Class.subjectIds := populateMany (map SubjectDoc._id (subjects db)) (ClassDoc.subjectIds d);
          Class.primarySubjectId :=
            populateOpt (map SubjectDoc._id (subjects db)) (ClassDoc.primarySubjectId d);
          Class.maxStudents := ClassDoc.maxStudents d;
          Class.currentStudents := ClassDoc.currentStudents d;
          Class.academicYear := ClassDoc.academicYear d |};
     construct := constructClass;
     indexOk := fun _ _ => true;
     castUpdate := castClassUpdate |}.

(** The enrollment schema: both references and the year are required, the
    date is cast. *)
Definition constructEnrollment (o : ObjectId) (item : EnrollmentItem.t)
  : option EnrollmentDoc.t :=
  match castObjectId rt (EnrollmentItem.studentId item),
        castObjectId rt (EnrollmentItem.classId item),
        castDate rt (EnrollmentItem.enrollmentDate item) with
  | Some student, Some cls, Some date =>
      if String.eqb (EnrollmentItem.academicYear item) "" then None
      else Some {| EnrollmentDoc._id := o;
                   EnrollmentDoc.studentId := student;
                   EnrollmentDoc.classId := cls;
                   EnrollmentDoc.enrollmentDate := date;
                   EnrollmentDoc.status := EnrollmentItem.status item;
                   EnrollmentDoc.academicYear := EnrollmentItem.academicYear item |}
  | _, _, _ => None
  end.

Definition sameTriple (a b : EnrollmentDoc.t) : bool :=
  (EnrollmentDoc.studentId a =? EnrollmentDoc.studentId b)%N
  && (EnrollmentDoc.classId a =? EnrollmentDoc.classId b)%N
  && Status_eqb (EnrollmentDoc.status a) (EnrollmentDoc.status b).

(** models/Enrollment.ts:
    [enrollmentSchema.index({ studentId: 1, classId: 1, status: 1 }, { unique: true })]. *)
Definition enrollmentIndexOk (others : list EnrollmentDoc.t) (d : EnrollmentDoc.t) : bool :=
  negb (existsb (sameTriple d) others).

Definition setStatus (s : Status) (d : EnrollmentDoc.t) : EnrollmentDoc.t :=
  {| EnrollmentDoc._id := EnrollmentDoc._id d;
     EnrollmentDoc.studentId := EnrollmentDoc.studentId d;
     EnrollmentDoc.classId := EnrollmentDoc.classId d;
     EnrollmentDoc.enrollmentDate := EnrollmentDoc.enrollmentDate d;
     EnrollmentDoc.status := s;
     EnrollmentDoc.academicYear := EnrollmentDoc.academicYear d |}.

Definition enrollmentModel : Model EnrollmentDoc.t Enrollment.t EnrollmentItem.t Status :=
  {| table := "enrollments";
     collection := enrollments;
     setCollection := set_enrollments;
     docId := EnrollmentDoc._id;
     toJSON := fun d =>
       {| Enrollment.id := apiId (EnrollmentDoc._id d);
          Enrollment.studentId := JOid (EnrollmentDoc.studentId d);
          Enrollment.classId := JOid (EnrollmentDoc.classId d);
          Enrollment.enrollmentDate := EnrollmentDoc.enrollmentDate d;
          Enrollment.status := EnrollmentDoc.status d;
          Enrollment.academicYear := EnrollmentDoc.academicYear d |};
     populated := fun db d =>
       {| Enrollment.id := apiId (EnrollmentDoc._id d);
          Enrollment.studentId :=
            populateRef (map StudentDoc._id (students db)) (EnrollmentDoc.studentId d);
          Enrollment.classId :=
            populateRef (map ClassDoc._id (classes db)) (EnrollmentDoc.classId d);
          Enrollment.enrollmentDate := EnrollmentDoc.enrollmentDate d;
          Enrollment.status := EnrollmentDoc.status d;
          Enrollment.academicYear := EnrollmentDoc.academicYear d |};
     construct := constructEnrollment;
     indexOk := enrollmentIndexOk;
     castUpdate := fun s => Some (setStatus s) |}.

(** The schedule schema: both references required, the day within 0..6,
    both times match the pattern, the room is trimmed and at most 50
    long. *)
Definition constructSchedule (o : ObjectId) (item : ScheduleItem.t)
  : option ClassScheduleDoc.t :=
  let room := option_map (trim rt) (ScheduleItem.room item) in
  match castObjectId rt (ScheduleItem.classId item),
        castObjectId rt (ScheduleItem.subjectId item) with
  | Some cls, Some subject =>
      if (0 <=? ScheduleItem.dayOfWeek item) && (ScheduleItem.dayOfWeek item <=? 6)
         && timeRegex (ScheduleItem.startTime item)
         && timeRegex (ScheduleItem.endTime item)
         && (String.length (orElse room "") <=? 50)%nat
      then Some {| ClassScheduleDoc._id := o;
                   ClassScheduleDoc.classId := cls;
                   ClassScheduleDoc.subjectId := subject;
                   ClassScheduleDoc.dayOfWeek := ScheduleItem.dayOfWeek item;
                   ClassScheduleDoc.startTime := ScheduleItem.startTime item;
                   ClassScheduleDoc.endTime := ScheduleItem.endTime item;
                   ClassScheduleDoc.room := room |}
      else None
  | _, _ => None
  end.

(** models/ClassSchedule.ts:
    [classScheduleSchema.index({ classId: 1, dayOfWeek: 1, startTime: 1 }, { unique: true })]. *)
Definition scheduleIndexOk (others : list ClassScheduleDoc.t) (d : ClassScheduleDoc.t) : bool :=
  negb (existsb (fun x =>
    (ClassScheduleDoc.classId x =? ClassScheduleDoc.classId d)%N
    && (ClassScheduleDoc.dayOfWeek x =? ClassScheduleDoc.dayOfWeek d)
    && String.eqb (ClassScheduleDoc.startTime x) (ClassScheduleDoc.startTime d)) others).

Definition scheduleModel : Model ClassScheduleDoc.t ClassSchedule.t ScheduleItem.t Empty_set :=
  {| table := "schedules";
     collection := schedules;
     setCollection := set_schedules;
     docId := ClassScheduleDoc._id;
     toJSON := fun d =>
       {| ClassSchedule.id := apiId (ClassScheduleDoc._id d);
          ClassSchedule.classId := JOid (ClassScheduleDoc.classId d);
          ClassSchedule.subjectId := JOid (ClassScheduleDoc.subjectId d);
          ClassSchedule.dayOfWeek := ClassScheduleDoc.dayOfWeek d;
          ClassSchedule.startTime := ClassScheduleDoc.startTime d;
          ClassSchedule.endTime := ClassScheduleDoc.endTime d;
          ClassSchedule.room := ClassScheduleDoc.room d |};
     populated := fun db d =>
       {| ClassSchedule.id := apiId (ClassScheduleDoc._id d);
          ClassSchedule.classId :=
            populateRef (map ClassDoc._id (classes db)) (ClassScheduleDoc.classId d);
          ClassSchedule.subjectId :=
            populateRef (map SubjectDoc._id (subjects db)) (ClassScheduleDoc.subjectId d);
          ClassSchedule.dayOfWeek := ClassScheduleDoc.dayOfWeek d;
          ClassSchedule.startTime := ClassScheduleDoc.startTime d;
          ClassSchedule.endTime := ClassScheduleDoc.endTime d;
          ClassSchedule.room := ClassScheduleDoc.room d |};
     construct := constructSchedule;
     indexOk := scheduleIndexOk;
     castUpdate := fun u : Empty_set => match u with end |}.

(** *** The specific queries of database.ts *)

(** database.ts, [getEnrollmentsByClassId]. *)
Definition getEnrollmentsByClassId (classId : JsId) : M (list Enrollment.t) :=
  o <- getObjectId classModel classId ;;
  db <- getDB ;;
  ret (map (populated enrollmentModel db)
           (filter (fun e => (EnrollmentDoc.classId e =? o)%N) (enrollments db))).

(** database.ts, [getEnrollmentsByStudentId]. *)
Definition getEnrollmentsByStudentId (studentId : JsId) : M (list Enrollment.t) :=
  o <- getObjectId studentModel studentId ;;
  db <- getDB ;;
  ret (map (populated enrollmentModel db)
           (filter (fun e => (EnrollmentDoc.studentId e =? o)%N) (enrollments db))).

(** database.ts, [getSchedulesByClassId]. *)
Definition getSchedulesByClassId (classId : JsId) : M (list ClassSchedule.t) :=
  o <- getObjectId classModel classId ;;
  db <- getDB ;;
  ret (map (populated scheduleModel db)
           (filter (fun s => (ClassScheduleDoc.classId s =? o)%N) (schedules db))).

Definition isActiveIn (o : ObjectId) (e : EnrollmentDoc.t) : bool :=
  (EnrollmentDoc.classId e =? o)%N && Status_eqb (EnrollmentDoc.status e) active.

(** [EnrollmentModel.countDocuments({ classId: o, status: 'active' })]. *)
Definition countActive (o : ObjectId) (db : DB) : Z :=
  Z.of_nat (List.length (filter (isActiveIn o) (enrollments db))).

Definition setCurrentStudents (n : Z) (d : ClassDoc.t) : ClassDoc.t :=
  {| ClassDoc._id := ClassDoc._id d;
     ClassDoc.name := ClassDoc.name d;
     ClassDoc.schoolId := ClassDoc.schoolId d;
     ClassDoc.teacherId := ClassDoc.teacherId d;
     ClassDoc.subjectIds := ClassDoc.subjectIds d;
     ClassDoc.primarySubjectId := ClassDoc.primarySubjectId d;
     ClassDoc.maxStudents := ClassDoc.maxStudents d;
     ClassDoc.currentStudents := n;
     ClassDoc.academicYear := ClassDoc.academicYear d |}.

(** [ClassModel.findByIdAndUpdate(o, { currentStudents: n })]: of the
    fields kept, [currentStudents] is the one that changes. *)
Definition findByIdAndUpdateCount (o : ObjectId) (n : Z) : M unit :=
  db <- getDB ;;
  match findById classModel o (classes db) with
  | None => ret tt
  | Some d => putDB (set_classes (replaceFirst classModel o (setCurrentStudents n d) (classes db)) db)
  end.

(** database.ts, [updateClassStudentCount]: "Update student count in
    class". *)
Definition updateClassStudentCount (classId : JsId) : M unit :=
  o <- getObjectId classModel classId ;;
  db <- getDB ;;
  let activeEnrollments := countActive o db in
  o' <- getObjectId classModel classId ;;
  findByIdAndUpdateCount o' activeEnrollments.

(** ** routes/enrollments.ts *)

(** enrollments.ts, [mapEnrollmentToResponse]. *)
Definition mapEnrollmentToResponse (enrollment : Enrollment.t) : M EnrollmentResponse.t :=
  student <- getById studentModel (Enrollment.studentId enrollment) ;;
  cls <- getById classModel (Enrollment.classId enrollment) ;;
  school <- match cls with
            | Some c => getById schoolModel (Class.schoolId c)
            | None => ret None
            end ;;
  ret {| EnrollmentResponse.enrollment := enrollment;
         EnrollmentResponse.student :=
           match student with
           | Some s => (Student.id s, Student.name s, Student.fullName s)
           | None => (0, "Unknown", "Unknown Student")
           end;
         EnrollmentResponse.cls :=
           match cls with
           | Some c => (Class.id c, Class.name c)
           | None => (0, "Unknown")
           end;
         EnrollmentResponse.school :=
           match school with
           | Some s => (School.id s, School.name s)
           | None => (0, "Unknown")
           end |}.

(** The duplicate test of the three handlers:
    [enrollment.studentId === studentId && enrollment.classId === classId
     && enrollment.status === "active"]. *)
Definition isActiveEnrollmentOf (studentId classId : JsId) (enrollment : Enrollment.t) : bool :=
  strictEq (Enrollment.studentId enrollment) studentId
  && strictEq (Enrollment.classId enrollment) classId
  && Status_eqb (Enrollment.status enrollment) active.

Definition isActive (enrollment : Enrollment.t) : bool :=
  Status_eqb (Enrollment.status enrollment) active.

(** POST /api/enrollments.  [body] is the request body as the zod schema
    parsed it, [None] when [safeParse] fails. *)
Definition createEnrollment (body : option CreateEnrollmentRequest.t) : M Response :=
  tryCatch
    (match body with
     | None => ret (validationError "Invalid enrollment data")
     | Some enrollmentData =>
         let studentId := JNum (CreateEnrollmentRequest.studentId enrollmentData) in
         let classId := JNum (CreateEnrollmentRequest.classId enrollmentData) in
         (* Validate student exists *)
         student <- getById studentModel studentId ;;
         match student with
         | None => ret (validationError "Student not found")
         | Some _ =>
         (* Validate class exists *)
         cls <- getById classModel classId ;;
         match cls with
         | None => ret (validationError "Class not found")
         | Some cls =>
         (* Check if student is already enrolled in this class *)
         allEnrollments <- getAll enrollmentModel ;;
         match find (isActiveEnrollmentOf studentId classId) allEnrollments with
         | Some _ => ret (validationError "Student is already enrolled in this class")
         | None =>
         (* Check if class has space *)
         ofClass <- getEnrollmentsByClassId classId ;;
         let activeEnrollments := filter isActive ofClass in
         if Class.maxStudents cls <=? Z.of_nat (List.length activeEnrollments) then
           ret (validationError "Class is full. Maximum students reached.")
         else
           (* Create the enrollment *)
           newEnrollment <- create enrollmentModel
             {| EnrollmentItem.studentId := studentId;
                EnrollmentItem.classId := classId;
                EnrollmentItem.enrollmentDate :=
                  CreateEnrollmentRequest.enrollmentDate enrollmentData;
                EnrollmentItem.academicYear :=
                  CreateEnrollmentRequest.academicYear enrollmentData;
                EnrollmentItem.status := active |} ;;
           (* Update class student count *)
           updateClassStudentCount classId ;;;
           data <- mapEnrollmentToResponse newEnrollment ;;
           ret {| statusCode := 201; body := EnrollmentBody data |}
         end end end
     end)
    (ret (internalError "Failed to create enrollment")).

(** PUT /api/enrollments/:id.  [id] is [parseInt(req.params.id)], [None]
    for NaN; [body] the parsed [{ status }]. *)
Definition updateEnrollment (id : option Z) (body : option Status) : M Response :=
  tryCatch
    (match id with
     | None => ret (validationError "Invalid enrollment ID")
     | Some id =>
     match body with
     | None => ret (validationError "Invalid enrollment data")
     | Some updateData =>
         (* Check if enrollment exists *)
         existingEnrollment <- getById enrollmentModel (JNum id) ;;
         match existingEnrollment with
         | None => ret (notFound "Enrollment not found")
         | Some existingEnrollment =>
         (* Update the enrollment *)
         updatedEnrollment <- update enrollmentModel (JNum id) updateData ;;
         match updatedEnrollment with
         | None => ret (internalError "Failed to update enrollment")
         | Some updatedEnrollment =>
             (* Update class student count *)
             updateClassStudentCount (Enrollment.classId existingEnrollment) ;;;
             data <- mapEnrollmentToResponse updatedEnrollment ;;
             ret {| statusCode := 200; body := EnrollmentBody data |}
         end end
     end end)
    (ret (internalError "Failed to update enrollment")).

(** DELETE /api/enrollments/:id. *)
Definition deleteEnrollment (id : option Z) : M Response :=
  tryCatch
    (match id with
     | None => ret (validationError "Invalid enrollment ID")
     | Some id =>
         (* Check if enrollment exists *)
         existingEnrollment <- getById enrollmentModel (JNum id) ;;
         match existingEnrollment with
         | None => ret (notFound "Enrollment not found")
         | Some existingEnrollment =>
         (* Delete the enrollment *)
         deleted <- delete enrollmentModel (JNum id) ;;
         if negb deleted then ret (internalError "Failed to delete enrollment")
         else
           (* Update class student count *)
           updateClassStudentCount (Enrollment.classId existingEnrollment) ;;;
           ret {| statusCode := 200; body := MessageBody "Enrollment deleted successfully" |}
         end
     end)
    (ret (internalError "Failed to delete enrollment")).

(** One turn of the loop of [bulkCreateEnrollments], without its
    [try]/[catch]: the created entry, or the message pushed to [errors]. *)
Definition bulkEnrollOne (cls : Class.t) (classId : JsId) (enrollmentDate academicYear : string)
    (studentId : JsId) : M (EnrollmentResponse.t + string) :=
  (* Validate student exists *)
  student <- getById studentModel studentId ;;
  match student with
  | None => ret (inr ("Student with ID " ++ JsId_template studentId ++ " not found"))
  | Some student =>
  (* Check if student is already enrolled *)
  allEnrollments <- getAll enrollmentModel ;;
  match find (isActiveEnrollmentOf studentId classId) allEnrollments with
  | Some _ =>
      ret (inr ("Student " ++ Student.name student ++ " is already enrolled in this class"))
  | None =>
  (* Check class capacity *)
  ofClass <- getEnrollmentsByClassId classId ;;
  let activeEnrollments := filter isActive ofClass in
  if Class.maxStudents cls <=? Z.of_nat (List.length activeEnrollments) then
    ret (inr ("Class is full. Cannot enroll student " ++ Student.name student))
  else
    (* Create enrollment *)
    newEnrollment <- create enrollmentModel
      {| EnrollmentItem.studentId := studentId;
         EnrollmentItem.classId := classId;
         EnrollmentItem.enrollmentDate := enrollmentDate;
         EnrollmentItem.academicYear := academicYear;
         EnrollmentItem.status := active |} ;;
    data <- mapEnrollmentToResponse newEnrollment ;;
    ret (inl data)
  end end.

(** The [for (const studentId of studentIds)] loop with its two arrays. *)
Fixpoint bulkLoop (cls : Class.t) (classId : JsId) (enrollmentDate academicYear : string)
    (studentIds : list JsId) (createdEnrollments : list EnrollmentResponse.t)
    (errors : list string) : M (list EnrollmentResponse.t * list string) :=
  match studentIds with
  | [] => ret (createdEnrollments, errors)
  | studentId :: rest =>
      r <- tryCatch
             (bulkEnrollOne cls classId enrollmentDate academicYear studentId)
             (ret (inr ("Failed to enroll student with ID " ++ JsId_template studentId))) ;;
      match r with
      | inl data =>
          bulkLoop cls classId enrollmentDate academicYear rest
                   (createdEnrollments ++ [data]) errors
      | inr message =>
          bulkLoop cls classId enrollmentDate academicYear rest
                   createdEnrollments (errors ++ [message])
      end
  end.

(** POST /api/enrollments/bulk.  The body is not validated: [studentIds]
    is [None] when it is no array, and the ids are whatever values the
    client sent. *)
Definition bulkCreateEnrollments (studentIds : option (list JsId)) (classId : JsId)
    (enrollmentDate academicYear : string) : M Response :=
  tryCatch
    (match studentIds with
     | None | Some [] => ret (validationError "studentIds must be a non-empty array")
     | Some studentIds =>
         (* Validate class exists *)
         cls <- getById classModel classId ;;
         match cls with
         | None => ret (validationError "Class not found")
         | Some cls =>
             r <- bulkLoop cls classId enrollmentDate academicYear studentIds [] [] ;;
             (* Update class student count *)
             updateClassStudentCount classId ;;;
             ret {| statusCode := 200; body := BulkBody (fst r) (snd r) |}
         end
     end)
    (ret (internalError "Failed to bulk create enrollments")).

(** PUT /api/enrollments/:id/transfer.  [today] is
    [new Date().toISOString().split('T')[0]]. *)
Definition transferStudent (today : string) (id : option Z) (newClassId : JsId) : M Response :=
  tryCatch
    (match id with
     | None => ret (validationError "Invalid enrollment ID or new class ID")
     | Some id =>
     if negb (truthy newClassId) then
       ret (validationError "Invalid enrollment ID or new class ID")
     else
       (* Check if enrollment exists *)
       existingEnrollment <- getById enrollmentModel (JNum id) ;;
       match existingEnrollment with
       | None => ret (notFound "Enrollment not found")
       | Some existingEnrollment =>
       (* Validate new class exists *)
       newClass <- getById classModel newClassId ;;
       match newClass with
       | None => ret (validationError "New class not found")
       | Some newClass =>
       (* Check if student is already enrolled in the new class *)
       allEnrollments <- getAll enrollmentModel ;;
       match find (isActiveEnrollmentOf (Enrollment.studentId existingEnrollment) newClassId)
                  allEnrollments with
       | Some _ => ret (validationError "Student is already enrolled in the new class")
       | None =>
       (* Check if new class has space *)
       ofClass <- getEnrollmentsByClassId newClassId ;;
       let activeEnrollments := filter isActive ofClass in
       if Class.maxStudents newClass <=? Z.of_nat (List.length activeEnrollments) then
         ret (validationError "New class is full. Maximum students reached.")
       else
         let oldClassId := Enrollment.classId existingEnrollment in
         (* Update enrollment status to transferred *)
         update enrollmentModel (JNum id) transferred ;;;
         (* Create new enrollment *)
         newEnrollment <- create enrollmentModel
           {| EnrollmentItem.studentId := Enrollment.studentId existingEnrollment;
              EnrollmentItem.classId := newClassId;
              EnrollmentItem.enrollmentDate := today;
              EnrollmentItem.academicYear := Enrollment.academicYear existingEnrollment;
              EnrollmentItem.status := active |} ;;
         (* Update class student counts *)
         updateClassStudentCount oldClassId ;;;
         updateClassStudentCount newClassId ;;;
         data <- mapEnrollmentToResponse newEnrollment ;;
         ret {| statusCode := 200; body := EnrollmentBody data |}
       end end end
     end)
    (ret (internalError "Failed to transfer student")).

(** ** routes/students.ts *)

(** DELETE /api/students/:id, with its cascade over the student's
    enrollments. *)
Definition deleteStudent (id : option Z) : M Response :=
  tryCatch
    (match id with
     | None => ret (validationError "Invalid student ID")
     | Some id =>
         (* Check if student exists *)
         existingStudent <- getById studentModel (JNum id) ;;
         match existingStudent with
         | None => ret (notFound "Student not found")
         | Some _ =>
         (* Remove all enrollments for this student before deletion *)
         studentEnrollments <- getEnrollmentsByStudentId (JNum id) ;;
         forEach studentEnrollments (fun enrollment =>
           delete enrollmentModel (JNum (Enrollment.id enrollment)) ;;;
           (* Update class student count *)
           updateClassStudentCount (Enrollment.classId enrollment)) ;;;
         (* Delete the student *)
         deleted <- delete studentModel (JNum id) ;;
         if negb deleted then ret (internalError "Failed to delete student")
         else ret {| statusCode := 200; body := MessageBody "Student deleted successfully" |}
         end
     end)
    (ret (internalError "Failed to delete student")).

(** ** routes/schedule.ts *)

(** [new Date(`1970-01-01T${t}:00`).getTime()], [None] for an Invalid
    Date.  A two-digit [HH:MM] makes an ISO date-time string, read as local
    time: the milliseconds since local midnight (the constant distance to
    the epoch is left out; the code only compares and subtracts two such
    dates).  Any other string is left to the engine. *)
Definition clockDate (t : string) : option Z :=
  match t with
  | String h1 (String h2 (String ":" (String m1 (String m2 EmptyString)))) =>
      if clockOk h1 h2 m1 m2
      then Some (clockMinutes h1 h2 m1 m2 * 60000)
      else lenientDateParse rt ("1970-01-01T" ++ t ++ ":00")
  | _ => lenientDateParse rt ("1970-01-01T" ++ t ++ ":00")
  end.

(** [a < b] on two dates; a comparison with an Invalid Date is false. *)
Definition dateLt (a b : option Z) : bool :=
  match a, b with
  | Some x, Some y => x <? y
  | _, _ => false
  end.

Definition dateGe (a b : option Z) : bool :=
  match a, b with
  | Some x, Some y => y <=? x
  | _, _ => false
  end.

Definition formatTimeRange (startTime endTime : string) : string :=
  startTime ++ " - " ++ endTime.

(** [x || fallback] on a string that may be missing. *)
Definition nameOr (fallback : string) (name : option string) : string :=
  match name with
  | None | Some "" => fallback
  | Some n => n
  end.

(** The filter of [checkScheduleConflicts]:
    [s.dayOfWeek === schedule.dayOfWeek && s.id !== excludeId]. *)
Definition isSameDay (schedule : ClassSchedule.t) (excludeId : option Z)
    (s : ClassSchedule.t) : bool :=
  (ClassSchedule.dayOfWeek s =? ClassSchedule.dayOfWeek schedule)
  && negb (match excludeId with
           | Some x => ClassSchedule.id s =? x
           | None => false
           end).

(** The test under "Check for overlap":
    [newStart < existingEnd && newEnd > existingStart]. *)
Definition timesOverlap (schedule existing : ClassSchedule.t) : bool :=
  let existingStart := clockDate (ClassSchedule.startTime existing) in
  let existingEnd := clockDate (ClassSchedule.endTime existing) in
  let newStart := clockDate (ClassSchedule.startTime schedule) in
  let newEnd := clockDate (ClassSchedule.endTime schedule) in
  dateLt newStart existingEnd && dateLt existingStart newEnd.

(** [existing.room && schedule.room &&
     existing.room.toLowerCase() === schedule.room.toLowerCase()]. *)
Definition sameRoom (existing schedule : ClassSchedule.t) : bool :=
  match ClassSchedule.room existing, ClassSchedule.room schedule with
  | Some a, Some b =>
      negb (String.eqb a "") && negb (String.eqb b "")
      && String.eqb (toLowerCase rt a) (toLowerCase rt b)
  | _, _ => false
  end.

(** [existingClass?.teacherId && newClass?.teacherId &&
     existingClass.teacherId === newClass.teacherId]. *)
Definition sameTeacher (existingClass newClass : option Class.t) : bool :=
  match existingClass, newClass with
  | Some e, Some n =>
      truthy (Class.teacherId e) && truthy (Class.teacherId n)
      && strictEq (Class.teacherId e) (Class.teacherId n)
  | _, _ => false
  end.

Definition roomConflictMessage (schedule existing : ClassSchedule.t)
    (existingClass : option Class.t) : string :=
  "Room conflict: " ++ orElse (ClassSchedule.room schedule) ""
  ++ " is already booked at "
  ++ formatTimeRange (ClassSchedule.startTime existing) (ClassSchedule.endTime existing)
  ++ " for class " ++ nameOr "Unknown" (option_map Class.name existingClass).

Definition teacherConflictMessage (existing : ClassSchedule.t)
    (teacher : option Teacher.t) : string :=
  "Teacher conflict: " ++ nameOr "Unknown teacher" (option_map Teacher.name teacher)
  ++ " is already scheduled at "
  ++ formatTimeRange (ClassSchedule.startTime existing) (ClassSchedule.endTime existing).

(** The body of the loop of [checkScheduleConflicts] for one entry of
    [sameDay]: the messages it pushes. *)
Definition conflictsWith (schedule existing : ClassSchedule.t) : M (list string) :=
  (* Check for overlap *)
  if timesOverlap schedule existing then
    existingClass <- getById classModel (ClassSchedule.classId existing) ;;
    newClass <- getById classModel (ClassSchedule.classId schedule) ;;
    (* Room conflict *)
    let roomConflicts :=
      if sameRoom existing schedule
      then [roomConflictMessage schedule existing existingClass]
      else [] in
    (* Teacher conflict (if same teacher) *)
    if sameTeacher existingClass newClass then
      teacher <- getById teacherModel
                   (match existingClass with Some e => Class.teacherId e | None => JNull end) ;;
      ret (roomConflicts ++ [teacherConflictMessage existing teacher])%list
    else ret roomConflicts
  else ret [].

Fixpoint conflictLoop (schedule : ClassSchedule.t) (sameDay : list ClassSchedule.t)
    (conflicts : list string) : M (list string) :=
  match sameDay with
  | [] => ret conflicts
  | existing :: rest =>
      pushed <- conflictsWith schedule existing ;;
      conflictLoop schedule rest (conflicts ++ pushed)
  end.

(** schedule.ts, [checkScheduleConflicts]. *)
Definition checkScheduleConflicts (schedule : ClassSchedule.t) (excludeId : option Z)
  : M (list string) :=
  allSchedules <- getAll scheduleModel ;;
  (* Check for time conflicts on the same day *)
  let sameDay := filter (isSameDay schedule excludeId) allSchedules in
  conflictLoop schedule sameDay [].

(** POST /api/schedule/validate.  The body is not validated by a schema;
    [dayOfWeek] is [None] when the field is missing, an empty time stands
    for a missing one. *)
Definition validateSchedule (classId subjectId : JsId) (dayOfWeek : option Z)
    (startTime endTime : string) (room : option string) : M Response :=
  tryCatch
    (match dayOfWeek with
     | None => ret (validationError "Missing required fields")
     | Some day =>
     if negb (truthy classId) || negb (truthy subjectId)
        || String.eqb startTime "" || String.eqb endTime "" then
       ret (validationError "Missing required fields")
     else if negb (timeRegex startTime) || negb (timeRegex endTime) then
       (* Validate time format and logic *)
       ret (validationError "Invalid time format. Use HH:MM format")
     else if dateGe (clockDate startTime) (clockDate endTime) then
       ret (validationError "End time must be after start time")
     else
       (* Check for conflicts *)
       let tempSchedule :=
         {| ClassSchedule.id := 0;
            ClassSchedule.classId := classId;
            ClassSchedule.subjectId := subjectId;
            ClassSchedule.dayOfWeek := day;
            ClassSchedule.startTime := startTime;
            ClassSchedule.endTime := endTime;
            ClassSchedule.room := room |} in
       conflicts <- checkScheduleConflicts tempSchedule None ;;
       ret {| statusCode := 200;
              body := ValidationBody (match conflicts with [] => true | _ => false end)
                                     conflicts tempSchedule |}
     end)
    (ret (internalError "Failed to validate schedule")).

Definition getDayNames : list string :=
  ["Воскресенье"; "Понедельник"; "Вторник"; "Среда"; "Четверг"; "Пятница"; "Суббота"].

(** [getDayNames()[dayOfWeek]]. *)
Definition dayNameOf (dayOfWeek : Z) : option string :=
  if dayOfWeek <? 0 then None else nth_error getDayNames (Z.to_nat dayOfWeek).

(** The [Map] of [getRoomUtilization]: keys in insertion order. *)
Definition RoomMap := list (string * RoomEntry.t).

Definition mapHas (key : string) (m : RoomMap) : bool :=
  existsb (fun p => String.eqb (fst p) key) m.

Definition mapSet (key : string) (v : RoomEntry.t) (m : RoomMap) : RoomMap :=
  (m ++ [(key, v)])%list.

(** A change of the object stored under [key]. *)
Fixpoint mapMutate (key : string) (f : RoomEntry.t -> RoomEntry.t) (m : RoomMap) : RoomMap :=
  match m with
  | [] => []
  | (k, v) :: rest =>
      if String.eqb k key then (k, f v) :: rest else (k, v) :: mapMutate key f rest
  end.

(** [(end.getTime() - start.getTime()) / (1000 * 60 * 60)].  The two
    times are whole milliseconds: their difference is the double nearest to
    the exact one, and the quotient is rounded once.  With an Invalid Date
    the difference and the quotient are NaN. *)
Definition durationHours (schedule : ClassSchedule.t) : double :=
  match clockDate (ClassSchedule.startTime schedule),
        clockDate (ClassSchedule.endTime schedule) with
  | Some s, Some e => Double_div (Double_ofZ (e - s)) (Double_ofZ 3600000)
  | _, _ => S754_nan
  end.

(** [room.totalHours += duration; room.sessions.push(session)]. *)
Definition addSession (duration : double) (session : Session.t) (room : RoomEntry.t)
  : RoomEntry.t :=
  {| RoomEntry.room := RoomEntry.room room;
     RoomEntry.totalHours := Double_add (RoomEntry.totalHours room) duration;
     RoomEntry.sessions := (RoomEntry.sessions room ++ [session])%list;
     RoomEntry.conflicts := RoomEntry.conflicts room |}.

Definition addConflicts (conflicts : list string) (room : RoomEntry.t) : RoomEntry.t :=
  {| RoomEntry.room := RoomEntry.room room;
     RoomEntry.totalHours := RoomEntry.totalHours room;
     RoomEntry.sessions := RoomEntry.sessions room;
     RoomEntry.conflicts := (RoomEntry.conflicts room ++ conflicts)%list |}.

(** The loop of [getRoomUtilization] over [allSchedules]. *)
Fixpoint roomLoop (allSchedules : list ClassSchedule.t) (roomUtilization : RoomMap)
  : M RoomMap :=
  match allSchedules with
  | [] => ret roomUtilization
  | schedule :: rest =>
      match ClassSchedule.room schedule with
      | None | Some "" => roomLoop rest roomUtilization
      | Some label =>
          let roomKey := toLowerCase rt label in
          let roomUtilization :=
            if mapHas roomKey roomUtilization then roomUtilization
            else mapSet roomKey
                   {| RoomEntry.room := label;
                      RoomEntry.totalHours := S754_zero false;
                      RoomEntry.sessions := [];
                      RoomEntry.conflicts := [] |} roomUtilization in
          cls <- getById classModel (ClassSchedule.classId schedule) ;;
          subject <- getById subjectModel (ClassSchedule.subjectId schedule) ;;
          (* Calculate duration *)
          let duration := durationHours schedule in
          let session :=
            {| Session.classId := ClassSchedule.classId schedule;
               Session.className := nameOr "Unknown" (option_map Class.name cls);
               Session.subjectName := nameOr "Unknown" (option_map Subject.name subject);
               Session.dayOfWeek := ClassSchedule.dayOfWeek schedule;
               Session.dayName := dayNameOf (ClassSchedule.dayOfWeek schedule);
               Session.timeRange :=
                 formatTimeRange (ClassSchedule.startTime schedule)
                                 (ClassSchedule.endTime schedule);
               Session.duration := duration |} in
          let roomUtilization := mapMutate roomKey (addSession duration session) roomUtilization in
          (* Check for conflicts *)
          conflicts <- checkScheduleConflicts schedule (Some (ClassSchedule.id schedule)) ;;
          roomLoop rest (mapMutate roomKey (addConflicts conflicts) roomUtilization)
      end
  end.

(** [b.totalHours - a.totalHours > 0], what the comparison function of
    the sort returns being positive; false when the difference is NaN. *)
Definition comesAfter (a b : RoomEntry.t) : bool :=
  Double_isPositive (Double_sub (RoomEntry.totalHours b) (RoomEntry.totalHours a)).

Fixpoint insertRoom (a : RoomEntry.t) (sorted : list RoomEntry.t) : list RoomEntry.t :=
  match sorted with
  | [] => [a]
  | b :: rest => if comesAfter a b then b :: insertRoom a rest else a :: b :: rest
  end.

(** [rooms.sort((a, b) => b.totalHours - a.totalHours)].  The sort of
    JavaScript is stable, and a stable sort has one result for a
    consistent comparison: the stable insertion sort gives it.  (With a
    NaN total the comparison is not consistent and the engine's order is
    its own.) *)
Fixpoint sortRooms (rooms : list RoomEntry.t) : list RoomEntry.t :=
  match rooms with
  | [] => []
  | a :: rest => insertRoom a (sortRooms rest)
  end.

(** GET /api/schedule/rooms. *)
Definition getRoomUtilization : M Response :=
  tryCatch
    (allSchedules <- getAll scheduleModel ;;
     roomUtilization <- roomLoop allSchedules [] ;;
     let roomData := sortRooms (map snd roomUtilization) in
     ret {| statusCode := 200;
            body := RoomsBody (Z.of_nat (List.length roomData)) roomData |})
    (ret (internalError "Failed to get room utilization")).

End Database.

(** ** The overlap test of the specification *)

(** A time in the two-digit form [HH:MM], from 00:00 to 23:59. *)
Definition isoTime (t : string) : bool :=
  match t with
  | String h1 (String h2 (String ":" (String m1 (String m2 EmptyString)))) =>
      clockOk h1 h2 m1 m2
  | _ => false
  end.

(** Minutes since midnight of such a time. *)
Definition minutesSinceMidnight (t : string) : Z :=
  match t with
  | String h1 (String h2 (String ":" (String m1 (String m2 EmptyString)))) =>
      clockMinutes h1 h2 m1 m2
  | _ => 0
  end.

Definition wellTimed (s : ClassSchedule.t) : Prop :=
  isoTime (ClassSchedule.startTime s) = true /\ isoTime (ClassSchedule.endTime s) = true.

Definition wellTimedDoc (d : ClassScheduleDoc.t) : Prop :=
  isoTime (ClassScheduleDoc.startTime d) = true /\ isoTime (ClassScheduleDoc.endTime d) = true.

(** Two entries overlap: same day, [start1 < end2] and [start2 < end1]. *)
Definition overlaps (a b : ClassSchedule.t) : bool :=
  (ClassSchedule.dayOfWeek b =? ClassSchedule.dayOfWeek a)
  && (minutesSinceMidnight (ClassSchedule.startTime a)
      <? minutesSinceMidnight (ClassSchedule.endTime b))
  && (minutesSinceMidnight (ClassSchedule.startTime b)
      <? minutesSinceMidnight (ClassSchedule.endTime a)).


(** [s.id !== excludeId]. *)
Definition notExcluded (excludeId : option Z) (s : ClassSchedule.t) : bool :=
  negb (match excludeId with
        | Some x => ClassSchedule.id s =? x
        | None => false
        end).

(** ** Example data *)

Definition asciiLower (c : ascii) : ascii :=
  let n := N_of_ascii c in
  if ((65 <=? n) && (n <=? 90))%N then ascii_of_N (n + 32) else c.

Fixpoint lowerAscii (s : string) : string :=
  match s with
  | EmptyString => EmptyString
  | String c rest => String (asciiLower c) (lowerAscii rest)
  end.

(** A runtime for the examples: a current driver, ASCII lower-casing, no
    white space to trim, every date string but the empty one accepted, and
    an engine that reads nothing but the ISO form. *)
Definition exampleRuntime : Runtime :=
  {| legacy12 := false;
     toLowerCase := lowerAscii;
     trim := fun s => s;
     castDate := fun s => if String.eqb s "" then None else Some s;
     lenientDateParse := fun _ => None |}.

Definition school1 : SchoolDoc.t :=
  {| SchoolDoc._id := 0x650000000000000000000a01%N; SchoolDoc.name := "Madrasa 1" |}.

Definition teacher7 : TeacherDoc.t :=
  {| TeacherDoc._id := 0x650000000000000000000b07%N;
     TeacherDoc.name := "Ustaz Yusuf";
     TeacherDoc.schoolIds := [0x650000000000000000000a01%N] |}.

Definition exampleClass (o : ObjectId) (name : string) (teacher : option ObjectId)
    (maxStudents currentStudents : Z) : ClassDoc.t :=
  {| ClassDoc._id := o;
     ClassDoc.name := name;
     ClassDoc.schoolId := 0x650000000000000000000a01%N;
     ClassDoc.teacherId := teacher;
     ClassDoc.subjectIds := [0x650000000000000000000501%N];
     ClassDoc.primarySubjectId := None;
     ClassDoc.maxStudents := maxStudents;
     ClassDoc.currentStudents := currentStudents;
     ClassDoc.academicYear := "2024-2025" |}.

Definition classA_id : ObjectId := 0x650000000000000000000c01%N.
Definition classB_id : ObjectId := 0x650000000000000000000c02%N.
Definition classC_id : ObjectId := 0x650000000000000000000c03%N.

Definition ahmad : StudentDoc.t :=
  {| StudentDoc._id := 0x650000000000000000000d01%N;
     StudentDoc.name := "Ahmad S";
     StudentDoc.fullName := "Ahmad Salman Rashidov" |}.

Definition fatima : StudentDoc.t :=
  {| StudentDoc._id := 0x650000000000000000000d02%N;
     StudentDoc.name := "Fatima A";
     StudentDoc.fullName := "Fatima Al-Zahra Ahmedova" |}.

Definition exampleEnrollment (o student cls : ObjectId) (status : Status) : EnrollmentDoc.t :=
  {| EnrollmentDoc._id := o;
     EnrollmentDoc.studentId := student;
     EnrollmentDoc.classId := cls;
     EnrollmentDoc.enrollmentDate := "2023-09-01";
     EnrollmentDoc.status := status;
     EnrollmentDoc.academicYear := "2024-2025" |}.

Definition subject1 : SubjectDoc.t :=
  {| SubjectDoc._id := 0x650000000000000000000501%N; SubjectDoc.name := "Quran" |}.

Definition baseDB : DB :=
  {| schools := [school1];
     teachers := [teacher7];
     subjects := [subject1];
     classes := [];
     students := [ahmad; fatima];
     enrollments := [];
     schedules := [];
     nextId := 0x650000000000000000001000%N |}.

(** Class A (one seat, taken by Ahmad) stands first in the collection,
    class B (five seats, nobody enrolled) second. *)
Definition fullFirstClassDB : DB :=
  set_enrollments
    [exampleEnrollment 0x650000000000000000000e01%N
       (StudentDoc._id ahmad) classA_id active]
    (set_classes [exampleClass classA_id "Group A" None 1 1;
                  exampleClass classB_id "Group B" None 5 0] baseDB).

(** Fatima asks for a seat in class B. *)
Definition fatimaIntoB : CreateEnrollmentRequest.t :=
  {| CreateEnrollmentRequest.studentId := apiId (StudentDoc._id fatima);
     CreateEnrollmentRequest.classId := apiId classB_id;
     CreateEnrollmentRequest.enrollmentDate := "2024-09-01";
     CreateEnrollmentRequest.academicYear := "2024-2025" |}.

(** Class A stands first and is empty; the only enrollment is Ahmad's, in
    class B, whose stored count is 1. *)
Definition oneInSecondClassDB : DB :=
  set_enrollments
    [exampleEnrollment 0x650000000000000000000e01%N
       (StudentDoc._id ahmad) classB_id active]
    (set_classes [exampleClass classA_id "Group A" None 30 0;
                  exampleClass classB_id "Group B" None 30 1] baseDB).

(** Ahmad and Fatima are both enrolled in class A; class B is empty. *)
Definition twoInFirstClassDB : DB :=
  set_enrollments
    [exampleEnrollment 0x650000000000000000000e01%N
       (StudentDoc._id ahmad) classA_id active;
     exampleEnrollment 0x650000000000000000000e02%N
       (StudentDoc._id fatima) classA_id active]
    (set_classes [exampleClass classA_id "Group A" None 30 2;
                  exampleClass classB_id "Group B" None 30 0] baseDB).

Definition exampleSchedule (o cls : ObjectId) (day : Z) (startTime endTime : string)
    (room : option string) : ClassScheduleDoc.t :=
  {| ClassScheduleDoc._id := o;
     ClassScheduleDoc.classId := cls;
     ClassScheduleDoc.subjectId := 0x650000000000000000000501%N;
     ClassScheduleDoc.dayOfWeek := day;
     ClassScheduleDoc.startTime := startTime;
     ClassScheduleDoc.endTime := endTime;
     ClassScheduleDoc.room := room |}.

(** Class A has no teacher; classes B and C are both taught by teacher 7.
    Class B meets on day 1 from 09:00 to 10:30 in Hall1. *)
Definition sharedTeacherDB : DB :=
  set_schedules
    [exampleSchedule 0x650000000000000000000f01%N classB_id 1 "09:00" "10:30" (Some "Hall1")]
    (set_classes [exampleClass classA_id "Group A" None 30 0;
                  exampleClass classB_id "Group B" (Some (TeacherDoc._id teacher7)) 30 0;
                  exampleClass classC_id "Group C" (Some (TeacherDoc._id teacher7)) 30 0]
                 baseDB).

(** One entry, on day 1 from 09:00 to 10:00 in Hall1. *)
Definition morningDB : DB :=
  set_schedules
    [exampleSchedule 0x650000000000000000000f01%N classA_id 1 "09:00" "10:00" (Some "Hall1")]
    (set_classes [exampleClass classA_id "Group A" (Some (TeacherDoc._id teacher7)) 30 0]
                 baseDB).

Definition candidate (cls : JsId) (day : Z) (startTime endTime : string)
    (room : option string) : ClassSchedule.t :=
  {| ClassSchedule.id := 0;
     ClassSchedule.classId := cls;
     ClassSchedule.subjectId := JNum (apiId (SubjectDoc._id subject1));
     ClassSchedule.dayOfWeek := day;
     ClassSchedule.startTime := startTime;
     ClassSchedule.endTime := endTime;
     ClassSchedule.room := room |}.

(** ** The states the enrollment operations reach *)

Inductive EnrollmentOp :=
| OpCreate (body : option CreateEnrollmentRequest.t)
| OpBulkCreate (studentIds : option (list JsId)) (classId : JsId)
               (enrollmentDate academicYear : string)
| OpUpdateStatus (id : option Z) (body : option Status)
| OpTransfer (today : string) (id : option Z) (newClassId : JsId)
| OpDelete (id : option Z)
| OpDeleteStudent (id : option Z).

Definition runOp (rt : Runtime) (op : EnrollmentOp) : M Response :=
  match op with
  | OpCreate body => createEnrollment rt body
  | OpBulkCreate studentIds classId enrollmentDate academicYear =>
      bulkCreateEnrollments rt studentIds classId enrollmentDate academicYear
  | OpUpdateStatus id body => updateEnrollment rt id body
  | OpTransfer today id newClassId => transferStudent rt today id newClassId
  | OpDelete id => deleteEnrollment rt id
  | OpDeleteStudent id => deleteStudent rt id
  end.




(** A computation keeps a property of the database, however it ends. *)
Definition preserves (P : DB -> Prop) A (m : M A) : Prop :=
  forall db, P db -> P (snd (m db)).

Definition readOnly A (m : M A) : Prop :=
  forall db, snd (m db) = db.


(** ** The room report, entry by entry *)

(** The key of an entry in the report: the lower-cased room label; none
    for an entry without a room or with an empty one. *)
Definition roomKeyOf (rt : Runtime) (s : ClassSchedule.t) : option string :=
  match ClassSchedule.room s with
  | None | Some "" => None
  | Some label => Some (toLowerCase rt label)
  end.

Definition inRoom (rt : Runtime) (key : string) (s : ClassSchedule.t) : bool :=
  match roomKeyOf rt s with
  | Some k => String.eqb k key
  | None => false
  end.









(** A finite double whose exponent is in the range of the format. *)
Definition aboveEmin (x : double) : Prop :=
  match x with
  | S754_finite _ _ e => -1074 <= e
  | _ => True
  end.








(** Hall is booked once for 110 minutes; Lab for 50 and for 60 minutes. *)
Definition elevenSixthsDB : DB :=
  set_schedules
    [exampleSchedule 0x650000000000000000000f01%N classA_id 1 "08:00" "09:50" (Some "Hall");
     exampleSchedule 0x650000000000000000000f02%N classA_id 2 "10:00" "10:50" (Some "Lab");
     exampleSchedule 0x650000000000000000000f03%N classA_id 3 "11:00" "12:00" (Some "Lab")]
    (set_classes [exampleClass classA_id "Group A" None 30 0] baseDB).



(** The rooms of a response, none when it is no room report. *)
Definition roomsOfResponse (r : Result Response) : list RoomEntry.t :=
  match r with
  | Ok {| statusCode := _; body := RoomsBody _ rooms |} => rooms
  | _ => []
  end.

(** ** routes/classes.ts *)

(** zod's [scheduleSchema]. *)
Definition scheduleSchema (e : ScheduleEntry.t) : bool :=
  (0 <=? ScheduleEntry.dayOfWeek e) && (ScheduleEntry.dayOfWeek e <=? 6)
  && timeRegex (ScheduleEntry.startTime e)
  && timeRegex (ScheduleEntry.endTime e)
  && (String.length (orElse (ScheduleEntry.room e) "") <=? 100)%nat.

(** zod's [createClassSchema]. *)
Definition createClassSchema (r : CreateClassRequest.t) : bool :=
  (1 <=? String.length (CreateClassRequest.name r))%nat
  && (String.length (CreateClassRequest.name r) <=? 100)%nat
  && (1 <=? List.length (CreateClassRequest.subjectIds r))%nat
  && (1 <=? CreateClassRequest.maxStudents r)
  && (CreateClassRequest.maxStudents r <=? 100)
  && forallb scheduleSchema (orElse (CreateClassRequest.schedule r) []).

Definition whenPresent A (check : A -> bool) (v : option A) : bool :=
  match v with
  | Some x => check x
  | None => true
  end.

(** zod's [updateClassSchema], [createClassSchema.partial()]. *)
Definition updateClassSchema (u : ClassUpdate.t) : bool :=
  whenPresent (fun n => (1 <=? String.length n)%nat && (String.length n <=? 100)%nat)
              (ClassUpdate.name u)
  && whenPresent (fun l => (1 <=? List.length l)%nat) (ClassUpdate.subjectIds u)
  && whenPresent (fun n => (1 <=? n) && (n <=? 100)) (ClassUpdate.maxStudents u)
  && whenPresent (forallb scheduleSchema) (ClassUpdate.schedule u).

(** [array.includes(v)]. *)
Definition includes (l : list JsId) (v : JsId) : bool :=
  existsb (fun x => strictEq x v) l.

(** [n || fallback] on an optional number. *)
Definition numberOr (n : option Z) (fallback : JsId) : JsId :=
  match n with
  | Some x => if x =? 0 then fallback else JNum x
  | None => fallback
  end.

Definition isTruthyNumber (n : option Z) : bool :=
  match n with
  | Some x => negb (x =? 0)
  | None => false
  end.

Section Classes.

Variable rt : Runtime.

(** classes.ts, [validateScheduleTime]. *)
Definition validateScheduleTime (startTime endTime : string) : bool :=
  dateLt (clockDate rt startTime) (clockDate rt endTime).

(** classes.ts, [mapClassToResponse].  The joined fields of the response
    are not kept; the lookups are made in the order of the code, for the
    exceptions they can raise. *)
Definition mapClassToResponse (cls : Class.t) : M Class.t :=
  getById rt schoolModel (Class.schoolId cls) ;;;
  (if truthy (Class.teacherId cls)
   then getById rt teacherModel (Class.teacherId cls) ;;; ret tt
   else ret tt) ;;;
  mapM (getById rt subjectModel) (Class.subjectIds cls) ;;;
  (if truthy (Class.primarySubjectId cls)
   then getById rt subjectModel (Class.primarySubjectId cls) ;;; ret tt
   else ret tt) ;;;
  getObjectId rt (classModel rt) (JNum (Class.id cls)) ;;;
  getSchedulesByClassId rt (JNum (Class.id cls)) ;;;
  ret cls.

(** The schedule loop of [createClass], "Validate schedule times". *)
Definition checkScheduleItem (subjectIds : list Z) (scheduleItem : ScheduleEntry.t)
  : M (option Response) :=
  if negb (validateScheduleTime (ScheduleEntry.startTime scheduleItem)
                                (ScheduleEntry.endTime scheduleItem)) then
    ret (Some (validationError "End time must be after start time"))
  else if negb (existsb (Z.eqb (ScheduleEntry.subjectId scheduleItem)) subjectIds) then
    (* Validate schedule subject is in class subjects *)
    ret (Some (validationError "Schedule subject must be included in class subjects"))
  else ret None.

Definition checkSubjectExists (subjectId : Z) : M (option Response) :=
  subject <- getById rt subjectModel (JNum subjectId) ;;
  match subject with
  | None =>
      ret (Some (validationError
                   ("Subject with ID " ++ Number_toString subjectId ++ " not found")))
  | Some _ => ret None
  end.

Definition createScheduleEntry (classId : JsId) (scheduleItem : ScheduleEntry.t) : M unit :=
  create (scheduleModel rt)
    {| ScheduleItem.classId := classId;
       ScheduleItem.subjectId := JNum (ScheduleEntry.subjectId scheduleItem);
       ScheduleItem.dayOfWeek := ScheduleEntry.dayOfWeek scheduleItem;
       ScheduleItem.startTime := ScheduleEntry.startTime scheduleItem;
       ScheduleItem.endTime := ScheduleEntry.endTime scheduleItem;
       ScheduleItem.room := ScheduleEntry.room scheduleItem |} ;;;
  ret tt.

(** A step that may answer the request; [None] lets the handler go on. *)
Definition orContinue (check : M (option Response)) (rest : M Response) : M Response :=
  r <- check ;;
  match r with
  | Some response => ret response
  | None => rest
  end.

(** POST /api/classes. *)
Definition createClass (body : CreateClassRequest.t) : M Response :=
  tryCatch
    (if negb (createClassSchema body) then ret (validationError "Invalid class data")
     else
       let classData := body in
       let schoolId := JNum (CreateClassRequest.schoolId classData) in
       (* Validate school exists *)
       school <- getById rt schoolModel schoolId ;;
       match school with
       | None => ret (validationError "School not found")
       | Some _ =>
       (* Validate teacher exists (if provided) *)
       orContinue
         (if isTruthyNumber (CreateClassRequest.teacherId classData) then
            teacher <- getById rt teacherModel
                         (numberOr (CreateClassRequest.teacherId classData) JNull) ;;
            match teacher with
            | None => ret (Some (validationError "Teacher not found"))
            | Some teacher =>
                (* Check if teacher is assigned to the school *)
                if negb (includes (Teacher.schoolIds teacher) schoolId)
                then ret (Some (validationError "Teacher is not assigned to this school"))
                else ret None
            end
          else ret None)
       ((* Validate subjects exist *)
        orContinue
          (forEachUntil (CreateClassRequest.subjectIds classData) checkSubjectExists)
       ((* Validate primary subject is in the subject list *)
        if isTruthyNumber (CreateClassRequest.primarySubjectId classData)
           && negb (includes (map JNum (CreateClassRequest.subjectIds classData))
                             (numberOr (CreateClassRequest.primarySubjectId classData) JNull))
        then ret (validationError "Primary subject must be included in the subject list")
        else
        (* Validate schedule times *)
        orContinue
          (forEachUntil (orElse (CreateClassRequest.schedule classData) [])
                        (checkScheduleItem (CreateClassRequest.subjectIds classData)))
       ((* Check if class name is unique within the school *)
        allClasses <- getAll (classModel rt) ;;
        match find (fun cls =>
                      strictEq (Class.schoolId cls) schoolId
                      && String.eqb (toLowerCase rt (Class.name cls))
                                    (toLowerCase rt (CreateClassRequest.name classData)))
                   allClasses with
        | Some _ => ret (validationError "Class with this name already exists in the school")
        | None =>
        (* Create the class *)
        newClass <- create (classModel rt)
          {| ClassItem.name := CreateClassRequest.name classData;
             ClassItem.schoolId := schoolId;
             ClassItem.teacherId := option_map JNum (CreateClassRequest.teacherId classData);
             ClassItem.subjectIds := map JNum (CreateClassRequest.subjectIds classData);
             ClassItem.primarySubjectId :=
               option_map JNum (CreateClassRequest.primarySubjectId classData);
             ClassItem.maxStudents := CreateClassRequest.maxStudents classData;
             ClassItem.academicYear := CreateClassRequest.academicYear classData;
             ClassItem.currentStudents := 0 (* Start with 0 students *) |} ;;
        (* Create schedule entries if provided *)
        forEach (orElse (CreateClassRequest.schedule classData) [])
                (createScheduleEntry (JNum (Class.id newClass))) ;;;
        data <- mapClassToResponse newClass ;;
        ret {| statusCode := 201; body := ClassBody data |}
        end)))
       end)
    (ret (internalError "Failed to create class")).

(** PUT /api/classes/:id. *)
Definition updateClass (id : option Z) (body : ClassUpdate.t) : M Response :=
  tryCatch
    (match id with
     | None => ret (validationError "Invalid class ID")
     | Some id =>
     if negb (updateClassSchema body) then ret (validationError "Invalid class data")
     else
       let updateData := body in
       (* Check if class exists *)
       existingClass <- getById rt (classModel rt) (JNum id) ;;
       match existingClass with
       | None => ret (notFound "Class not found")
       | Some existingClass =>
       (* Validate school exists (if being updated) *)
       orContinue
         (if isTruthyNumber (ClassUpdate.schoolId updateData) then
            school <- getById rt schoolModel (numberOr (ClassUpdate.schoolId updateData) JNull) ;;
            match school with
            | None => ret (Some (validationError "School not found"))
            | Some _ => ret None
            end
          else ret None)
       ((* Validate teacher exists (if being updated) *)
        orContinue
          (if isTruthyNumber (ClassUpdate.teacherId updateData) then
             teacher <- getById rt teacherModel
                          (numberOr (ClassUpdate.teacherId updateData) JNull) ;;
             match teacher with
             | None => ret (Some (validationError "Teacher not found"))
             | Some teacher =>
                 let schoolId := numberOr (ClassUpdate.schoolId updateData)
                                          (Class.schoolId existingClass) in
                 if negb (includes (Teacher.schoolIds teacher) schoolId)
                 then ret (Some (validationError "Teacher is not assigned to this school"))
                 else ret None
             end
           else ret None)
       ((* Validate subjects exist (if being updated) *)
        orContinue
          (match ClassUpdate.subjectIds updateData with
           | None => ret None
           | Some subjectIds =>
               r <- forEachUntil subjectIds checkSubjectExists ;;
               match r with
               | Some response => ret (Some response)
               | None =>
                   (* Validate primary subject is in the updated subject list *)
                   let primarySubjectId :=
                     numberOr (ClassUpdate.primarySubjectId updateData)
                              (Class.primarySubjectId existingClass) in
                   if truthy primarySubjectId
                      && negb (includes (map JNum subjectIds) primarySubjectId)
                   then ret (Some (validationError
                                     "Primary subject must be included in the subject list"))
                   else ret None
               end
           end)
       ((* Check if name is being updated and if it conflicts with another class *)
        orContinue
          (match ClassUpdate.name updateData with
           | None | Some "" => ret None
           | Some name =>
               if String.eqb (toLowerCase rt name) (toLowerCase rt (Class.name existingClass))
               then ret None
               else
                 let schoolId := numberOr (ClassUpdate.schoolId updateData)
                                          (Class.schoolId existingClass) in
                 allClasses <- getAll (classModel rt) ;;
                 match find (fun cls =>
                               negb (Class.id cls =? id)
                               && strictEq (Class.schoolId cls) schoolId
                               && String.eqb (toLowerCase rt (Class.name cls))
                                             (toLowerCase rt name))
                            allClasses with
                 | Some _ =>
                     ret (Some (validationError
                                  "Class with this name already exists in the school"))
                 | None => ret None
                 end
           end)
       ((* Update the class *)
        updatedClass <- update rt (classModel rt) (JNum id) updateData ;;
        match updatedClass with
        | None => ret (internalError "Failed to update class")
        | Some updatedClass =>
            (* Update schedule if provided *)
            match ClassUpdate.schedule updateData with
            | None => ret tt
            | Some schedule =>
                (* Remove existing schedule *)
                existingSchedules <- getSchedulesByClassId rt (JNum id) ;;
                forEach existingSchedules (fun s =>
                  delete rt (scheduleModel rt) (JNum (ClassSchedule.id s)) ;;; ret tt) ;;;
                (* Create new schedule entries *)
                forEach schedule (createScheduleEntry (JNum id))
            end ;;;
            data <- mapClassToResponse updatedClass ;;
            ret {| statusCode := 200; body := ClassBody data |}
        end))))
       end
     end)
    (ret (internalError "Failed to update class")).

End Classes.

(** A schedule entry that ends before it starts, for the subject of the
    example classes. *)
Definition backwardsEntry : ScheduleEntry.t :=
  {| ScheduleEntry.subjectId := apiId (SubjectDoc._id subject1);
     ScheduleEntry.dayOfWeek := 1;
     ScheduleEntry.startTime := "10:00";
     ScheduleEntry.endTime := "09:00";
     ScheduleEntry.room := Some "Hall1" |}.

(** An entry in good order, for a subject the class does not have. *)
Definition foreignSubjectEntry : ScheduleEntry.t :=
  {| ScheduleEntry.subjectId := 77;
     ScheduleEntry.dayOfWeek := 1;
     ScheduleEntry.startTime := "09:00";
     ScheduleEntry.endTime := "10:00";
     ScheduleEntry.room := Some "Hall1" |}.

(** An entry in good order for the subject of the example classes. *)
Definition orderlyEntry : ScheduleEntry.t :=
  {| ScheduleEntry.subjectId := apiId (SubjectDoc._id subject1);
     ScheduleEntry.dayOfWeek := 2;
     ScheduleEntry.startTime := "11:00";
     ScheduleEntry.endTime := "12:00";
     ScheduleEntry.room := Some "Hall1" |}.

Definition scheduleOnly (schedule : list ScheduleEntry.t) : ClassUpdate.t :=
  {| ClassUpdate.name := None;
     ClassUpdate.schoolId := None;
     ClassUpdate.teacherId := None;
     ClassUpdate.subjectIds := None;
     ClassUpdate.primarySubjectId := None;
     ClassUpdate.maxStudents := None;
     ClassUpdate.academicYear := None;
     ClassUpdate.schedule := Some schedule |}.

Definition newClassWith (schedule : list ScheduleEntry.t) : CreateClassRequest.t :=
  {| CreateClassRequest.name := "Group N";
     CreateClassRequest.schoolId := apiId (SchoolDoc._id school1);
     CreateClassRequest.teacherId := None;
     CreateClassRequest.subjectIds := [apiId (SubjectDoc._id subject1)];
     CreateClassRequest.primarySubjectId := None;
     CreateClassRequest.maxStudents := 20;
     CreateClassRequest.academicYear := "2024-2025";
     CreateClassRequest.schedule := Some schedule |}.

(** An entry the create path must refuse: its time range is not in order,
    or its subject is not one of the class's. *)
Definition malformed (rt : Runtime) (subjectIds : list Z) (e : ScheduleEntry.t) : bool :=
  negb (validateScheduleTime rt (ScheduleEntry.startTime e) (ScheduleEntry.endTime e))
  || negb (existsb (Z.eqb (ScheduleEntry.subjectId e)) subjectIds).

(** A check leaves the database alone and lets the handler go on or
    answers 400. *)
Definition passesOr400 (check : M (option Response)) (db : DB) : Prop :=
  check db = (Ok None, db)
  \/ exists message, check db = (Ok (Some (validationError message)), db).

(** ** Paging ([applyPagination] of classes.ts, enrollments.ts,
    students.ts and teachers.ts: the four copies are the same text) *)

(** What [Math.ceil(total / limit)] can be for an array length and an
    integral [limit]: an integer, [Infinity] (a division by 0) or [NaN]
    (0 / 0). *)
Inductive PageCount :=
| Finite (n : Z)
| PlusInfinity
| NotANumber.

(** [Math.ceil(total / limit)].  For an array length and an integral
    divisor the quotient of two doubles rounds to the same side of every
    integer as the exact quotient, so the ceiling is the exact one. *)
Definition ceilDiv (total limit : Z) : PageCount :=
  if limit =? 0 then (if total =? 0 then NotANumber else PlusInfinity)
  else Finite (- ((- total) / limit)).

(** [page < totalPages]; a comparison with NaN is false. *)
Definition belowPageCount (page : Z) (n : PageCount) : bool :=
  match n with
  | Finite k => page <? k
  | PlusInfinity => true
  | NotANumber => false
  end.

(** The index [Array.prototype.slice] makes of an argument: counted from
    the end when negative, and kept within the array. *)
Definition relativeIndex (len k : Z) : Z :=
  if k <? 0 then Z.max (len + k) 0 else Z.min k len.

(** [items.slice(startIndex, endIndex)]. *)
Definition slice A (items : list A) (startIndex endIndex : Z) : list A :=
  let len := Z.of_nat (List.length items) in
  let from := relativeIndex len startIndex in
  let final := relativeIndex len endIndex in
  firstn (Z.to_nat (final - from)) (skipn (Z.to_nat from) items).

Module Page.
Record t (A : Type) := {
  items : list A;
  total : Z;
  currentPage : Z;
  totalPages : PageCount;
  totalItems : Z;
  hasNext : bool;
  hasPrev : bool
}.
End Page.

(** [applyPagination]. *)
Definition applyPagination A (items : list A) (page limit : Z) : Page.t A :=
  let total := Z.of_nat (List.length items) in
  let totalPages := ceilDiv total limit in
  let startIndex := (page - 1) * limit in
  let endIndex := startIndex + limit in
  let paginatedItems := slice items startIndex endIndex in
  {| Page.items := paginatedItems;
     Page.total := total;
     Page.currentPage := page;
     Page.totalPages := totalPages;
     Page.totalItems := total;
     Page.hasNext := belowPageCount page totalPages;
     Page.hasPrev := 1 <? page |}.

(** ** routes/classes.ts: the class list filters and [deleteClass] *)

(** [s.includes(part)] on strings. *)
Fixpoint String_includes (s part : string) : bool :=
  String.prefix part s
  || match s with
     | EmptyString => false
     | String _ rest => String_includes rest part
     end.

(** A string that is present and not empty. *)
Definition isTruthyString (s : option string) : bool :=
  match s with
  | None | Some "" => false
  | Some _ => true
  end.

(** What [getClasses] passes to [applyFilters]: the query parameters the
    schema parsed.  A number is [None] when the parameter is absent or its
    [parseInt] is NaN. *)
Module ClassFilters.
Record t := {
  search : option string;
  schoolId : option Z;
  teacherId : option Z;
  subjectId : option Z;
  academicYear : option string
}.
End ClassFilters.

(** One [if (filters.x) { filtered = filtered.filter(keep) }] step. *)
Definition filterWhen A (condition : bool) (keep : A -> bool) (filtered : list A) : list A :=
  if condition then filter keep filtered else filtered.

Module ClassesRoute.

(** classes.ts, [applyFilters]. *)
Definition applyFilters (rt : Runtime) (classes : list Class.t) (filters : ClassFilters.t)
  : list Class.t :=
  let filtered := classes in
  let filtered :=
    filterWhen (isTruthyString (ClassFilters.search filters))
      (fun cls => String_includes (toLowerCase rt (Class.name cls))
                    (toLowerCase rt (orElse (ClassFilters.search filters) "")))
      filtered in
  let filtered :=
    filterWhen (isTruthyNumber (ClassFilters.schoolId filters))
      (fun cls => strictEq (Class.schoolId cls) (numberOr (ClassFilters.schoolId filters) JNull))
      filtered in
  let filtered :=
    filterWhen (isTruthyNumber (ClassFilters.teacherId filters))
      (fun cls => strictEq (Class.teacherId cls) (numberOr (ClassFilters.teacherId filters) JNull))
      filtered in
  let filtered :=
    filterWhen (isTruthyNumber (ClassFilters.subjectId filters))
      (fun cls => includes (Class.subjectIds cls)
                           (numberOr (ClassFilters.subjectId filters) JNull))
      filtered in
  let filtered :=
    filterWhen (isTruthyString (ClassFilters.academicYear filters))
      (fun cls => String.eqb (Class.academicYear cls)
                             (orElse (ClassFilters.academicYear filters) ""))
      filtered in
  filtered.

(** DELETE /api/classes/:id. *)
Definition deleteClass (rt : Runtime) (id : option Z) : M Response :=
  tryCatch
    (match id with
     | None => ret (validationError "Invalid class ID")
     | Some id =>
         (* Check if class exists *)
         existingClass <- getById rt (classModel rt) (JNum id) ;;
         match existingClass with
         | None => ret (notFound "Class not found")
         | Some _ =>
         (* Check if class has active enrollments *)
         ofClass <- getEnrollmentsByClassId rt (JNum id) ;;
         let activeEnrollments := filter isActive ofClass in
         if 0 <? Z.of_nat (List.length activeEnrollments) then
           ret (validationError
                  "Cannot delete class with active student enrollments. Please remove all students first.")
         else
           (* Delete associated schedules *)
           schedules <- getSchedulesByClassId rt (JNum id) ;;
           forEach schedules (fun schedule =>
             delete rt (scheduleModel rt) (JNum (ClassSchedule.id schedule)) ;;; ret tt) ;;;
           (* Delete the class *)
           deleted <- delete rt (classModel rt) (JNum id) ;;
           if negb deleted then ret (internalError "Failed to delete class")
           else ret {| statusCode := 200; body := MessageBody "Class deleted successfully" |}
         end
     end)
    (ret (internalError "Failed to delete class")).

End ClassesRoute.

(** ** What a refused request leaves behind *)

(** A response in the 4xx range: the request was refused (400, 404). *)
Definition rejected (r : Response) : bool :=
  (400 <=? statusCode r) && (statusCode r <? 500).

(** Whenever the handler refuses a request, the database is as it was
    before the request. *)
Definition rejectsCleanly (m : M Response) : Prop :=
  forall db r db', m db = (Ok r, db') -> rejected r = true -> db' = db.

(** The computation never ends with a refusal. *)
Definition neverRejects (m : M Response) : Prop :=
  forall db r db', m db = (Ok r, db') -> rejected r = false.

(** What a computation returns when it returns: [post Q m] says every
    value [m] ends with satisfies [Q]. *)
Definition post A (Q : A -> Prop) (m : M A) : Prop :=
  forall db a db', m db = (Ok a, db') -> Q a.

(** The refusal under "Check if class name is unique within the school". *)
Definition duplicateClassName : Response :=
  validationError "Class with this name already exists in the school".

(** ** What the enrollment handlers leave alone *)

(** Two class documents agree on [_id], [name], [schoolId], [teacherId],
    [subjectIds], [primarySubjectId], [maxStudents] and [academicYear]. *)
Definition sameClassData (c c' : ClassDoc.t) : Prop :=
  ClassDoc._id c' = ClassDoc._id c
  /\ ClassDoc.name c' = ClassDoc.name c
  /\ ClassDoc.schoolId c' = ClassDoc.schoolId c
  /\ ClassDoc.teacherId c' = ClassDoc.teacherId c
  /\ ClassDoc.subjectIds c' = ClassDoc.subjectIds c
  /\ ClassDoc.primarySubjectId c' = ClassDoc.primarySubjectId c
  /\ ClassDoc.maxStudents c' = ClassDoc.maxStudents c
  /\ ClassDoc.academicYear c' = ClassDoc.academicYear c.

(** The second database has the schools, teachers, subjects and schedule
    entries of the first, and the same classes in the same order but for
    their [currentStudents]. *)
Definition sameButEnrollments (db0 db : DB) : Prop :=
  schools db = schools db0
  /\ teachers db = teachers db0
  /\ subjects db = subjects db0
  /\ schedules db = schedules db0
  /\ map (setCurrentStudents 0) (classes db) = map (setCurrentStudents 0) (classes db0).

(** ** How many enrollments a computation adds *)

(** However [m] ends, the enrollments it leaves are those it found, in
    their order and unchanged, followed by at most [n] new ones. *)
Definition addsAtMost (n : nat) A (m : M A) : Prop :=
  forall db, exists added,
    enrollments (snd (m db)) = (enrollments db ++ added)%list
    /\ (List.length added <= n)%nat.

(** ** The states the class handlers reach *)

Inductive ClassOp :=
| OpCreateClass (body : CreateClassRequest.t)
| OpUpdateClass (id : option Z) (body : ClassUpdate.t)
| OpDeleteClass (id : option Z).

Definition runClassOp (rt : Runtime) (op : ClassOp) : M Response :=
  match op with
  | OpCreateClass body => createClass rt body
  | OpUpdateClass id body => updateClass rt id body
  | OpDeleteClass id => ClassesRoute.deleteClass rt id
  end.

(** A request to one of the writing handlers of the class routes, the
    enrollment routes or the student deletion. *)
Inductive Request :=
| ClassRequest (op : ClassOp)
| EnrollmentRequest (op : EnrollmentOp).

Definition handle (rt : Runtime) (request : Request) : M Response :=
  match request with
  | ClassRequest op => runClassOp rt op
  | EnrollmentRequest op => runOp rt op
  end.

(** The database after a sequence of requests, each handled on what the
    one before left. *)
Fixpoint afterRequests (rt : Runtime) (requests : list Request) (db : DB) : DB :=
  match requests with
  | [] => db
  | request :: rest => afterRequests rt rest (snd (handle rt request db))
  end.

(** Two schedule entries in the same slot of the unique index: the same
    class, day and start time. *)
Definition sameSlot (d x : ClassScheduleDoc.t) : bool :=
  (ClassScheduleDoc.classId x =? ClassScheduleDoc.classId d)%N
  && (ClassScheduleDoc.dayOfWeek x =? ClassScheduleDoc.dayOfWeek d)
  && String.eqb (ClassScheduleDoc.startTime x) (ClassScheduleDoc.startTime d).

(** The unique index of the schedules collection holds. *)
Fixpoint slotsDistinct (l : list ClassScheduleDoc.t) : bool :=
  match l with
  | [] => true
  | d :: rest => scheduleIndexOk rest d && slotsDistinct rest
  end.

(** The entries of a class on a day at a start time. *)
Definition entriesAt (cls : ObjectId) (day : Z) (startTime : string) (db : DB)
  : list ClassScheduleDoc.t :=
  filter (fun x => (ClassScheduleDoc.classId x =? cls)%N
                   && (ClassScheduleDoc.dayOfWeek x =? day)
                   && String.eqb (ClassScheduleDoc.startTime x) startTime)
         (schedules db).

(** ** routes/schedule.ts: the conflict report *)

(** An entry of the [conflicts] array of [getScheduleConflicts]. *)
Module ConflictEntry.
Record t := {
  scheduleId : Z;
  className : string;
  subjectName : string;
  dayOfWeek : Z;
  dayName : option string;
  timeRange : string;
  room : option string;
  conflicts : list string
}.
End ConflictEntry.

(** The loop of [getScheduleConflicts] over [allSchedules]. *)
Fixpoint conflictEntries (rt : Runtime) (allSchedules : list ClassSchedule.t)
    (conflicts : list ConflictEntry.t) : M (list ConflictEntry.t) :=
  match allSchedules with
  | [] => ret conflicts
  | schedule :: rest =>
      scheduleConflicts <-
        checkScheduleConflicts rt schedule (Some (ClassSchedule.id schedule)) ;;
      match scheduleConflicts with
      | [] => conflictEntries rt rest conflicts
      | _ :: _ =>
          cls <- getById rt (classModel rt) (ClassSchedule.classId schedule) ;;
          subject <- getById rt subjectModel (ClassSchedule.subjectId schedule) ;;
          conflictEntries rt rest
            (conflicts ++
             [{| ConflictEntry.scheduleId := ClassSchedule.id schedule;
                 ConflictEntry.className := nameOr "Unknown" (option_map Class.name cls);
                 ConflictEntry.subjectName :=
                   nameOr "Unknown" (option_map Subject.name subject);
                 ConflictEntry.dayOfWeek := ClassSchedule.dayOfWeek schedule;
                 ConflictEntry.dayName := dayNameOf (ClassSchedule.dayOfWeek schedule);
                 ConflictEntry.timeRange :=
                   formatTimeRange (ClassSchedule.startTime schedule)
                                   (ClassSchedule.endTime schedule);
                 ConflictEntry.room := ClassSchedule.room schedule;
                 ConflictEntry.conflicts := scheduleConflicts |}])%list
      end
  end.

(** GET /api/schedule/conflicts.  The answer is the [data] of the 200
    response, [totalConflicts] and [conflicts], or the error response. *)
Definition getScheduleConflicts (rt : Runtime)
  : M (Z * list ConflictEntry.t + Response) :=
  tryCatch
    (allSchedules <- getAll (scheduleModel rt) ;;
     conflicts <- conflictEntries rt allSchedules [] ;;
     ret (inl (Z.of_nat (List.length conflicts), conflicts)))
    (ret (inr (internalError "Failed to get schedule conflicts"))).

(** ** routes/enrollments.ts: the enrollment list filters *)

Module EnrollmentFilters.
Record t := {
  search : option string;
  studentId : option Z;
  classId : option Z;
  schoolId : option Z;
  status : option Status;
  academicYear : option string
}.
End EnrollmentFilters.

(** A [for ... of] loop that awaits a test for each element and pushes
    the elements that pass to a new array. *)
Fixpoint filterM A (keep : A -> M bool) (l : list A) : M (list A) :=
  match l with
  | [] => ret []
  | x :: rest =>
      b <- keep x ;;
      kept <- filterM keep rest ;;
      ret (if b then x :: kept else kept)
  end.

Module EnrollmentsRoute.

(** The test of the [search] filter. *)
Definition matchesSearch (rt : Runtime) (searchLower : string) (enrollment : Enrollment.t)
  : M bool :=
  student <- getById rt studentModel (Enrollment.studentId enrollment) ;;
  cls <- getById rt (classModel rt) (Enrollment.classId enrollment) ;;
  ret (match student with
       | Some student =>
           String_includes (toLowerCase rt (Student.name student)) searchLower
           || String_includes (toLowerCase rt (Student.fullName student)) searchLower
       | None => false
       end
       || match cls with
          | Some cls => String_includes (toLowerCase rt (Class.name cls)) searchLower
          | None => false
          end).

(** The test of the [schoolId] filter. *)
Definition inSchool (rt : Runtime) (schoolId : JsId) (enrollment : Enrollment.t) : M bool :=
  cls <- getById rt (classModel rt) (Enrollment.classId enrollment) ;;
  ret (match cls with
       | Some cls => strictEq (Class.schoolId cls) schoolId
       | None => false
       end).

(** enrollments.ts, [applyFilters]. *)
Definition applyFilters (rt : Runtime) (enrollments : list Enrollment.t)
    (filters : EnrollmentFilters.t) : M (list Enrollment.t) :=
  let filtered := enrollments in
  filtered <-
    (if isTruthyString (EnrollmentFilters.search filters) then
       filterM (matchesSearch rt (toLowerCase rt (orElse (EnrollmentFilters.search filters) "")))
               filtered
     else ret filtered) ;;
  let filtered :=
    filterWhen (isTruthyNumber (EnrollmentFilters.studentId filters))
      (fun enrollment =>
         strictEq (Enrollment.studentId enrollment)
                  (numberOr (EnrollmentFilters.studentId filters) JNull))
      filtered in
  let filtered :=
    filterWhen (isTruthyNumber (EnrollmentFilters.classId filters))
      (fun enrollment =>
         strictEq (Enrollment.classId enrollment)
                  (numberOr (EnrollmentFilters.classId filters) JNull))
      filtered in
  filtered <-
    (if isTruthyNumber (EnrollmentFilters.schoolId filters) then
       filterM (inSchool rt (numberOr (EnrollmentFilters.schoolId filters) JNull)) filtered
     else ret filtered) ;;
  let filtered :=
    filterWhen (isSome (EnrollmentFilters.status filters))
      (fun enrollment =>
         Status_eqb (Enrollment.status enrollment)
                    (orElse (EnrollmentFilters.status filters) active))
      filtered in
  let filtered :=
    filterWhen (isTruthyString (EnrollmentFilters.academicYear filters))
      (fun enrollment =>
         String.eqb (Enrollment.academicYear enrollment)
                    (orElse (EnrollmentFilters.academicYear filters) ""))
      filtered in
  ret filtered.

End EnrollmentsRoute.

(** Every active enrollment is in a class that exists. *)
Definition activePlaced (db : DB) : Prop :=
  forall e, In e (enrollments db) ->
    EnrollmentDoc.status e = active ->
    inIds (map ClassDoc._id (classes db)) (EnrollmentDoc.classId e) = true.

(** The refusals of the duplicate checks of [createEnrollment] and
    [transferStudent]. *)
Definition alreadyEnrolled : Response :=
  validationError "Student is already enrolled in this class".

Definition alreadyEnrolledInNewClass : Response :=
  validationError "Student is already enrolled in the new class".

(** * Properties *)

(** ** The ids [toJSON] exposes are no ObjectIds *)

Lemma digitsFuel_length :
  forall fuel (k : nat) n acc,
    (1 <= k)%nat -> (n < 10 ^ N.of_nat k)%N ->
    (String.length (digitsFuel fuel n acc) <= k + String.length acc)%nat.
Proof.
  induction fuel as [|fuel IH]; intros k n acc Hk Hn; simpl.
  - lia.
  - destruct (N.ltb_spec n 10) as [Hlt|Hge]; simpl.
    + lia.
    + destruct k as [|k]; [lia|].
      destruct k as [|k].
      * change (N.of_nat 1) with 1%N in Hn. rewrite N.pow_1_r in Hn. lia.
      * specialize (IH (S k) (n / 10)%N (String (digitChar (n mod 10)) acc)).
        simpl String.length in IH.
        assert (Hdiv : (n / 10 < 10 ^ N.of_nat (S k))%N).
        { apply N.Div0.div_lt_upper_bound.
          replace (N.of_nat (S (S k))) with (N.succ (N.of_nat (S k))) in Hn by lia.
          rewrite N.pow_succ_r' in Hn. exact Hn. }
        specialize (IH ltac:(lia) Hdiv). lia.
Qed.

Lemma apiId_toString_short :
  forall o : ObjectId, (String.length (Number_toString (apiId o)) <= 10)%nat.
Proof.
  intro o. unfold Number_toString, apiId.
  assert (Hb : (o mod 2 ^ 32 < 4294967296)%N) by (apply N.mod_lt; discriminate).
  generalize dependent (o mod 2 ^ 32)%N. intros x Hb.
  destruct (Z.ltb_spec (Z.of_N x) 0) as [Hneg|_]; [lia|].
  rewrite N2Z.id. unfold Number_digits.
  destruct (N.ltb_spec x 9007199254740992) as [_|Hbig]; [|lia].
  unfold digits.
  pose proof (@digitsFuel_length (S (N.to_nat (N.log2 x))) 10 x "" ltac:(lia)) as H.
  simpl String.length in H. rewrite Nat.add_0_r in H. apply H.
  change (10 ^ N.of_nat 10)%N with 10000000000%N. lia.
Qed.

Lemma isValid_short :
  forall rt s, (String.length s <= 10)%nat -> ObjectId_isValid rt s = false.
Proof.
  intros rt s Hs. unfold ObjectId_isValid.
  destruct (Nat.eqb_spec (String.length s) 24) as [E|_]; [lia|].
  destruct (Nat.eqb_spec (String.length s) 12) as [E|_]; [lia|].
  simpl. apply andb_false_r.
Qed.

Lemma apiId_not_valid :
  forall rt (o : ObjectId), ObjectId_isValid rt (Number_toString (apiId o)) = false.
Proof.
  intros rt o. apply isValid_short, apiId_toString_short.
Qed.

(** ** The fallback of [getById], [update] and [delete] *)

Section Fallback.

Variable rt : Runtime.
Variables D J I U : Type.
Variable model : Model D J I U.

Lemma findById_head :
  forall d rest, findById model (docId model d) (d :: rest) = Some d.
Proof.
  intros d rest. unfold findById. simpl. now rewrite N.eqb_refl.
Qed.

Lemma removeFirst_head :
  forall d rest, removeFirst model (docId model d) (d :: rest) = rest.
Proof.
  intros d rest. simpl. now rewrite N.eqb_refl.
Qed.

Lemma replaceFirst_head :
  forall d d' rest, replaceFirst model (docId model d) d' (d :: rest) = d' :: rest.
Proof.
  intros d d' rest. simpl. now rewrite N.eqb_refl.
Qed.

Lemma getById_invalid :
  forall id s db,
    JsId_toString id = Some s -> ObjectId_isValid rt s = false ->
    getById rt model id db
    = (Ok (option_map (populated model db) (findOne (collection model db))), db).
Proof.
  intros id s db Hs Hv.
  unfold getById, idToString, bind. rewrite Hs. unfold ret at 1. rewrite Hv.
  reflexivity.
Qed.

Lemma update_invalid :
  forall id s updates db,
    JsId_toString id = Some s -> ObjectId_isValid rt s = false ->
    update rt model id updates db
    = match findOne (collection model db) with
      | None => (Ok None, db)
      | Some document => findOneAndUpdate model (docId model document) updates db
      end.
Proof.
  intros id s updates db Hs Hv.
  unfold update, idToString, bind. rewrite Hs. unfold ret at 1. rewrite Hv.
  unfold getDB. destruct (findOne (collection model db)); reflexivity.
Qed.

Lemma delete_invalid :
  forall id s db,
    JsId_toString id = Some s -> ObjectId_isValid rt s = false ->
    delete rt model id db
    = match findOne (collection model db) with
      | None => (Ok false, db)
      | Some document => deleteOne model (docId model document) db
      end.
Proof.
  intros id s db Hs Hv.
  unfold delete, idToString, bind. rewrite Hs. unfold ret at 1. rewrite Hv.
  unfold getDB. destruct (findOne (collection model db)); reflexivity.
Qed.

(** C10, as amended.  Every id [toJSON] exposes fails [ObjectId.isValid];
    and for an id whose string form does, [getById], [update] and [delete]
    ignore it: on a collection that is not empty they read, change and
    remove its first document (the change goes through the casts and the
    unique index as any write does), on an empty one they answer
    [undefined], [undefined] and [false].  An id without a string form
    ([null], [undefined]) is no such case: [id.toString()] throws before
    anything is read. *)
Theorem invalid_id_targets_first_document :
  (forall o : ObjectId,
      JsId_toString (JNum (apiId o)) = Some (Number_toString (apiId o))
      /\ ObjectId_isValid rt (Number_toString (apiId o)) = false)
  /\ (forall (id : JsId) (db : DB),
        JsId_toString id = None ->
        getById rt model id db = (Throw TypeError, db)
        /\ (forall updates, update rt model id updates db = (Throw TypeError, db))
        /\ delete rt model id db = (Throw TypeError, db))
  /\ forall (id : JsId) (s : string) (db : DB),
      JsId_toString id = Some s ->
      ObjectId_isValid rt s = false ->
      match collection model db with
      | first :: rest =>
          getById rt model id db = (Ok (Some (populated model db first)), db)
          /\ (forall updates,
                 update rt model id updates db
                 = match castUpdate model updates with
                   | None => (Throw CastError, db)
                   | Some f =>
                       if indexOk model rest (f first) then
                         let db' := setCollection model (f first :: rest) db in
                         (Ok (Some (populated model db' (f first))), db')
                       else (Throw DuplicateKey, db)
                   end)
          /\ delete rt model id db = (Ok true, setCollection model rest db)
      | [] =>
          getById rt model id db = (Ok None, db)
          /\ (forall updates, update rt model id updates db = (Ok None, db))
          /\ delete rt model id db = (Ok false, db)
      end.
Proof.
  split; [|split].
  - intro o. split; [reflexivity | apply apiId_not_valid].
  - intros id db Hnone.
    unfold getById, update, delete, idToString, bind. rewrite Hnone.
    repeat split.
  - intros id s db Hs Hv.
    pose proof (getById_invalid id db Hs Hv) as Hget.
    pose proof (fun u => update_invalid id u db Hs Hv) as Hupd.
    pose proof (delete_invalid id db Hs Hv) as Hdel.
    destruct (collection model db) as [|first rest] eqn:Hc; simpl in *.
    + repeat split; auto.
    + split; [exact Hget|]. split.
      * intro updates. rewrite Hupd. unfold findOneAndUpdate.
        destruct (castUpdate model updates) as [f|]; [|reflexivity].
        unfold bind, getDB. rewrite Hc, findById_head, removeFirst_head, replaceFirst_head.
        destruct (indexOk model rest (f first)); reflexivity.
      * rewrite Hdel. unfold deleteOne, bind, getDB.
        rewrite Hc, findById_head, removeFirst_head. reflexivity.
Qed.

End Fallback.

(** ** The overlap test of the conflict detector *)

Lemma clockDate_iso :
  forall rt t, isoTime t = true -> clockDate rt t = Some (minutesSinceMidnight t * 60000).
Proof.
  intros rt t H. unfold isoTime in H. unfold clockDate, minutesSinceMidnight.
  destruct t as [|h1 [|h2 [|c [|m1 [|m2 [|x r]]]]]]; try discriminate;
    destruct c as [[] [] [] [] [] [] [] []]; simpl in H |- *; try discriminate.
  rewrite H. reflexivity.
Qed.

Lemma timesOverlap_minutes :
  forall rt schedule existing,
    wellTimed schedule -> wellTimed existing ->
    timesOverlap rt schedule existing
    = (minutesSinceMidnight (ClassSchedule.startTime schedule)
       <? minutesSinceMidnight (ClassSchedule.endTime existing))
      && (minutesSinceMidnight (ClassSchedule.startTime existing)
          <? minutesSinceMidnight (ClassSchedule.endTime schedule)).
Proof.
  intros rt schedule existing [Hs1 Hs2] [He1 He2]. unfold timesOverlap.
  rewrite !clockDate_iso by assumption. unfold dateLt.
  f_equal.
  - destruct (Z.ltb_spec (minutesSinceMidnight (ClassSchedule.startTime schedule) * 60000)
                         (minutesSinceMidnight (ClassSchedule.endTime existing) * 60000));
    destruct (Z.ltb_spec (minutesSinceMidnight (ClassSchedule.startTime schedule))
                         (minutesSinceMidnight (ClassSchedule.endTime existing))); lia.
  - destruct (Z.ltb_spec (minutesSinceMidnight (ClassSchedule.startTime existing) * 60000)
                         (minutesSinceMidnight (ClassSchedule.endTime schedule) * 60000));
    destruct (Z.ltb_spec (minutesSinceMidnight (ClassSchedule.startTime existing))
                         (minutesSinceMidnight (ClassSchedule.endTime schedule))); lia.
Qed.

Lemma conflictsWith_no_overlap :
  forall rt schedule existing db,
    timesOverlap rt schedule existing = false ->
    conflictsWith rt schedule existing db = (Ok [], db).
Proof.
  intros rt schedule existing db H. unfold conflictsWith. now rewrite H.
Qed.

Lemma conflictLoop_skip :
  forall rt schedule l acc db,
    conflictLoop rt schedule l acc db
    = conflictLoop rt schedule (filter (timesOverlap rt schedule) l) acc db.
Proof.
  intros rt schedule l. induction l as [|existing rest IH]; intros acc db; [reflexivity|].
  simpl. destruct (timesOverlap rt schedule existing) eqn:E.
  - simpl. unfold bind.
    destruct (conflictsWith rt schedule existing db) as [[pushed|e] db']; [apply IH|reflexivity].
  - unfold bind. rewrite conflictsWith_no_overlap by assumption.
    rewrite app_nil_r. apply IH.
Qed.

Lemma filter_twice :
  forall A (f g : A -> bool) l,
    filter f (filter g l) = filter (fun x => g x && f x) l.
Proof.
  intros A f g l. induction l as [|x l IH]; [reflexivity|].
  simpl. destruct (g x); simpl; [destruct (f x)|]; now rewrite IH.
Qed.

Lemma populated_schedule_wellTimed :
  forall rt db d, wellTimedDoc d -> wellTimed (populated (scheduleModel rt) db d).
Proof.
  intros rt db d H. exact H.
Qed.




(** ** The handlers at inputs where the id fallback shows *)

Ltac evalAnyRuntime :=
  let l := fresh "legacy" in
  intros [l ? ? ? ?]; destruct l; vm_compute; repeat split; reflexivity.

(** C1 at the failing input.  Fatima is enrolled nowhere and class B has
    five free seats, yet her request for class B is answered 400 "Class is
    full": the class looked up and the enrollments counted are those of
    class A, the first document of the collection. *)
Theorem createEnrollment_full_by_other_class :
  forall rt,
    countActive classB_id fullFirstClassDB = 0
    /\ existsb (fun e => (EnrollmentDoc.studentId e =? StudentDoc._id fatima)%N)
               (enrollments fullFirstClassDB) = false
    /\ createEnrollment rt (Some fatimaIntoB) fullFirstClassDB
       = (Ok (validationError "Class is full. Maximum students reached."), fullFirstClassDB).
Proof. evalAnyRuntime. Qed.

(** C4 at the failing input.  The same request as a batch of one: class B
    stays empty and the error names the first student of the collection,
    not the one asked for. *)
Theorem bulkCreateEnrollments_full_by_other_class :
  forall rt,
    bulkCreateEnrollments rt (Some [JNum (apiId (StudentDoc._id fatima))])
      (JNum (apiId classB_id)) "2024-09-01" "2024-2025" fullFirstClassDB
    = (Ok {| statusCode := 200;
             body := BulkBody [] ["Class is full. Cannot enroll student Ahmad S"] |},
       fullFirstClassDB).
Proof. evalAnyRuntime. Qed.

(** C2 at the failing input.  Deleting the only enrollment, which is in
    class B, recomputes the count of class A: class B keeps the stored
    count 1 with no active enrollment left. *)
Theorem deleteEnrollment_leaves_stale_count :
  forall rt,
    let after := snd (deleteEnrollment rt (Some (apiId 0x650000000000000000000e01%N))
                        oneInSecondClassDB) in
    fst (deleteEnrollment rt (Some (apiId 0x650000000000000000000e01%N)) oneInSecondClassDB)
    = Ok {| statusCode := 200; body := MessageBody "Enrollment deleted successfully" |}
    /\ enrollments after = []
    /\ map ClassDoc.currentStudents (classes after) = [0; 1]
    /\ countActive classB_id after = 0.
Proof. evalAnyRuntime. Qed.

(** C3 at the failing input.  The transfer names Fatima's enrollment and
    class B.  With the numeric id of class B the enrollment marked
    [transferred] is Ahmad's (the first of the collection), the insert then
    fails and the answer is 500; Fatima's enrollment is still active.  With
    the ObjectId of class B as a string the answer is 200, but again
    Ahmad's enrollment is the one marked, the new enrollment in class B is
    Ahmad's, and Fatima's enrollment is still active in class A. *)
Theorem transferStudent_moves_first_enrollment :
  let id := Some (apiId 0x650000000000000000000e02%N) in
  let triple e :=
    (EnrollmentDoc.studentId e, EnrollmentDoc.classId e, EnrollmentDoc.status e) in
  (forall rt,
      let byNumber :=
        transferStudent rt "2024-10-01" id (JNum (apiId classB_id)) twoInFirstClassDB in
      fst byNumber = Ok (internalError "Failed to transfer student")
      /\ map triple (enrollments (snd byNumber))
         = [(StudentDoc._id ahmad, classA_id, transferred);
            (StudentDoc._id fatima, classA_id, active)])
  /\ (let byString :=
        transferStudent exampleRuntime "2024-10-01" id (JStr (ObjectId_toString classB_id))
          twoInFirstClassDB in
      option_map statusCode (match fst byString with Ok r => Some r | Throw _ => None end)
      = Some 200
      /\ map triple (enrollments (snd byString))
         = [(StudentDoc._id ahmad, classA_id, transferred);
            (StudentDoc._id fatima, classA_id, active);
            (StudentDoc._id ahmad, classB_id, active)]
      /\ map ClassDoc.currentStudents (classes (snd byString)) = [1; 1]).
Proof.
  split.
  - intros [l lower tr cd lenient]; destruct l; vm_compute; split; reflexivity.
  - vm_compute. repeat split; reflexivity.
Qed.

(** C6 at the failing input.  Classes B and C have the same teacher and
    the candidate of class C (10:00-11:00, no room) overlaps the entry of
    class B (09:00-10:30): no teacher conflict is reported, because both
    classes are looked up as class A, the first document, which has no
    teacher. *)
Theorem checkScheduleConflicts_misses_teacher_conflict :
  forall rt,
    overlaps (candidate (JNum (apiId classC_id)) 1 "10:00" "11:00" None)
             (populated (scheduleModel rt) sharedTeacherDB
                (exampleSchedule 0x650000000000000000000f01%N classB_id 1
                   "09:00" "10:30" (Some "Hall1"))) = true
    /\ map ClassDoc.teacherId (classes sharedTeacherDB)
       = [None; Some (TeacherDoc._id teacher7); Some (TeacherDoc._id teacher7)]
    /\ checkScheduleConflicts rt (candidate (JNum (apiId classC_id)) 1 "10:00" "11:00" None)
         None sharedTeacherDB
       = (Ok [], sharedTeacherDB).
Proof. evalAnyRuntime. Qed.

(** ** The unique index and the reachable states *)

Lemma readOnly_preserves :
  forall P A (m : M A), readOnly m -> preserves P m.
Proof.
  intros P A m H db Hdb. now rewrite H.
Qed.

Lemma preserves_ret : forall P A (a : A), preserves P (ret a).
Proof. intros P A a db H. exact H. Qed.

Lemma preserves_throw : forall P A e, preserves P (@throw A e).
Proof. intros P A e db H. exact H. Qed.

Lemma preserves_bind :
  forall P A B (m : M A) (k : A -> M B),
    preserves P m -> (forall a, preserves P (k a)) -> preserves P (bind m k).
Proof.
  intros P A B m k Hm Hk db Hdb. unfold bind.
  specialize (Hm db Hdb). destruct (m db) as [[a|e] db']; simpl in *.
  - apply Hk, Hm.
  - exact Hm.
Qed.

Lemma preserves_tryCatch :
  forall P A (m h : M A), preserves P m -> preserves P h -> preserves P (tryCatch m h).
Proof.
  intros P A m h Hm Hh db Hdb. unfold tryCatch.
  specialize (Hm db Hdb). destruct (m db) as [[a|e] db']; simpl in *.
  - exact Hm.
  - apply Hh, Hm.
Qed.

Lemma preserves_getDB : forall P, preserves P getDB.
Proof. intros P db H. exact H. Qed.

Lemma preserves_forEach :
  forall P A (body : A -> M unit) l,
    (forall a, preserves P (body a)) -> preserves P (forEach l body).
Proof.
  intros P A body l Hb. induction l as [|x l IH]; simpl.
  - apply preserves_ret.
  - apply preserves_bind; [apply Hb | intros _; exact IH].
Qed.

Section ReadOnly.

Variable rt : Runtime.
Variables D J I U : Type.
Variable model : Model D J I U.

Lemma readOnly_getAll : readOnly (getAll model).
Proof. intro db. reflexivity. Qed.

Lemma readOnly_getById : forall id, readOnly (getById rt model id).
Proof.
  intros id db. unfold getById, idToString, bind, castQueryId.
  destruct (JsId_toString id) as [s|]; [|reflexivity]. unfold ret at 1.
  destruct (ObjectId_isValid rt s); [|reflexivity].
  destruct (castObjectId rt id); reflexivity.
Qed.

Lemma readOnly_getObjectId : forall id, readOnly (getObjectId rt model id).
Proof.
  intros id db. unfold getObjectId, idToString, bind.
  destruct (JsId_toString id) as [s|]; [|reflexivity]. unfold ret at 1.
  destruct (ObjectId_isValid rt s); [reflexivity|].
  unfold getDB. destruct (findOne (collection model db)); reflexivity.
Qed.

End ReadOnly.

Lemma readOnly_getEnrollmentsByClassId :
  forall rt id, readOnly (getEnrollmentsByClassId rt id).
Proof.
  intros rt id db. unfold getEnrollmentsByClassId, bind.
  pose proof (readOnly_getObjectId rt (classModel rt) id db) as H.
  destruct (getObjectId rt (classModel rt) id db) as [[o|e] db']; simpl in *; now subst.
Qed.

Lemma readOnly_getEnrollmentsByStudentId :
  forall rt id, readOnly (getEnrollmentsByStudentId rt id).
Proof.
  intros rt id db. unfold getEnrollmentsByStudentId, bind.
  pose proof (readOnly_getObjectId rt (studentModel) id db) as H.
  destruct (getObjectId rt studentModel id db) as [[o|e] db']; simpl in *; now subst.
Qed.

Lemma readOnly_mapEnrollmentToResponse :
  forall rt e, readOnly (mapEnrollmentToResponse rt e).
Proof.
  intros rt e db. unfold mapEnrollmentToResponse, bind.
  pose proof (readOnly_getById rt studentModel (Enrollment.studentId e) db) as H1.
  destruct (getById rt studentModel (Enrollment.studentId e) db) as [[s|x] db1];
    simpl in H1; subst; [|reflexivity].
  pose proof (readOnly_getById rt (classModel rt) (Enrollment.classId e) db) as H2.
  destruct (getById rt (classModel rt) (Enrollment.classId e) db) as [[c|x] db2];
    simpl in H2; subst; [|reflexivity].
  destruct c as [c|].
  - pose proof (readOnly_getById rt schoolModel (Class.schoolId c) db) as H3.
    destruct (getById rt schoolModel (Class.schoolId c) db) as [[sc|x] db3];
      simpl in H3; subst; reflexivity.
  - reflexivity.
Qed.


























(** Witness for C10: the numeric id of the second enrollment reads,
    changes and deletes the first. *)
Lemma invalid_id_targets_first_document_witness :
  let id := JNum (apiId 0x650000000000000000000e02%N) in
  JsId_toString id = Some "3586"
  /\ ObjectId_isValid exampleRuntime "3586" = false
  /\ getById exampleRuntime (enrollmentModel exampleRuntime) id twoInFirstClassDB
     = (Ok (Some (populated (enrollmentModel exampleRuntime) twoInFirstClassDB
                    (exampleEnrollment 0x650000000000000000000e01%N
                       (StudentDoc._id ahmad) classA_id active))),
        twoInFirstClassDB)
  /\ delete exampleRuntime (enrollmentModel exampleRuntime) id twoInFirstClassDB
     = (Ok true,
        set_enrollments
          [exampleEnrollment 0x650000000000000000000e02%N
             (StudentDoc._id fatima) classA_id active]
          twoInFirstClassDB).
Proof.
  intro id.
  assert (Hs : JsId_toString id = Some "3586") by reflexivity.
  assert (Hv : ObjectId_isValid exampleRuntime "3586" = false) by reflexivity.
  pose proof (proj2 (proj2 (invalid_id_targets_first_document exampleRuntime
                              (enrollmentModel exampleRuntime)))
                id "3586" twoInFirstClassDB Hs Hv) as H.
  simpl collection in H.
  split; [exact Hs|]. split; [exact Hv|].
  split; [exact (proj1 H) | exact (proj2 (proj2 H))].
Defined.

(** A number of 24 digits is no ObjectId either: it prints in exponent
    form, and the operations fall back as for any other number. *)
Lemma number_of_24_digits_is_no_ObjectId :
  Number_toString 111111111111111111111111 = "1.1111111111111111e+23"
  /\ ObjectId_isValid exampleRuntime (Number_toString 111111111111111111111111) = false
  /\ fst (getById exampleRuntime (enrollmentModel exampleRuntime)
            (JNum 111111111111111111111111) twoInFirstClassDB)
     = Ok (Some (populated (enrollmentModel exampleRuntime) twoInFirstClassDB
                   (exampleEnrollment 0x650000000000000000000e01%N
                      (StudentDoc._id ahmad) classA_id active))).
Proof. vm_compute. repeat split; reflexivity. Qed.

(** C10 as stated fails on an empty collection: there [getById] with an
    id that is no ObjectId reports "not found" ([undefined]), [delete]
    returns [false], and no document is targeted. *)
Lemma invalid_id_on_empty_collection :
  ObjectId_isValid exampleRuntime (Number_toString 5) = false
  /\ getById exampleRuntime (classModel exampleRuntime) (JNum 5) baseDB = (Ok None, baseDB)
  /\ delete exampleRuntime (classModel exampleRuntime) (JNum 5) baseDB = (Ok false, baseDB).
Proof. repeat split; reflexivity. Qed.

(** ** The room report *)








Lemma find_some_key :
  forall rt key seen s,
    In s seen -> roomKeyOf rt s = Some key ->
    exists s', find (inRoom rt key) seen = Some s'.
Proof.
  intros rt key seen s Hin Hk. induction seen as [|x seen IH]; simpl; [contradiction|].
  destruct (inRoom rt key x) eqn:E; [now exists x|].
  destruct Hin as [->|Hin]; [|now apply IH].
  unfold inRoom in E. rewrite Hk, String.eqb_refl in E. discriminate.
Qed.



Lemma readOnly_conflictsWith :
  forall rt schedule existing, readOnly (conflictsWith rt schedule existing).
Proof.
  intros rt schedule existing db. unfold conflictsWith.
  destruct (timesOverlap rt schedule existing); [|reflexivity].
  unfold bind.
  pose proof (readOnly_getById rt (classModel rt) (ClassSchedule.classId existing) db) as H1.
  destruct (getById rt (classModel rt) (ClassSchedule.classId existing) db) as [[ec|x] db1];
    simpl in H1; subst; [|reflexivity].
  pose proof (readOnly_getById rt (classModel rt) (ClassSchedule.classId schedule) db) as H2.
  destruct (getById rt (classModel rt) (ClassSchedule.classId schedule) db) as [[nc|x] db2];
    simpl in H2; subst; [|reflexivity].
  destruct (sameTeacher ec nc); [|reflexivity].
  match goal with |- context [getById rt teacherModel ?i db] =>
    pose proof (readOnly_getById rt teacherModel i db) as H3;
    destruct (getById rt teacherModel i db) as [[t|x] db3]
  end; simpl in H3; subst; reflexivity.
Qed.

Lemma readOnly_conflictLoop :
  forall rt schedule l acc, readOnly (conflictLoop rt schedule l acc).
Proof.
  intros rt schedule l. induction l as [|x l IH]; intros acc db; [reflexivity|].
  simpl. unfold bind.
  pose proof (readOnly_conflictsWith rt schedule x db) as H.
  destruct (conflictsWith rt schedule x db) as [[p|e] db1]; simpl in H; subst;
    [apply IH | reflexivity].
Qed.

Lemma readOnly_checkScheduleConflicts :
  forall rt schedule excludeId, readOnly (checkScheduleConflicts rt schedule excludeId).
Proof.
  intros rt schedule excludeId db. unfold checkScheduleConflicts, getAll, bind, getDB. simpl.
  apply readOnly_conflictLoop.
Qed.






(** *** Doubles: what rounding keeps

    The rounding of [SpecFloat] shifts a significand to its place and
    rounds it to even.  What is used of it below: the result is never NaN,
    its exponent is -1074 or more, it has the sign of the number rounded,
    and from an exponent of -1074 or more nothing but zero is rounded to
    zero. *)

Lemma shr_1_m :
  forall r, 0 <= shr_m r -> shr_m (shr_1 r) = Z.div2 (shr_m r).
Proof.
  intros [m r s] H. simpl in *. destruct m as [|[p|p|]|p]; try reflexivity. lia.
Qed.

Lemma iter_shr_m :
  forall p r, 0 <= shr_m r -> shr_m (iter_pos shr_1 p r) = Z.shiftr (shr_m r) (Zpos p).
Proof.
  induction p as [p IH|p IH|]; intros r H; simpl iter_pos.
  - assert (H1 : 0 <= shr_m (shr_1 r)) by (rewrite shr_1_m by exact H; apply Z.div2_nonneg; exact H).
    assert (H2 : 0 <= shr_m (iter_pos shr_1 p (shr_1 r)))
      by (rewrite IH by exact H1; apply Z.shiftr_nonneg; exact H1).
    rewrite IH by exact H2. rewrite IH by exact H1. rewrite shr_1_m by exact H.
    rewrite Z.div2_spec. rewrite !Z.shiftr_shiftr by lia. f_equal. lia.
  - assert (H2 : 0 <= shr_m (iter_pos shr_1 p r))
      by (rewrite IH by exact H; apply Z.shiftr_nonneg; exact H).
    rewrite IH by exact H2. rewrite IH by exact H.
    rewrite Z.shiftr_shiftr by lia. f_equal. lia.
  - rewrite shr_1_m by exact H. apply Z.div2_spec.
Qed.

Lemma digits2_bounds :
  forall p, 2 ^ (Zpos (digits2_pos p) - 1) <= Zpos p < 2 ^ Zpos (digits2_pos p).
Proof.
  induction p as [p IH|p IH|]; simpl digits2_pos.
  - rewrite Pos2Z.inj_succ.
    replace (Z.succ (Zpos (digits2_pos p)) - 1) with (Z.succ (Zpos (digits2_pos p) - 1)) by lia.
    rewrite !Z.pow_succ_r by lia. lia.
  - rewrite Pos2Z.inj_succ.
    replace (Z.succ (Zpos (digits2_pos p)) - 1) with (Z.succ (Zpos (digits2_pos p) - 1)) by lia.
    rewrite !Z.pow_succ_r by lia. lia.
  - simpl. lia.
Qed.

Lemma shr_record_of_loc_m : forall m l, shr_m (shr_record_of_loc m l) = m.
Proof. intros m [|[]]; reflexivity. Qed.

(** One alignment step of the rounding: a nonnegative significand stays so, the exponent comes out at [emin] or above; a positive significand whose exponent is at [emin] or above stays positive. *)
Lemma shr_fexp_spec :
  forall m e l,
    0 <= m ->
    0 <= shr_m (fst (shr_fexp 53 1024 m e l))
    /\ -1074 <= snd (shr_fexp 53 1024 m e l)
    /\ (0 < m -> -1074 <= e -> 0 < shr_m (fst (shr_fexp 53 1024 m e l))).
Proof.
  intros m e l Hm. unfold shr_fexp, shr.
  assert (Hf : -1074 <= fexp 53 1024 (Zdigits2 m + e))
    by (unfold fexp, emin; lia).
  destruct (fexp 53 1024 (Zdigits2 m + e) - e) as [|p|p] eqn:En; simpl fst; simpl snd;
    rewrite ?shr_record_of_loc_m.
  - repeat split; [exact Hm | lia | auto].
  - rewrite iter_shr_m by (rewrite shr_record_of_loc_m; exact Hm).
    rewrite shr_record_of_loc_m.
    repeat split; [apply Z.shiftr_nonneg; exact Hm | lia |].
    intros Hpos He.
    destruct m as [|q|q]; try lia. simpl Zdigits2 in *.
    unfold fexp, emin in En.
    assert (Hp : Zpos p <= Zpos (digits2_pos q) - 1) by lia.
    rewrite Z.shiftr_div_pow2 by lia.
    pose proof (digits2_bounds q) as [Hlo _].
    assert (Hpow : 2 ^ Zpos p <= 2 ^ (Zpos (digits2_pos q) - 1))
      by (apply Z.pow_le_mono_r; lia).
    apply Z.div_str_pos. split; [apply Z.pow_pos_nonneg; lia | lia].
  - repeat split; [exact Hm | lia | auto].
Qed.

Lemma round_nearest_even_ge :
  forall m l, 0 <= m -> m <= round_nearest_even m l.
Proof.
  intros m [|[]] H; simpl; try lia. destruct (Z.even m); lia.
Qed.

(** What the rounding returns: never NaN from a nonnegative significand, an exponent at [emin] or above, and the sign it was given; nothing is rounded to zero from an exponent at [emin] or above. *)
Lemma binary_round_aux_spec :
  forall s m e l,
    0 <= m ->
    let r := binary_round_aux 53 1024 s m e l in
    r <> S754_nan /\ aboveEmin r
    /\ (r = S754_zero s \/ (exists m' e', r = S754_finite s m' e') \/ r = S754_infinity s)
    /\ (0 < m -> -1074 <= e -> r <> S754_zero s).
Proof.
  intros s m e l Hm r. unfold r, binary_round_aux.
  pose proof (shr_fexp_spec e l Hm) as (H1 & H2 & H3).
  destruct (shr_fexp 53 1024 m e l) as [mrs' e'] eqn:E1. simpl fst in *. simpl snd in *.
  pose proof (round_nearest_even_ge (loc_of_shr_record mrs') H1) as Hr.
  set (m1 := round_nearest_even (shr_m mrs') (loc_of_shr_record mrs')) in *.
  assert (Hm1 : 0 <= m1) by lia.
  pose proof (shr_fexp_spec e' loc_Exact Hm1) as (H4 & H5 & H6).
  destruct (shr_fexp 53 1024 m1 e' loc_Exact) as [mrs'' e''] eqn:E2.
  simpl fst in *. simpl snd in *.
  destruct (shr_m mrs'') as [|q|q] eqn:Eq; [| |lia].
  - repeat split; [discriminate | auto |].
    intros Hpos He. specialize (H3 Hpos He). assert (0 < m1) by lia.
    specialize (H6 ltac:(lia) H2). lia.
  - destruct (e'' <=? 1024 - 53); repeat split; try discriminate; simpl; eauto.
Qed.

Lemma iter_xO :
  forall d m, Zpos (Pos.iter xO m d) = Zpos m * 2 ^ Zpos d.
Proof.
  induction d as [|d IH] using Pos.peano_ind; intro m.
  - simpl. lia.
  - rewrite Pos.iter_succ, Pos2Z.inj_xO, IH, Pos2Z.inj_succ, Z.pow_succ_r by lia. lia.
Qed.

(** The alignment of a significand to a lower exponent keeps the number. *)
Lemma shl_align_spec :
  forall m e e',
    snd (shl_align m e e') = Z.min e e'
    /\ Zpos (fst (shl_align m e e')) = Zpos m * 2 ^ (e - Z.min e e').
Proof.
  intros m e e'. unfold shl_align.
  destruct (e' - e) as [|d|d] eqn:Ed; simpl fst; simpl snd.
  - split; [lia|]. replace (e - Z.min e e') with 0 by lia. simpl. lia.
  - split; [lia|]. replace (e - Z.min e e') with 0 by lia. simpl. lia.
  - split; [lia|]. replace (e - Z.min e e') with (Zpos d) by lia. apply iter_xO.
Qed.

Lemma binary_round_spec :
  forall s m e,
    -1074 <= e ->
    let r := binary_round 53 1024 s m e in
    aboveEmin r /\ ((exists m' e', r = S754_finite s m' e') \/ r = S754_infinity s).
Proof.
  intros s m e He r. unfold r, binary_round.
  pose proof (shl_align_spec m e (fexp 53 1024 (Zpos (digits2_pos m) + e))) as [Hs _].
  destruct (shl_align m e (fexp 53 1024 (Zpos (digits2_pos m) + e))) as [mz ez].
  simpl snd in Hs.
  assert (Hez : -1074 <= ez) by (unfold fexp, emin in Hs; lia).
  pose proof (@binary_round_aux_spec s (Zpos mz) ez loc_Exact ltac:(lia)) as (Hn & Ha & Hc & Hz).
  split; [exact Ha|].
  destruct Hc as [Hc|[Hc|Hc]]; [|now left|now right].
  exfalso. apply Hz; [lia | exact Hez | exact Hc].
Qed.

(** The double nearest to [m * 2^e]: it has the sign of [m], and is zero
    only for [m = 0]. *)
Lemma binary_normalize_spec :
  forall m e,
    -1074 <= e ->
    let r := binary_normalize 53 1024 m e false in
    aboveEmin r
    /\ match r with
       | S754_zero s => m = 0 /\ s = false
       | S754_finite s _ _ | S754_infinity s => if s then m < 0 else 0 < m
       | S754_nan => False
       end.
Proof.
  intros m e He r. unfold r, binary_normalize.
  destruct m as [|p|p].
  - simpl. auto.
  - destruct (@binary_round_spec false p e He) as [Ha [[m' [e' Hr]]|Hr]]; rewrite Hr in *;
      split; simpl; auto; lia.
  - destruct (@binary_round_spec true p e He) as [Ha [[m' [e' Hr]]|Hr]]; rewrite Hr in *;
      split; simpl; auto; lia.
Qed.





Lemma Double_div_notNaN :
  forall a sb mb eb, a <> S754_nan -> Double_div a (S754_finite sb mb eb) <> S754_nan.
Proof.
  intros a sb mb eb Ha. unfold Double_div, SFdiv.
  destruct a as [sa|sa| |sa ma ea]; try discriminate; [contradiction|].
  unfold SFdiv_core_binary.
  set (m' := match _ - _ with Z0 => Z.pos ma | Zpos _ => Z.shiftl (Z.pos ma) _ | Zneg _ => 0 end).
  assert (Hm' : 0 <= m').
  { unfold m'. destruct (_ - _); [lia | apply Z.shiftl_nonneg; lia | lia]. }
  pose proof (Z.div_pos m' (Z.pos mb) Hm' ltac:(lia)) as Hq. unfold Z.div in Hq.
  destruct (Z.div_eucl m' (Z.pos mb)) as [q r].
  apply (@binary_round_aux_spec (xorb sa sb) q _ _ Hq).
Qed.

Lemma Double_ofZ_spec : forall z, aboveEmin (Double_ofZ z) /\ Double_ofZ z <> S754_nan.
Proof.
  intro z. unfold Double_ofZ.
  destruct (@binary_normalize_spec z 0 ltac:(lia)) as [Ha Hs].
  split; [exact Ha|]. intro H. rewrite H in Hs. exact Hs.
Qed.


















Lemma sameTeacher_populated :
  forall rt db (a b : option ClassDoc.t),
    sameTeacher (option_map (populated (classModel rt) db) a)
                (option_map (populated (classModel rt) db) b) = false.
Proof.
  intros rt db [a|] [b|]; try reflexivity. unfold sameTeacher. simpl.
  unfold populateOpt, populateRef.
  destruct (ClassDoc.teacherId a) as [ta|]; [|reflexivity].
  destruct (inIds (map TeacherDoc._id (teachers db)) ta); [|reflexivity].
  destruct (ClassDoc.teacherId b) as [tb|]; [|reflexivity].
  destruct (inIds (map TeacherDoc._id (teachers db)) tb); reflexivity.
Qed.










(** The order is that of the doubles, not of the exact hours.  Hall is
    booked once for 110 minutes, Lab for 50 and for 60 minutes: 11/6 hours
    each.  The quotients of 110 and of 50 minutes are rounded, the sum of
    Lab comes out one unit in the last place above the total of Hall, and
    the report puts Lab first although Hall comes first in the
    collection. *)
Lemma rounding_decides_the_order :
  let rooms := roomsOfResponse (fst (getRoomUtilization exampleRuntime elevenSixthsDB)) in
  map RoomEntry.room rooms = ["Lab"; "Hall"]
  /\ map RoomEntry.totalHours rooms
     = [S754_finite false 8256599316845910 (-52); S754_finite false 8256599316845909 (-52)].
Proof. vm_compute. split; reflexivity. Qed.


(** ** What a handler can answer *)

Lemma post_ret : forall A (Q : A -> Prop) a, Q a -> post Q (ret a).
Proof. intros A Q a H db a' db' Hrun. inversion Hrun. subst. exact H. Qed.

Lemma post_bind :
  forall A B (Q : B -> Prop) (m : M A) (k : A -> M B),
    (forall a, post Q (k a)) -> post Q (bind m k).
Proof.
  intros A B Q m k Hk db b db' Hrun. unfold bind in Hrun.
  destruct (m db) as [[a|e] db1]; [exact (Hk a db1 b db' Hrun) | discriminate].
Qed.

Lemma post_bind_with :
  forall A B (Q1 : A -> Prop) (Q : B -> Prop) (m : M A) (k : A -> M B),
    post Q1 m -> (forall a, Q1 a -> post Q (k a)) -> post Q (bind m k).
Proof.
  intros A B Q1 Q m k Hm Hk db b db' Hrun. unfold bind in Hrun.
  destruct (m db) as [[a|e] db1] eqn:Hm'; [|discriminate].
  exact (Hk a (Hm db a db1 Hm') db1 b db' Hrun).
Qed.

Lemma post_tryCatch :
  forall A (Q : A -> Prop) (m h : M A),
    post Q m -> post Q h -> post Q (tryCatch m h).
Proof.
  intros A Q m h Hm Hh db a db' Hrun. unfold tryCatch in Hrun.
  destruct (m db) as [[a1|e] db1] eqn:Hm'.
  - inversion Hrun. subst. exact (Hm db a db' Hm').
  - exact (Hh db1 a db' Hrun).
Qed.

Lemma post_forEachUntil :
  forall A R (Q : option R -> Prop) (body : A -> M (option R)) l,
    Q None ->
    (forall x r, post (fun o => o = Some r -> Q (Some r)) (body x)) ->
    post Q (forEachUntil l body).
Proof.
  intros A R Q body l Hnone Hbody. induction l as [|x l IH]; simpl.
  - now apply post_ret.
  - intros db o db' Hrun. unfold bind in Hrun.
    destruct (body x db) as [[[v|]|e] db1] eqn:Hb; [| |discriminate].
    + inversion Hrun. subst. exact (Hbody x v db (Some v) db' Hb eq_refl).
    + exact (IH db1 o db' Hrun).
Qed.

Lemma post_orContinue :
  forall (Q : Response -> Prop) check rest,
    post (fun o => forall r, o = Some r -> Q r) check ->
    post Q rest ->
    post Q (orContinue check rest).
Proof.
  intros Q check rest Hc Hr. unfold orContinue.
  eapply post_bind_with; [exact Hc|]. intros [r|] Ho.
  - apply post_ret. now apply Ho.
  - exact Hr.
Qed.

Ltac differs := intro; discriminate.

Ltac someDiffers :=
  let r := fresh "r" in let H := fresh "H" in
  intros r H; inversion H; subst; differs.

Ltac eachDiffers :=
  let r := fresh "r" in let H := fresh "H" in let H' := fresh "H" in
  intros H r H'; inversion H'; subst; inversion H; subst; differs.

(** ** Schedule validation on the create and update paths *)

Lemma getById_number_total :
  forall rt D J I U (model : Model D J I U) n db,
    exists r, getById rt model (JNum n) db = (Ok r, db).
Proof.
  intros. unfold getById, idToString, bind, castQueryId, castObjectId. simpl.
  unfold ret at 1.
  destruct (ObjectId_isValid rt (Number_toString n)); eexists; reflexivity.
Qed.

Lemma validateScheduleTime_minutes :
  forall rt s e,
    isoTime s = true -> isoTime e = true ->
    validateScheduleTime rt s e = (minutesSinceMidnight s <? minutesSinceMidnight e).
Proof.
  intros rt s e Hs He. unfold validateScheduleTime.
  rewrite (clockDate_iso rt _ Hs), (clockDate_iso rt _ He). unfold dateLt.
  destruct (Z.ltb_spec (minutesSinceMidnight s * 60000) (minutesSinceMidnight e * 60000));
    destruct (Z.ltb_spec (minutesSinceMidnight s) (minutesSinceMidnight e)); lia.
Qed.

Lemma checkSubjectExists_passesOr400 :
  forall rt subjectId db, passesOr400 (checkSubjectExists rt subjectId) db.
Proof.
  intros rt subjectId db. unfold passesOr400, checkSubjectExists, bind.
  destruct (getById_number_total rt subjectModel subjectId db) as [r Hr]. rewrite Hr.
  destruct r as [subject|]; [now left | right; eexists; reflexivity].
Qed.

Lemma checkSubjects_passesOr400 :
  forall rt subjectIds db,
    passesOr400 (forEachUntil subjectIds (checkSubjectExists rt)) db.
Proof.
  intros rt subjectIds db. unfold passesOr400.
  induction subjectIds as [|x l IH]; simpl.
  - now left.
  - unfold bind.
    destruct (checkSubjectExists_passesOr400 rt x db) as [H|[message H]]; rewrite H.
    + exact IH.
    + right. eexists. reflexivity.
Qed.

Lemma checkSchedule_rejects :
  forall rt subjectIds entries e db,
    In e entries -> malformed rt subjectIds e = true ->
    exists message,
      forEachUntil entries (checkScheduleItem rt subjectIds) db
      = (Ok (Some (validationError message)), db).
Proof.
  intros rt subjectIds entries e db. induction entries as [|x l IH]; intros Hin Hbad.
  - contradiction.
  - simpl. unfold bind, checkScheduleItem at 1.
    destruct (negb (validateScheduleTime rt (ScheduleEntry.startTime x)
                                         (ScheduleEntry.endTime x))) eqn:Et.
    + eexists. reflexivity.
    + destruct (negb (existsb (Z.eqb (ScheduleEntry.subjectId x)) subjectIds)) eqn:Es.
      * eexists. reflexivity.
      * simpl. destruct Hin as [->|Hin].
        -- unfold malformed in Hbad. rewrite Et, Es in Hbad. discriminate.
        -- now apply IH.
Qed.

Lemma orContinue_passes :
  forall check rest db,
    check db = (Ok None, db) -> orContinue check rest db = rest db.
Proof.
  intros check rest db H. unfold orContinue, bind. now rewrite H.
Qed.

Lemma orContinue_400 :
  forall check rest db message,
    check db = (Ok (Some (validationError message)), db) ->
    orContinue check rest db = (Ok (validationError message), db).
Proof.
  intros check rest db message H. unfold orContinue, bind. now rewrite H.
Qed.

Lemma teacherCheck_passesOr400 :
  forall rt (teacherId : option Z) (schoolId : JsId) db,
    passesOr400
      (if isTruthyNumber teacherId then
         teacher <- getById rt teacherModel (numberOr teacherId JNull) ;;
         match teacher with
         | None => ret (Some (validationError "Teacher not found"))
         | Some teacher =>
             if negb (includes (Teacher.schoolIds teacher) schoolId)
             then ret (Some (validationError "Teacher is not assigned to this school"))
             else ret None
         end
       else ret None)%m db.
Proof.
  intros rt teacherId schoolId db. unfold passesOr400.
  destruct teacherId as [t|]; simpl; [|now left].
  destruct (t =? 0); simpl; [now left|].
  unfold bind.
  destruct (getById_number_total rt teacherModel t db) as [r Hr]. rewrite Hr.
  destruct r as [teacher|]; [|right; eexists; reflexivity].
  destruct (negb (includes (Teacher.schoolIds teacher) schoolId));
    [right; eexists; reflexivity | now left].
Qed.

Lemma createClass_rejects_malformed_schedule :
  forall rt body db entries e,
    CreateClassRequest.schedule body = Some entries ->
    In e entries ->
    malformed rt (CreateClassRequest.subjectIds body) e = true ->
    exists message, createClass rt body db = (Ok (validationError message), db).
Proof.
  intros rt body db entries e Hsched Hin Hbad.
  unfold createClass, tryCatch.
  destruct (negb (createClassSchema body)); [eexists; reflexivity|].
  unfold bind at 1.
  destruct (getById_number_total rt schoolModel (CreateClassRequest.schoolId body) db)
    as [school Hschool].
  rewrite Hschool. destruct school as [school|]; [|eexists; reflexivity].
  destruct (teacherCheck_passesOr400 rt (CreateClassRequest.teacherId body)
              (JNum (CreateClassRequest.schoolId body)) db) as [Hpass|[message H400]];
    [rewrite (orContinue_passes _ _ Hpass)
    | rewrite (orContinue_400 _ _ H400); eexists; reflexivity].
  destruct (checkSubjects_passesOr400 rt (CreateClassRequest.subjectIds body) db)
    as [Hpass2|[message H400]];
    [rewrite (orContinue_passes _ _ Hpass2)
    | rewrite (orContinue_400 _ _ H400); eexists; reflexivity].
  match goal with |- context [if ?b then _ else _] => destruct b end;
    [eexists; reflexivity|].
  rewrite Hsched. simpl orElse.
  destruct (@checkSchedule_rejects rt (CreateClassRequest.subjectIds body) entries e db
              Hin Hbad) as [message H400].
  rewrite (orContinue_400 _ _ H400). eexists. reflexivity.
Qed.

Ltac updateClassNeverAnswers :=
  unfold updateClass;
  apply post_tryCatch; [|apply post_ret; differs];
  match goal with |- post _ (match ?id with _ => _ end) =>
    destruct id; [|apply post_ret; differs]
  end;
  match goal with |- post _ (if ?b then _ else _) =>
    destruct b; [apply post_ret; differs|]
  end;
  apply post_bind; intros [existingClass|]; [|apply post_ret; differs];
  apply post_orContinue;
  [ destruct (isTruthyNumber _); [|apply post_ret; someDiffers];
    apply post_bind; intros [school|]; apply post_ret; someDiffers |];
  apply post_orContinue;
  [ destruct (isTruthyNumber _); [|apply post_ret; someDiffers];
    apply post_bind; intros [teacher|]; [|apply post_ret; someDiffers];
    destruct (negb _); apply post_ret; someDiffers |];
  apply post_orContinue;
  [ match goal with |- post _ (match ?o with _ => _ end) =>
      destruct o; [|apply post_ret; someDiffers]
    end;
    eapply post_bind_with;
    [ apply post_forEachUntil with
        (Q := fun o : option Response => forall r,
                o = Some r -> exists message, r = validationError
                                ("Subject with ID " ++ message ++ " not found"));
      [ intros r H; discriminate
      | intros x r; unfold checkSubjectExists; apply post_bind;
        intros [subject|]; apply post_ret;
        [ intro H; discriminate
        | intros H r' H'; inversion H'; subst; inversion H; subst; eexists; reflexivity ] ]
    | intros [response|] Hresponse;
      [ apply post_ret; intros r H; inversion H; subst;
        destruct (Hresponse r eq_refl) as [message ->]; differs
      | destruct (_ && _); apply post_ret; someDiffers ] ] |];
  apply post_orContinue;
  [ match goal with |- post _ (match ?o with _ => _ end) =>
      destruct o as [[|c name]|]; try (apply post_ret; someDiffers)
    end;
    destruct (String.eqb _ _); [apply post_ret; someDiffers|];
    apply post_bind; intro allClasses;
    destruct (find _ _); apply post_ret; someDiffers |];
  apply post_bind; intros [updatedClass|]; [|apply post_ret; differs];
  apply post_bind; intros _; apply post_bind; intro data; apply post_ret; differs.

(** Whatever it is given, [updateClass] never answers with one of the two
    refusals of the schedule loop of [createClass]. *)
Lemma updateClass_never_refuses_an_entry :
  forall rt id body,
    post (fun r => r <> validationError "End time must be after start time"
                   /\ r <> validationError
                             "Schedule subject must be included in class subjects")
         (updateClass rt id body).
Proof.
  intros rt id body.
  assert (H1 : post (fun r => r <> validationError "End time must be after start time")
                    (updateClass rt id body)) by updateClassNeverAnswers.
  assert (H2 : post (fun r => r <> validationError
                                     "Schedule subject must be included in class subjects")
                    (updateClass rt id body)) by updateClassNeverAnswers.
  intros db r db' Hrun. split; [exact (H1 db r db' Hrun) | exact (H2 db r db' Hrun)].
Qed.

(** C7.  [updateClass] never calls [validateScheduleTime] and never looks
    at the class's subjects: whatever the request, its answer is never
    one of the two refusals [createClass] has for a schedule entry.  At
    the failing inputs: the class "Group A" has one schedule entry (day 1,
    09:00-10:00, Hall1) and the subject [subject1]; a request that
    replaces its schedule by one entry running from 10:00 back to 09:00,
    or by one entry for the foreign subject 77, passes the request schema
    and is not answered with a validation error.  The answer is 500
    "Failed to update class", from the cast of the entry's numeric
    [subjectId] in [database.update], and an entry in good order for the
    class's own subject gets the very same answer.  [createClass] refuses
    the two malformed entries with 400. *)
Theorem updateClass_skips_schedule_validation :
  forall rt : Runtime,
    (forall id body db,
        fst (updateClass rt id body db)
        <> Ok (validationError "End time must be after start time")
        /\ fst (updateClass rt id body db)
           <> Ok (validationError "Schedule subject must be included in class subjects"))
    /\ (malformed rt [apiId (SubjectDoc._id subject1)] backwardsEntry = true
        /\ malformed rt [apiId (SubjectDoc._id subject1)] foreignSubjectEntry = true
        /\ malformed rt [apiId (SubjectDoc._id subject1)] orderlyEntry = false)
    /\ updateClassSchema (scheduleOnly [backwardsEntry]) = true
    /\ updateClassSchema (scheduleOnly [foreignSubjectEntry]) = true
    /\ updateClass rt (Some (apiId classA_id)) (scheduleOnly [backwardsEntry]) morningDB
       = (Ok (internalError "Failed to update class"), morningDB)
    /\ updateClass rt (Some (apiId classA_id)) (scheduleOnly [foreignSubjectEntry]) morningDB
       = (Ok (internalError "Failed to update class"), morningDB)
    /\ updateClass rt (Some (apiId classA_id)) (scheduleOnly [orderlyEntry]) morningDB
       = (Ok (internalError "Failed to update class"), morningDB)
    /\ createClass rt (newClassWith [backwardsEntry]) morningDB
       = (Ok (validationError "End time must be after start time"), morningDB)
    /\ createClass rt (newClassWith [foreignSubjectEntry]) morningDB
       = (Ok (validationError "Schedule subject must be included in class subjects"),
          morningDB).
Proof.
  intro rt. split.
  - intros id body db.
    pose proof (@updateClass_never_refuses_an_entry rt id body db) as Hpost.
    destruct (updateClass rt id body db) as [[r|e] db']; simpl;
      [|split; intro; discriminate].
    destruct (Hpost r db' eq_refl) as [H1 H2].
    split; intro H; inversion H; subst; [now apply H1 | now apply H2].
  - revert rt. evalAnyRuntime.
Qed.

(** ** Paging *)

Lemma applyPagination_items :
  forall A (l : list A) page limit,
    1 <= page -> 1 <= limit ->
    Page.items (applyPagination l page limit)
    = firstn (Z.to_nat limit) (skipn (Z.to_nat ((page - 1) * limit)) l).
Proof.
  intros A l page limit Hp Hl. unfold applyPagination, slice, relativeIndex. simpl.
  set (len := Z.of_nat (List.length l)).
  assert (Hlen : 0 <= len) by (unfold len; lia).
  assert (Hs : 0 <= (page - 1) * limit) by nia.
  destruct (Z.ltb_spec ((page - 1) * limit) 0); [lia|].
  destruct (Z.ltb_spec ((page - 1) * limit + limit) 0); [lia|].
  destruct (Z.le_gt_cases len ((page - 1) * limit)) as [Hout|Hin].
  - (* the page starts past the end *)
    rewrite (Z.min_r _ _ Hout), Z.min_r by lia.
    rewrite !skipn_all2 by (unfold len in *; lia).
    now rewrite !firstn_nil.
  - rewrite (Z.min_l ((page - 1) * limit) len) by lia.
    destruct (Z.le_gt_cases len ((page - 1) * limit + limit)) as [Hlast|Hfull].
    + rewrite Z.min_r by lia.
      rewrite !firstn_all2; [reflexivity | |];
        rewrite length_skipn; unfold len in *; lia.
    + rewrite Z.min_l by lia. f_equal. lia.
Qed.







Lemma slice_from_end :
  forall A (l : list A) (a b : nat),
    (a <= b)%nat ->
    firstn (b - a) (skipn (List.length l - b) l)
    = rev (firstn (b - a) (skipn a (rev l))) \/ (List.length l < b)%nat.
Proof.
  intros A l a b Hab.
  destruct (Nat.le_gt_cases b (List.length l)) as [Hb|Hb]; [left | now right].
  rewrite skipn_rev, firstn_rev, rev_involutive, length_firstn.
  rewrite Nat.min_l by lia.
  replace (List.length l - a - (b - a))%nat with (List.length l - b)%nat by lia.
  rewrite skipn_firstn_comm.
  f_equal. lia.
Qed.

(** X3.  A page or a limit below 1 is not refused.  With a negative
    limit, page 1 holds all the items but the last [- limit] ones and
    reports no next page.  A page number [- k] (zero included) counts the
    pages from the end of the list: its items are those of page [k + 1] of
    the reversed list, put back in order, as long as that page is full;
    page 0 is always empty. *)
Theorem applyPagination_outside_range :
  forall A (l : list A),
    (forall limit,
        limit < 0 ->
        Page.items (applyPagination l 1 limit)
        = firstn (List.length l - Z.to_nat (- limit)) l
        /\ Page.hasNext (applyPagination l 1 limit) = false)
    /\ (forall limit, 1 <= limit -> Page.items (applyPagination l 0 limit) = [])
    /\ (forall k limit,
          1 <= k -> 1 <= limit ->
          (k + 1) * limit <= Z.of_nat (List.length l) ->
          Page.items (applyPagination l (- k) limit)
          = rev (Page.items (applyPagination (rev l) (k + 1) limit))).
Proof.
  intros A l. split; [|split].
  - intros limit Hl.
    change (Page.items (applyPagination l 1 limit))
      with (slice l ((1 - 1) * limit) ((1 - 1) * limit + limit)).
    change (Page.hasNext (applyPagination l 1 limit))
      with (belowPageCount 1 (ceilDiv (Z.of_nat (List.length l)) limit)).
    unfold slice, relativeIndex, ceilDiv.
    set (len := Z.of_nat (List.length l)).
    assert (Hlen : 0 <= len) by (unfold len; lia).
    replace ((1 - 1) * limit) with 0 by lia.
    replace (0 + limit) with limit by lia.
    destruct (Z.ltb_spec limit 0); [|lia].
    destruct (Z.ltb_spec 0 0); [lia|].
    destruct (Z.eqb_spec limit 0); [lia|].
    rewrite (Z.min_l 0 len) by lia. split.
    + change (Z.to_nat 0) with 0%nat. rewrite skipn_O. f_equal. unfold len. lia.
    + unfold belowPageCount.
      pose proof (Z.div_mod (- len) limit ltac:(lia)) as Hdm.
      pose proof (Z.mod_neg_bound (- len) limit ltac:(lia)) as Hb.
      apply Z.ltb_ge. nia.
  - intros limit Hl.
    change (Page.items (applyPagination l 0 limit))
      with (slice l ((0 - 1) * limit) ((0 - 1) * limit + limit)).
    unfold slice, relativeIndex.
    set (len := Z.of_nat (List.length l)).
    assert (Hlen : 0 <= len) by (unfold len; lia).
    replace ((0 - 1) * limit + limit) with 0 by lia.
    destruct (Z.ltb_spec ((0 - 1) * limit) 0); [|lia].
    destruct (Z.ltb_spec 0 0); [lia|].
    replace (Z.to_nat (Z.min 0 len - Z.max (len + (0 - 1) * limit) 0)) with 0%nat by lia.
    reflexivity.
  - intros k limit Hk Hl Hfull.
    rewrite (applyPagination_items (rev l)) by lia.
    change (Page.items (applyPagination l (- k) limit))
      with (slice l ((- k - 1) * limit) ((- k - 1) * limit + limit)).
    unfold slice, relativeIndex.
    set (len := Z.of_nat (List.length l)) in *.
    replace ((- k - 1) * limit + limit) with (- (k * limit)) by lia.
    destruct (Z.ltb_spec ((- k - 1) * limit) 0); [|nia].
    destruct (Z.ltb_spec (- (k * limit)) 0); [|nia].
    rewrite !Z.max_l by nia.
    destruct (@slice_from_end A l (Z.to_nat (k * limit)) (Z.to_nat ((k + 1) * limit))
                ltac:(nia)) as [H1|H1]; [|unfold len in *; nia].
    replace (Z.to_nat (len + - (k * limit) - (len + (- k - 1) * limit)))
      with (Z.to_nat ((k + 1) * limit) - Z.to_nat (k * limit))%nat by nia.
    replace (Z.to_nat (len + (- k - 1) * limit))
      with (List.length l - Z.to_nat ((k + 1) * limit))%nat by (unfold len; nia).
    rewrite H1. do 3 f_equal; nia.
Qed.

(** Witness for X3: five items, a limit of -2 and a page of -1. *)
Lemma applyPagination_outside_range_witness :
  Page.items (applyPagination [10; 20; 30; 40; 50] 1 (-2)) = [10; 20; 30]
  /\ Page.hasNext (applyPagination [10; 20; 30; 40; 50] 1 (-2)) = false
  /\ Page.items (applyPagination [10; 20; 30; 40; 50] (-1) 2) = [20; 30].
Proof.
  pose proof (@applyPagination_outside_range Z [10; 20; 30; 40; 50]) as [Hlimit [_ Hpage]].
  destruct (Hlimit (-2) ltac:(lia)) as [Hitems Hnext].
  split; [rewrite Hitems; reflexivity|].
  split; [exact Hnext|].
  exact (Hpage 1 2 ltac:(lia) ltac:(lia) ltac:(simpl; lia)).
Defined.

(** ** By-id operations given an ObjectId *)

Lemma hexDigit_hexChar :
  forall d, (d < 16)%N -> hexDigit (hexChar d) = Some d.
Proof.
  intros d Hd.
  assert (Hall : forallb (fun x => match hexDigit (hexChar x) with
                                   | Some y => (y =? x)%N
                                   | None => false
                                   end)
                         (map N.of_nat (seq 0 16)) = true) by (vm_compute; reflexivity).
  rewrite forallb_forall in Hall.
  specialize (Hall d).
  destruct (hexDigit (hexChar d)) as [y|].
  - f_equal. apply N.eqb_eq, Hall.
    apply in_map_iff. exists (N.to_nat d). split; [lia|]. apply in_seq. lia.
  - exfalso. assert (false = true); [|discriminate]. apply Hall.
    apply in_map_iff. exists (N.to_nat d). split; [lia|]. apply in_seq. lia.
Qed.

Lemma hexFixed_length :
  forall width n acc,
    String.length (hexFixed width n acc) = (width + String.length acc)%nat.
Proof.
  induction width as [|w IH]; intros n acc; simpl; [reflexivity|].
  rewrite IH. simpl. lia.
Qed.

Lemma parseHexFrom_hexFixed :
  forall width n acc a,
    parseHexFrom a (hexFixed width n acc)
    = parseHexFrom (a * 16 ^ N.of_nat width + n mod 16 ^ N.of_nat width)%N acc.
Proof.
  induction width as [|w IH]; intros n acc a.
  - simpl hexFixed. change (16 ^ N.of_nat 0)%N with 1%N.
    rewrite N.mod_1_r. f_equal. lia.
  - change (hexFixed (S w) n acc)
      with (hexFixed w (n / 16) (String (hexChar (n mod 16)) acc)).
    rewrite IH.
    change (parseHexFrom ?x (String ?c acc))
      with (match hexDigit c with
            | Some d => parseHexFrom (16 * x + d)%N acc
            | None => None
            end).
    rewrite hexDigit_hexChar by (apply N.mod_lt; lia).
    f_equal.
    replace (N.of_nat (S w)) with (N.succ (N.of_nat w)) by lia.
    rewrite N.pow_succ_r'.
    rewrite (N.Div0.mod_mul_r n 16 (16 ^ N.of_nat w)). lia.
Qed.

Lemma ObjectId_string_round_trip :
  forall rt (o : ObjectId),
    (o < 2 ^ 96)%N ->
    ObjectId_isValid rt (ObjectId_toString o) = true
    /\ ObjectId_ofString (ObjectId_toString o) = o.
Proof.
  intros rt o Ho.
  assert (Hlen : String.length (ObjectId_toString o) = 24%nat)
    by (unfold ObjectId_toString; rewrite hexFixed_length; reflexivity).
  assert (Hparse : parseHex (ObjectId_toString o) = Some o).
  { unfold parseHex, ObjectId_toString. rewrite parseHexFrom_hexFixed.
    change (16 ^ N.of_nat 24)%N with (2 ^ 96)%N.
    rewrite (N.mod_small o (2 ^ 96) Ho). reflexivity. }
  unfold ObjectId_isValid, ObjectId_ofString. rewrite Hlen, Hparse. split; reflexivity.
Qed.

Section ById.

Variable rt : Runtime.
Variables D J I U : Type.
Variable model : Model D J I U.

Lemma findById_docId :
  forall o c d, findById model o c = Some d -> docId model d = o /\ In d c.
Proof.
  intros o c d H. unfold findById in H. apply find_some in H.
  destruct H as [Hin Heq]. apply N.eqb_eq in Heq. now split.
Qed.

Lemma findById_none :
  forall o c, findById model o c = None <-> forall d, In d c -> docId model d <> o.
Proof.
  intros o c. unfold findById. split.
  - intros H d Hin Heq. pose proof (find_none _ _ H d Hin) as Hd. simpl in Hd.
    apply N.eqb_neq in Hd. contradiction.
  - intro H. induction c as [|x c IH]; [reflexivity|]. simpl.
    destruct (N.eqb_spec (docId model x) o) as [Heq|_].
    + exfalso. exact (H x (or_introl eq_refl) Heq).
    + apply IH. intros d Hd. apply H. now right.
Qed.

Lemma removeFirst_keeps_others :
  forall o c d, In d c -> docId model d <> o -> In d (removeFirst model o c).
Proof.
  intros o c d. induction c as [|x c IH]; intros Hin Hne; [contradiction|].
  simpl. destruct (N.eqb_spec (docId model x) o) as [Heq|Hx].
  - destruct Hin as [->|Hin]; [contradiction | exact Hin].
  - destruct Hin as [->|Hin]; [now left | right; now apply IH].
Qed.

Lemma removeFirst_sublist :
  forall o c d, In d (removeFirst model o c) -> In d c.
Proof.
  intros o c d. induction c as [|x c IH]; intro Hin; [contradiction|].
  simpl in Hin. destruct (docId model x =? o)%N.
  - now right.
  - destruct Hin as [->|Hin]; [now left | right; now apply IH].
Qed.

(** X4.  [getById], [update] and [delete] given the 24 hexadecimal digits
    of an ObjectId, or the ObjectId itself, work on the document with
    that [_id] and on no other.  [getById] returns it and changes nothing;
    [delete] removes it and returns true, every document with another
    [_id] stays; [update] is the update of that document.  When no
    document has the [_id], [getById] returns [undefined], [delete]
    returns false and the database is as it was: there is no fallback to
    the first document for such an id. *)
Theorem hex_id_targets_its_document :
  forall (o : ObjectId) (id : JsId) (db : DB),
    (o < 2 ^ 96)%N ->
    id = JStr (ObjectId_toString o) \/ id = JOid o ->
    let c := collection model db in
    getById rt model id db = (Ok (option_map (populated model db) (findById model o c)), db)
    /\ (forall d, findById model o c = Some d -> docId model d = o /\ In d c)
    /\ (findById model o c = None <-> forall d, In d c -> docId model d <> o)
    /\ delete rt model id db
       = match findById model o c with
         | Some _ => (Ok true, setCollection model (removeFirst model o c) db)
         | None => (Ok false, db)
         end
    /\ (forall d, In d c -> docId model d <> o -> In d (removeFirst model o c))
    /\ (forall updates,
          update rt model id updates db = findOneAndUpdate model o updates db).
Proof.
  intros o id db Ho Hid c.
  destruct (ObjectId_string_round_trip rt Ho) as [Hvalid Hback].
  assert (Hs : JsId_toString id = Some (ObjectId_toString o))
    by (destruct Hid as [->| ->]; reflexivity).
  assert (Hcast : castObjectId rt id = Some o).
  { destruct Hid as [->| ->]; [|reflexivity].
    unfold castObjectId. cbn [JsId_toString]. rewrite Hvalid, Hback. reflexivity. }
  split; [|split; [|split; [|split; [|split]]]].
  - unfold getById, idToString, castQueryId, bind. rewrite Hs. unfold ret at 1.
    rewrite Hvalid, Hcast. reflexivity.
  - apply findById_docId.
  - apply findById_none.
  - unfold delete, idToString, castQueryId, bind. rewrite Hs. unfold ret at 1.
    rewrite Hvalid, Hcast. unfold ret at 1. unfold deleteOne, bind, getDB. fold c.
    destruct (findById model o c); reflexivity.
  - apply removeFirst_keeps_others.
  - intro updates. unfold update, idToString, castQueryId, bind. rewrite Hs.
    unfold ret at 1. rewrite Hvalid, Hcast. reflexivity.
Qed.

End ById.

(** Witness for X4: the ObjectId of the second enrollment, as a string,
    reads and deletes the second enrollment. *)
Lemma hex_id_targets_its_document_witness :
  let o := 0x650000000000000000000e02%N in
  (o < 2 ^ 96)%N
  /\ getById exampleRuntime (enrollmentModel exampleRuntime) (JStr (ObjectId_toString o))
       twoInFirstClassDB
     = (Ok (Some (populated (enrollmentModel exampleRuntime) twoInFirstClassDB
                    (exampleEnrollment o (StudentDoc._id fatima) classA_id active))),
        twoInFirstClassDB)
  /\ delete exampleRuntime (enrollmentModel exampleRuntime) (JStr (ObjectId_toString o))
       twoInFirstClassDB
     = (Ok true,
        set_enrollments
          [exampleEnrollment 0x650000000000000000000e01%N
             (StudentDoc._id ahmad) classA_id active]
          twoInFirstClassDB).
Proof.
  intro o.
  assert (Ho : (o < 2 ^ 96)%N) by (vm_compute; reflexivity).
  pose proof (@hex_id_targets_its_document exampleRuntime _ _ _ _
                (enrollmentModel exampleRuntime) o (JStr (ObjectId_toString o))
                twoInFirstClassDB Ho (or_introl eq_refl)) as H.
  split; [exact Ho|].
  split; [exact (proj1 H) | exact (proj1 (proj2 (proj2 (proj2 H))))].
Defined.

(** ** The recount of a class *)

Lemma findById_replaceFirst :
  forall D J I U (model : Model D J I U) o d' c d,
    findById model o c = Some d -> docId model d' = o ->
    findById model o (replaceFirst model o d' c) = Some d'.
Proof.
  intros D J I U model o d' c d Hfind Hid. unfold findById in *.
  induction c as [|x c IH]; [discriminate|].
  simpl in *. destruct (N.eqb_spec (docId model x) o) as [Hx|Hx].
  - simpl. rewrite Hid, N.eqb_refl. reflexivity.
  - simpl. destruct (N.eqb_spec (docId model x) o); [contradiction|]. now apply IH.
Qed.

Lemma replaceFirst_ids :
  forall D J I U (model : Model D J I U) o d' c,
    docId model d' = o ->
    map (docId model) (replaceFirst model o d' c) = map (docId model) c.
Proof.
  intros D J I U model o d' c Hid. induction c as [|x c IH]; [reflexivity|].
  simpl. destruct (N.eqb_spec (docId model x) o) as [Hx|Hx]; simpl.
  - now rewrite Hid, Hx.
  - now rewrite IH.
Qed.

Lemma replaceFirst_others :
  forall D J I U (model : Model D J I U) o d' c x,
    In x (replaceFirst model o d' c) -> x = d' \/ In x c.
Proof.
  intros D J I U model o d' c x. induction c as [|y c IH]; [intros []|].
  simpl. destruct (docId model y =? o)%N; intros [<-|Hin]; auto.
  destruct (IH Hin); auto.
Qed.

(** X5.  [updateClassStudentCount] given the ObjectId of a class (as its
    24 hexadecimal digits or as the ObjectId itself) stores in the
    [currentStudents] of that class the number of enrollments that are
    active in it.  The [_id], [name], [schoolId], [teacherId],
    [subjectIds], [primarySubjectId], [maxStudents] and [academicYear] of
    the class stay as they were; no other class is changed, none is added
    or removed, and the enrollments are left alone.  When no class has the
    ObjectId nothing is changed and nothing is reported. *)
Theorem updateClassStudentCount_stores_active_count :
  forall rt (o : ObjectId) (id : JsId) (db : DB),
    (o < 2 ^ 96)%N ->
    id = JStr (ObjectId_toString o) \/ id = JOid o ->
    let after := snd (updateClassStudentCount rt id db) in
    fst (updateClassStudentCount rt id db) = Ok tt
    /\ enrollments after = enrollments db
    /\ map ClassDoc._id (classes after) = map ClassDoc._id (classes db)
    /\ match findById (classModel rt) o (classes db) with
       | Some d =>
           (exists d',
               findById (classModel rt) o (classes after) = Some d'
               /\ ClassDoc.currentStudents d' = countActive o after
               /\ sameClassData d d')
           /\ forall c, In c (classes after) -> ClassDoc._id c <> o -> In c (classes db)
       | None => after = db
       end.
Proof.
  intros rt o id db Ho Hid after.
  destruct (ObjectId_string_round_trip rt Ho) as [Hvalid Hback].
  assert (Hs : JsId_toString id = Some (ObjectId_toString o))
    by (destruct Hid as [->| ->]; reflexivity).
  assert (Hrun : updateClassStudentCount rt id db
                 = findByIdAndUpdateCount rt o (countActive o db) db).
  { unfold updateClassStudentCount, getObjectId, idToString, bind. rewrite Hs.
    unfold ret at 1. rewrite Hvalid. unfold ret at 1. rewrite Hback.
    unfold getDB at 1. unfold ret at 1. rewrite Hvalid. unfold ret at 1.
    rewrite Hback. reflexivity. }
  unfold after. rewrite Hrun. unfold findByIdAndUpdateCount, bind, getDB.
  destruct (findById (classModel rt) o (classes db)) as [d|] eqn:Hfind.
  - unfold putDB. cbn [fst snd].
    split; [reflexivity|]. split; [reflexivity|].
    destruct (findById_docId (classModel rt) _ _ Hfind) as [Hd _].
    simpl in Hd.
    split; [apply (replaceFirst_ids (classModel rt)); exact Hd|].
    split.
    + eexists. split; [apply (findById_replaceFirst (classModel rt) _ _ Hfind); exact Hd|].
      split; [reflexivity|]. repeat split.
    + intros c Hin Hne.
      destruct (replaceFirst_others (classModel rt) _ _ _ _ Hin) as [->|H]; [|exact H].
      exfalso. apply Hne. exact Hd.
  - repeat split; reflexivity.
Qed.

(** Witness for X5: class B of the database in which it stores 1 and has
    one active enrollment less than that. *)
Lemma updateClassStudentCount_stores_active_count_witness :
  let before := set_enrollments [] oneInSecondClassDB in
  let after := snd (updateClassStudentCount exampleRuntime (JOid classB_id) before) in
  (classB_id < 2 ^ 96)%N
  /\ map ClassDoc.currentStudents (classes before) = [0; 1]
  /\ fst (updateClassStudentCount exampleRuntime (JOid classB_id) before) = Ok tt
  /\ exists d',
       findById (classModel exampleRuntime) classB_id (classes after) = Some d'
       /\ ClassDoc.currentStudents d' = 0
       /\ sameClassData (exampleClass classB_id "Group B" None 30 1) d'.
Proof.
  intros before after.
  assert (Ho : (classB_id < 2 ^ 96)%N) by (vm_compute; reflexivity).
  pose proof (@updateClassStudentCount_stores_active_count exampleRuntime classB_id
                (JOid classB_id) before Ho (or_intror eq_refl)) as H.
  split; [exact Ho|]. split; [reflexivity|]. split; [exact (proj1 H)|].
  assert (H4 : (exists d',
                   findById (classModel exampleRuntime) classB_id (classes after) = Some d'
                   /\ ClassDoc.currentStudents d' = countActive classB_id after
                   /\ sameClassData (exampleClass classB_id "Group B" None 30 1) d')
               /\ forall c, In c (classes after) -> ClassDoc._id c <> classB_id ->
                            In c (classes before))
    by exact (proj2 (proj2 (proj2 H))).
  exact (proj1 H4).
Defined.

(** ** The time pattern *)

Lemma ascii_eqb_N :
  forall a b, Ascii.eqb a b = (N_of_ascii a =? N_of_ascii b)%N.
Proof.
  intros a b. destruct (Ascii.eqb_spec a b) as [->|Hne].
  - now rewrite N.eqb_refl.
  - symmetry. apply N.eqb_neq. intro H. apply Hne.
    rewrite <- (ascii_N_embedding a), <- (ascii_N_embedding b), H. reflexivity.
Qed.

Lemma clockOk_pattern :
  forall h1 h2 m1 m2,
    clockOk h1 h2 m1 m2
    = ((digitBelow 2 h1 && isDigit h2) || (Ascii.eqb h1 "2" && digitBelow 4 h2))
      && digitBelow 6 m1 && isDigit m2.
Proof.
  intros h1 h2 m1 m2. unfold clockOk, isDigit, digitBelow, digitValue.
  rewrite ascii_eqb_N. change (N_of_ascii "2") with 50%N.
  generalize (N_of_ascii h1) (N_of_ascii h2) (N_of_ascii m1) (N_of_ascii m2).
  intros a b c d. apply Bool.eq_iff_eq_true.
  rewrite !andb_true_iff, !orb_true_iff, !andb_true_iff.
  rewrite !N.leb_le, !N.ltb_lt, !Z.leb_le, N.eqb_eq. lia.
Qed.

(** Case analysis on a character against the colon, bit by bit: [miss]
    is run where a bit differs, the goal that is left has the colon. *)
Ltac againstColon c miss :=
  let b0 := fresh "b" in let b1 := fresh "b" in let b2 := fresh "b" in
  let b3 := fresh "b" in let b4 := fresh "b" in let b5 := fresh "b" in
  let b6 := fresh "b" in let b7 := fresh "b" in
  destruct c as [b0 b1 b2 b3 b4 b5 b6 b7];
  destruct b0; [miss|]; destruct b1; [|miss]; destruct b2; [miss|];
  destruct b3; [|miss]; destruct b4; [|miss]; destruct b5; [|miss];
  destruct b6; [miss|]; destruct b7; [miss|].

Lemma isoTime_timeRegex :
  forall s, isoTime s = timeRegex s && (String.length s =? 5)%nat.
Proof.
  intro s.
  destruct s as [|h1 [|h2 [|c [|m1 [|m2 [|x rest]]]]]].
  - reflexivity.
  - reflexivity.
  - simpl String.length. rewrite andb_false_r. reflexivity.
  - simpl String.length. rewrite andb_false_r.
    againstColon c ltac:(reflexivity). reflexivity.
  - simpl String.length. rewrite andb_false_r.
    againstColon c ltac:(reflexivity). reflexivity.
  - simpl String.length. rewrite andb_true_r.
    againstColon c ltac:(againstColon h2 ltac:(reflexivity); reflexivity).
    change (isoTime _) with (clockOk h1 h2 m1 m2). rewrite clockOk_pattern.
    againstColon h2 ltac:(reflexivity). reflexivity.
  - simpl String.length. rewrite andb_false_r.
    againstColon c ltac:(reflexivity). reflexivity.
Qed.

(** X6.  The time pattern of the schemas and handlers,
    [/^([0-1]?[0-9]|2[0-3]):[0-5][0-9]$/], accepts strings of four or
    five characters only.  The five-character strings it accepts are
    exactly the two-digit clock times from 00:00 to 23:59: for them
    [new Date] of the handlers is a valid date, at the minutes since
    midnight the digits spell, which lie between 0 and 1439. *)
Theorem timeRegex_accepts_clock_times :
  forall rt (s : string),
    (timeRegex s = true -> String.length s = 4%nat \/ String.length s = 5%nat)
    /\ (isoTime s = true <-> timeRegex s = true /\ String.length s = 5%nat)
    /\ (timeRegex s = true -> String.length s = 5%nat ->
        clockDate rt s = Some (minutesSinceMidnight s * 60000)
        /\ 0 <= minutesSinceMidnight s < 1440).
Proof.
  intros rt s.
  assert (Hiff : isoTime s = true <-> timeRegex s = true /\ String.length s = 5%nat).
  { rewrite isoTime_timeRegex, andb_true_iff, Nat.eqb_eq. reflexivity. }
  split; [|split; [exact Hiff|]].
  - intro H.
    destruct s as [|h1 [|h2 [|c [|m1 [|m2 [|x rest]]]]]]; try discriminate; auto.
    + exfalso. revert H.
      againstColon h2 ltac:(simpl; intro; discriminate). simpl. intro. discriminate.
    + exfalso. revert H.
      againstColon h2 ltac:(againstColon c ltac:(simpl; intro; discriminate);
                            simpl; intro; discriminate).
      againstColon c ltac:(simpl; intro; discriminate). simpl. intro. discriminate.
    + exfalso. revert H.
      againstColon h2 ltac:(againstColon c ltac:(simpl; intro; discriminate);
                            simpl; intro; discriminate).
      againstColon c ltac:(simpl; intro; discriminate). simpl. intro. discriminate.
  - intros Hre Hlen.
    assert (Hiso : isoTime s = true) by (apply Hiff; now split).
    split; [now apply clockDate_iso|].
    destruct s as [|h1 [|h2 [|c [|m1 [|m2 [|x rest]]]]]]; try discriminate.
    revert Hiso. againstColon c ltac:(simpl; intro; discriminate). intro Hiso.
    change (isoTime _) with (clockOk h1 h2 m1 m2) in Hiso.
    change (minutesSinceMidnight _) with (clockMinutes h1 h2 m1 m2).
    revert Hiso. unfold clockOk, clockMinutes, isDigit, digitValue.
    generalize (N_of_ascii h1) (N_of_ascii h2) (N_of_ascii m1) (N_of_ascii m2).
    intros a b c d. rewrite !andb_true_iff, !N.leb_le, !Z.leb_le. lia.
Qed.

(** Witness for X6: half past nine. *)
Lemma timeRegex_accepts_clock_times_witness :
  timeRegex "09:30" = true
  /\ String.length "09:30" = 5%nat
  /\ clockDate exampleRuntime "09:30" = Some (570 * 60000)
  /\ 0 <= 570 < 1440.
Proof.
  assert (Hre : timeRegex "09:30" = true) by reflexivity.
  assert (Hlen : String.length "09:30" = 5%nat) by reflexivity.
  split; [exact Hre|]. split; [exact Hlen|].
  exact (proj2 (proj2 (timeRegex_accepts_clock_times exampleRuntime "09:30")) Hre Hlen).
Defined.

(** X7.  On two times the pattern accepts with two hour digits,
    [validateScheduleTime] is the comparison of the minutes since
    midnight: true exactly when the start lies before the end.  An entry
    that ends when it starts, or before, is not in order. *)
Theorem validateScheduleTime_orders_accepted_times :
  forall rt startTime endTime,
    timeRegex startTime = true -> String.length startTime = 5%nat ->
    timeRegex endTime = true -> String.length endTime = 5%nat ->
    validateScheduleTime rt startTime endTime
    = (minutesSinceMidnight startTime <? minutesSinceMidnight endTime)
    /\ (startTime = endTime -> validateScheduleTime rt startTime endTime = false)
    /\ (validateScheduleTime rt startTime endTime = true ->
        validateScheduleTime rt endTime startTime = false).
Proof.
  intros rt s e Hs Hls He Hle.
  assert (Hiso : forall t, timeRegex t = true -> String.length t = 5%nat -> isoTime t = true).
  { intros t H1 H2. rewrite isoTime_timeRegex, H1, H2. reflexivity. }
  rewrite (validateScheduleTime_minutes rt _ _ (Hiso s Hs Hls) (Hiso e He Hle)).
  rewrite (validateScheduleTime_minutes rt _ _ (Hiso e He Hle) (Hiso s Hs Hls)).
  split; [reflexivity|]. split.
  - intros ->. apply Z.ltb_irrefl.
  - intro H. apply Z.ltb_lt in H. apply Z.ltb_ge. lia.
Qed.

(** Witness for X7: 09:00 comes before 10:30. *)
Lemma validateScheduleTime_orders_accepted_times_witness :
  validateScheduleTime exampleRuntime "09:00" "10:30" = (540 <? 630)
  /\ validateScheduleTime exampleRuntime "10:30" "09:00" = false.
Proof.
  pose proof (@validateScheduleTime_orders_accepted_times exampleRuntime "09:00" "10:30"
                eq_refl eq_refl eq_refl eq_refl) as [H1 [_ H3]].
  split; [exact H1 | apply H3; reflexivity].
Defined.

(** ** Refused requests write nothing *)

Lemma readOnly_ret : forall A (a : A), readOnly (ret a).
Proof. intros A a db. reflexivity. Qed.

Lemma readOnly_bind :
  forall A B (m : M A) (k : A -> M B),
    readOnly m -> (forall a, readOnly (k a)) -> readOnly (bind m k).
Proof.
  intros A B m k Hm Hk db. unfold bind. specialize (Hm db).
  destruct (m db) as [[a|e] db1]; simpl in Hm; subst db1; [apply Hk | reflexivity].
Qed.

Lemma readOnly_forEachUntil :
  forall A R (body : A -> M (option R)) l,
    (forall a, readOnly (body a)) -> readOnly (forEachUntil l body).
Proof.
  intros A R body l Hb. induction l as [|x l IH]; simpl.
  - apply readOnly_ret.
  - apply readOnly_bind; [apply Hb|]. intros [v|]; [apply readOnly_ret | exact IH].
Qed.

Lemma neverRejects_cleanly :
  forall m, neverRejects m -> rejectsCleanly m.
Proof.
  intros m H db r db' Hrun Hrej. rewrite (H db r db' Hrun) in Hrej. discriminate.
Qed.

Lemma neverRejects_ret : forall r, rejected r = false -> neverRejects (ret r).
Proof. intros r H db r' db' Hrun. inversion Hrun. subst. exact H. Qed.

Lemma neverRejects_bind :
  forall A (m : M A) (k : A -> M Response),
    (forall a, neverRejects (k a)) -> neverRejects (bind m k).
Proof.
  intros A m k Hk db r db' Hrun. unfold bind in Hrun.
  destruct (m db) as [[a|e] db1]; [exact (Hk a db1 r db' Hrun) | discriminate].
Qed.

Lemma rejectsCleanly_ret : forall r, rejectsCleanly (ret r).
Proof. intros r db r' db' Hrun _. inversion Hrun. reflexivity. Qed.

Lemma rejectsCleanly_bind :
  forall A (m : M A) (k : A -> M Response),
    readOnly m -> (forall a, rejectsCleanly (k a)) -> rejectsCleanly (bind m k).
Proof.
  intros A m k Hm Hk db r db' Hrun Hrej. unfold bind in Hrun. specialize (Hm db).
  destruct (m db) as [[a|e] db1]; simpl in Hm; subst db1; [|discriminate].
  exact (Hk a db r db' Hrun Hrej).
Qed.

Lemma rejectsCleanly_tryCatch :
  forall (m : M Response) r,
    rejectsCleanly m -> rejected r = false -> rejectsCleanly (tryCatch m (ret r)).
Proof.
  intros m r Hm Hr db r' db' Hrun Hrej. unfold tryCatch in Hrun.
  destruct (m db) as [[a|e] db1] eqn:Hm'.
  - inversion Hrun. subst. exact (Hm db r' db' Hm' Hrej).
  - inversion Hrun. subst. rewrite Hr in Hrej. discriminate.
Qed.

Lemma rejectsCleanly_orContinue :
  forall check rest,
    readOnly check -> rejectsCleanly rest -> rejectsCleanly (orContinue check rest).
Proof.
  intros check rest Hc Hr. unfold orContinue.
  apply rejectsCleanly_bind; [exact Hc|].
  intros [response|]; [apply rejectsCleanly_ret | exact Hr].
Qed.

Ltac readOnlyStep :=
  lazymatch goal with
  | |- readOnly (ret _) => apply readOnly_ret
  | |- readOnly (bind _ _) => apply readOnly_bind; [|intro]
  | |- readOnly (getById _ _ _) => apply readOnly_getById
  | |- readOnly (getAll _) => apply readOnly_getAll
  | |- readOnly (getEnrollmentsByClassId _ _) => apply readOnly_getEnrollmentsByClassId
  | |- readOnly (getEnrollmentsByStudentId _ _) => apply readOnly_getEnrollmentsByStudentId
  | |- readOnly (forEachUntil _ _) => apply readOnly_forEachUntil; intro
  | |- readOnly (if ?b then _ else _) => destruct b
  | |- readOnly (match ?x with _ => _ end) => destruct x
  end.

Ltac cleanStep :=
  lazymatch goal with
  | |- rejectsCleanly (tryCatch _ (ret _)) =>
      apply rejectsCleanly_tryCatch; [|reflexivity]
  | |- rejectsCleanly (ret _) => apply rejectsCleanly_ret
  | |- rejectsCleanly (orContinue _ _) =>
      apply rejectsCleanly_orContinue; [solve [repeat readOnlyStep]|]
  | |- rejectsCleanly (bind _ _) =>
      first [ apply rejectsCleanly_bind; [solve [repeat readOnlyStep]|intro]
            | apply neverRejects_cleanly ]
  | |- rejectsCleanly (if ?b then _ else _) => destruct b
  | |- rejectsCleanly (match ?x with _ => _ end) => destruct x
  | |- neverRejects (bind _ _) => apply neverRejects_bind; intro
  | |- neverRejects (ret _) => apply neverRejects_ret; reflexivity
  | |- neverRejects (if ?b then _ else _) => destruct b
  | |- neverRejects (match ?x with _ => _ end) => destruct x
  end.

(** X8.  Every handler of the enrollment routes, and the deletion of a
    student with its cascade, writes only once all its checks have passed:
    when the answer is a refusal (status 400 or 404) the database is
    exactly as it was before the request. *)
Theorem enrollment_rejections_write_nothing :
  forall rt (op : EnrollmentOp) (db : DB) (r : Response) (db' : DB),
    runOp rt op db = (Ok r, db') ->
    rejected r = true ->
    db' = db.
Proof.
  intros rt op.
  change (rejectsCleanly (runOp rt op)).
  destruct op; simpl runOp.
  - unfold createEnrollment. repeat cleanStep.
  - unfold bulkCreateEnrollments. repeat cleanStep.
  - unfold updateEnrollment. repeat cleanStep.
  - unfold transferStudent. repeat cleanStep.
  - unfold deleteEnrollment. repeat cleanStep.
  - unfold deleteStudent. repeat cleanStep.
Qed.

(** Witness for X8: the refusal of a request for a seat. *)
Lemma enrollment_rejections_write_nothing_witness :
  exists r,
    fst (runOp exampleRuntime (OpCreate (Some fatimaIntoB)) fullFirstClassDB) = Ok r
    /\ rejected r = true
    /\ snd (runOp exampleRuntime (OpCreate (Some fatimaIntoB)) fullFirstClassDB)
       = fullFirstClassDB.
Proof.
  exists (validationError "Class is full. Maximum students reached.").
  assert (Hrun : runOp exampleRuntime (OpCreate (Some fatimaIntoB)) fullFirstClassDB
                 = (Ok (validationError "Class is full. Maximum students reached."),
                    snd (runOp exampleRuntime (OpCreate (Some fatimaIntoB)) fullFirstClassDB)))
    by (vm_compute; reflexivity).
  split; [vm_compute; reflexivity|]. split; [reflexivity|].
  exact (@enrollment_rejections_write_nothing exampleRuntime (OpCreate (Some fatimaIntoB))
           fullFirstClassDB _ _ Hrun eq_refl).
Defined.

Lemma readOnly_getSchedulesByClassId :
  forall rt classId, readOnly (getSchedulesByClassId rt classId).
Proof.
  intros rt classId db. unfold getSchedulesByClassId, bind.
  pose proof (readOnly_getObjectId rt (classModel rt) classId db) as H.
  destruct (getObjectId rt (classModel rt) classId db) as [[o|e] db1];
    simpl in H; subst db1; reflexivity.
Qed.

(** X9.  The three writing handlers of the class routes ([createClass],
    [updateClass], [deleteClass]) write only once all their checks have
    passed: a refusal (status 400 or 404) leaves the database exactly as
    it was before the request. *)
Theorem class_rejections_write_nothing :
  forall rt (db : DB) (r : Response) (db' : DB),
    rejected r = true ->
    (forall body, createClass rt body db = (Ok r, db') -> db' = db)
    /\ (forall id body, updateClass rt id body db = (Ok r, db') -> db' = db)
    /\ (forall id, ClassesRoute.deleteClass rt id db = (Ok r, db') -> db' = db).
Proof.
  intros rt db r db' Hrej.
  assert (Hcreate : forall body, rejectsCleanly (createClass rt body)).
  { intro body. unfold createClass, checkSubjectExists, checkScheduleItem.
    repeat cleanStep. }
  assert (Hupdate : forall id body, rejectsCleanly (updateClass rt id body)).
  { intros id body. unfold updateClass, checkSubjectExists. repeat cleanStep. }
  assert (Hdelete : forall id, rejectsCleanly (ClassesRoute.deleteClass rt id)).
  { intro id. unfold ClassesRoute.deleteClass. repeat cleanStep. }
  split; [|split].
  - intros body Hrun. exact (Hcreate body db r db' Hrun Hrej).
  - intros id body Hrun. exact (Hupdate id body db r db' Hrun Hrej).
  - intros id Hrun. exact (Hdelete id db r db' Hrun Hrej).
Qed.

(** Witness for X9: a class whose schedule runs backwards is refused. *)
Lemma class_rejections_write_nothing_witness :
  rejected (validationError "End time must be after start time") = true
  /\ snd (createClass exampleRuntime (newClassWith [backwardsEntry]) morningDB) = morningDB.
Proof.
  assert (Hrun : createClass exampleRuntime (newClassWith [backwardsEntry]) morningDB
                 = (Ok (validationError "End time must be after start time"),
                    snd (createClass exampleRuntime (newClassWith [backwardsEntry]) morningDB)))
    by (vm_compute; reflexivity).
  split; [reflexivity|].
  exact (proj1 (@class_rejections_write_nothing exampleRuntime morningDB
                  (validationError "End time must be after start time")
                  (snd (createClass exampleRuntime (newClassWith [backwardsEntry]) morningDB))
                  eq_refl)
               (newClassWith [backwardsEntry]) Hrun).
Defined.

(** X10.  [createClass] refuses every request whose schedule holds an
    entry that is not in order ([validateScheduleTime] is false on its
    times) or whose subject is not among the [subjectIds] of the request:
    the answer is a 400 and the database is as it was.  (Which of the
    handler's checks answers depends on the rest of the request; an
    earlier check may refuse it first.) *)
Theorem createClass_refuses_malformed_entries :
  forall rt (body : CreateClassRequest.t) (db : DB) entries (e : ScheduleEntry.t),
    CreateClassRequest.schedule body = Some entries ->
    In e entries ->
    validateScheduleTime rt (ScheduleEntry.startTime e) (ScheduleEntry.endTime e) = false
    \/ ~ In (ScheduleEntry.subjectId e) (CreateClassRequest.subjectIds body) ->
    exists message, createClass rt body db = (Ok (validationError message), db).
Proof.
  intros rt body db entries e Hsched Hin Hbad.
  apply (@createClass_rejects_malformed_schedule rt body db entries e Hsched Hin).
  unfold malformed. destruct Hbad as [Htime|Hsubject].
  - rewrite Htime. reflexivity.
  - apply orb_true_iff. right. apply negb_true_iff.
    destruct (existsb (Z.eqb (ScheduleEntry.subjectId e))
                      (CreateClassRequest.subjectIds body)) eqn:Hex; [|reflexivity].
    exfalso. apply Hsubject. apply existsb_exists in Hex.
    destruct Hex as [x [Hx Heq]]. apply Z.eqb_eq in Heq. now subst x.
Qed.

(** Witness for X10: the entry from 10:00 back to 09:00. *)
Lemma createClass_refuses_malformed_entries_witness :
  CreateClassRequest.schedule (newClassWith [backwardsEntry]) = Some [backwardsEntry]
  /\ In backwardsEntry [backwardsEntry]
  /\ validateScheduleTime exampleRuntime "10:00" "09:00" = false
  /\ exists message,
      createClass exampleRuntime (newClassWith [backwardsEntry]) morningDB
      = (Ok (validationError message), morningDB).
Proof.
  split; [reflexivity|]. split; [now left|]. split; [reflexivity|].
  apply (@createClass_refuses_malformed_entries exampleRuntime
           (newClassWith [backwardsEntry]) morningDB [backwardsEntry] backwardsEntry).
  - reflexivity.
  - now left.
  - left. reflexivity.
Defined.

(** ** The check of unique class names *)

Lemma populated_class_school_is_no_number :
  forall rt db d n,
    strictEq (Class.schoolId (populated (classModel rt) db d)) (JNum n) = false.
Proof.
  intros rt db d n. simpl. unfold populateRef.
  destruct (inIds _ _); reflexivity.
Qed.

(** X11.  [createClass] never answers "Class with this name already
    exists in the school".  The classes it compares the request with come
    from [getAll], where [populate] has put the school document (or
    [null]) in place of [schoolId]; neither is identical to the number of
    the request, so the search for a class of the same school and name
    finds nothing, whatever the database holds. *)
Theorem createClass_never_reports_duplicate_name :
  forall rt (body : CreateClassRequest.t) (db : DB),
    fst (createClass rt body db) <> Ok duplicateClassName.
Proof.
  intros rt body db Hfst.
  assert (Hpost : post (fun r => r <> duplicateClassName) (createClass rt body)).
  { unfold createClass.
    apply post_tryCatch; [|apply post_ret; differs].
    destruct (negb (createClassSchema body)); [apply post_ret; differs|].
    apply post_bind. intros [school|]; [|apply post_ret; differs].
    apply post_orContinue.
    { destruct (isTruthyNumber _); [|apply post_ret; someDiffers].
      apply post_bind. intros [teacher|]; [|apply post_ret; someDiffers].
      destruct (negb _); apply post_ret; someDiffers. }
    apply post_orContinue.
    { apply post_forEachUntil; [someDiffers|].
      intros x r. unfold checkSubjectExists. apply post_bind.
      intros [subject|]; apply post_ret; eachDiffers. }
    destruct (_ && _); [apply post_ret; differs|].
    apply post_orContinue.
    { apply post_forEachUntil; [someDiffers|].
      intros x r. unfold checkScheduleItem.
      destruct (negb _); [apply post_ret; eachDiffers|].
      destruct (negb _); apply post_ret; eachDiffers. }
    apply post_bind_with
      with (Q1 := fun all => forall c, In c all ->
                    forall n, strictEq (Class.schoolId c) (JNum n) = false).
    { intros db0 all db1 Hrun. unfold getAll, bind, getDB, ret in Hrun.
      inversion Hrun. subst. intros c Hc n. apply in_map_iff in Hc.
      destruct Hc as [d [<- _]]. apply (populated_class_school_is_no_number rt). }
    intros all Hall.
    destruct (find _ all) as [c|] eqn:Hfind.
    { exfalso. apply find_some in Hfind. destruct Hfind as [Hin Htest].
      rewrite (Hall c Hin) in Htest. discriminate. }
    apply post_bind. intro newClass. apply post_bind. intros _.
    apply post_bind. intro data. apply post_ret. differs. }
  destruct (createClass rt body db) as [[r|e] db'] eqn:Hrun; [|discriminate].
  simpl in Hfst. inversion Hfst. subst r.
  exact (Hpost db duplicateClassName db' Hrun eq_refl).
Qed.

(** ** Writes that a property does not see *)

Section Insensitive.

Variable rt : Runtime.
Variables D J I U : Type.
Variable model : Model D J I U.
Variable P : DB -> Prop.

Hypothesis P_setCollection : forall db c, P db -> P (setCollection model c db).
Hypothesis P_bump : forall db, P db -> P (bump_nextId db).

Lemma keeps_castQueryId : forall id, preserves P (castQueryId rt id).
Proof.
  intro id. unfold castQueryId.
  destruct (castObjectId rt id); [apply preserves_ret | apply preserves_throw].
Qed.

Lemma keeps_idToString : forall id, preserves P (idToString id).
Proof.
  intro id. unfold idToString.
  destruct (JsId_toString id); [apply preserves_ret | apply preserves_throw].
Qed.

Lemma keeps_create : forall item, preserves P (create model item).
Proof.
  intros item db H. unfold create, bind, getDB, putDB.
  destruct (construct model (nextId db) item) as [d|]; [|now apply P_bump].
  destruct (indexOk model (collection model db) d); [|now apply P_bump].
  cbn [snd]. now apply P_setCollection, P_bump.
Qed.

Lemma keeps_findOneAndUpdate :
  forall o updates, preserves P (findOneAndUpdate model o updates).
Proof.
  intros o updates db H. unfold findOneAndUpdate.
  destruct (castUpdate model updates) as [f|]; [|exact H].
  unfold bind, getDB, putDB.
  destruct (findById model o (collection model db)) as [d|]; [|exact H].
  destruct (indexOk model _ (f d)); [|exact H].
  cbn [snd]. now apply P_setCollection.
Qed.

Lemma keeps_update : forall id updates, preserves P (update rt model id updates).
Proof.
  intros id updates. unfold update.
  apply preserves_bind; [apply keeps_idToString|]. intro s.
  destruct (ObjectId_isValid rt s).
  - apply preserves_bind; [apply keeps_castQueryId|]. intro o.
    apply keeps_findOneAndUpdate.
  - apply preserves_bind; [apply preserves_getDB|]. intro db'.
    destruct (findOne (collection model db'));
      [apply keeps_findOneAndUpdate | apply preserves_ret].
Qed.

Lemma keeps_deleteOne : forall o, preserves P (deleteOne model o).
Proof.
  intros o db H. unfold deleteOne, bind, getDB, putDB.
  destruct (findById model o (collection model db)); [|exact H].
  cbn [snd]. now apply P_setCollection.
Qed.

Lemma keeps_delete : forall id, preserves P (delete rt model id).
Proof.
  intro id. unfold delete.
  apply preserves_bind; [apply keeps_idToString|]. intro s.
  destruct (ObjectId_isValid rt s).
  - apply preserves_bind; [apply keeps_castQueryId|]. intro o. apply keeps_deleteOne.
  - apply preserves_bind; [apply preserves_getDB|]. intro db'.
    destruct (findOne (collection model db'));
      [apply keeps_deleteOne | apply preserves_ret].
Qed.

End Insensitive.

Lemma keeps_updateClassStudentCount :
  forall rt (P : DB -> Prop) id,
    (forall db o n d,
        P db -> findById (classModel rt) o (classes db) = Some d ->
        P (set_classes (replaceFirst (classModel rt) o (setCurrentStudents n d) (classes db))
                       db)) ->
    preserves P (updateClassStudentCount rt id).
Proof.
  intros rt P id HP. unfold updateClassStudentCount.
  apply preserves_bind; [apply readOnly_preserves, readOnly_getObjectId|]. intro o.
  apply preserves_bind; [apply preserves_getDB|]. intro db0.
  apply preserves_bind; [apply readOnly_preserves, readOnly_getObjectId|]. intro o'.
  intros db H. unfold findByIdAndUpdateCount, bind, getDB, putDB.
  destruct (findById (classModel rt) o' (classes db)) as [d|] eqn:Hfind; [|exact H].
  cbn [snd]. now apply HP.
Qed.

Lemma keeps_bulkLoop :
  forall rt (P : DB -> Prop) cls classId enrollmentDate academicYear,
    (forall studentId,
        preserves P (bulkEnrollOne rt cls classId enrollmentDate academicYear studentId)) ->
    forall studentIds created errors,
      preserves P (bulkLoop rt cls classId enrollmentDate academicYear studentIds
                            created errors).
Proof.
  intros rt P cls classId enrollmentDate academicYear Hone studentIds.
  induction studentIds as [|studentId rest IH]; intros created errors; simpl.
  - apply preserves_ret.
  - apply preserves_bind.
    + apply preserves_tryCatch; [apply Hone | apply preserves_ret].
    + intros [data|message]; apply IH.
Qed.

Lemma replaceFirst_setCurrentStudents :
  forall rt o n d c,
    findById (classModel rt) o c = Some d ->
    map (setCurrentStudents 0) (replaceFirst (classModel rt) o (setCurrentStudents n d) c)
    = map (setCurrentStudents 0) c.
Proof.
  intros rt o n d c. unfold findById. induction c as [|x c IH]; [discriminate|].
  simpl. destruct (ClassDoc._id x =? o)%N.
  - intro H. inversion H. subst x. reflexivity.
  - intro H. simpl. now rewrite IH.
Qed.

Section Removal.

Variable rt : Runtime.
Variables D J I U : Type.
Variable model : Model D J I U.
Variable P : DB -> Prop.

Hypothesis P_remove :
  forall db o, P db -> P (setCollection model (removeFirst model o (collection model db)) db).

Lemma keeps_deleteOne_removal : forall o, preserves P (deleteOne model o).
Proof.
  intros o db H. unfold deleteOne, bind, getDB, putDB.
  destruct (findById model o (collection model db)); [|exact H].
  cbn [snd]. now apply P_remove.
Qed.

Lemma keeps_delete_removal : forall id, preserves P (delete rt model id).
Proof.
  intro id. unfold delete.
  apply preserves_bind; [apply keeps_idToString|]. intro s.
  destruct (ObjectId_isValid rt s).
  - apply preserves_bind; [apply keeps_castQueryId|]. intro o.
    apply keeps_deleteOne_removal.
  - apply preserves_bind; [apply preserves_getDB|]. intro db'.
    destruct (findOne (collection model db'));
      [apply keeps_deleteOne_removal | apply preserves_ret].
Qed.

End Removal.

(** One step of a proof that a handler keeps a property; [side] proves
    that the property does not see the write at hand. *)
Ltac keepStep side :=
  lazymatch goal with
  | |- preserves _ (ret _) => apply preserves_ret
  | |- preserves _ (throw _) => apply preserves_throw
  | |- preserves _ getDB => apply preserves_getDB
  | |- preserves _ (tryCatch _ _) => apply preserves_tryCatch
  | |- preserves _ (bind _ _) => apply preserves_bind; [|intro]
  | |- preserves _ (orContinue _ _) => unfold orContinue
  | |- preserves _ (getById _ _ _) => apply readOnly_preserves, readOnly_getById
  | |- preserves _ (getAll _) => apply readOnly_preserves, readOnly_getAll
  | |- preserves _ (getEnrollmentsByClassId _ _) =>
      apply readOnly_preserves, readOnly_getEnrollmentsByClassId
  | |- preserves _ (getEnrollmentsByStudentId _ _) =>
      apply readOnly_preserves, readOnly_getEnrollmentsByStudentId
  | |- preserves _ (getSchedulesByClassId _ _) =>
      apply readOnly_preserves, readOnly_getSchedulesByClassId
  | |- preserves _ (getObjectId _ _ _) => apply readOnly_preserves, readOnly_getObjectId
  | |- preserves _ (mapEnrollmentToResponse _ _) =>
      apply readOnly_preserves, readOnly_mapEnrollmentToResponse
  | |- preserves _ (create _ _) => apply keeps_create; side
  | |- preserves _ (update _ _ _ _) => apply keeps_update; side
  | |- preserves _ (delete _ _ _) => apply keeps_delete_removal; side
  | |- preserves _ (updateClassStudentCount _ _) =>
      apply keeps_updateClassStudentCount; side
  | |- preserves _ (bulkLoop _ _ _ _ _ _ _ _) => apply keeps_bulkLoop; intro
  | |- preserves _ (bulkEnrollOne _ _ _ _ _ _) => unfold bulkEnrollOne
  | |- preserves _ (forEach _ _) => apply preserves_forEach; intro
  | |- preserves _ (forEachUntil _ _) =>
      apply readOnly_preserves; solve [repeat readOnlyStep]
  | |- preserves _ (if ?b then _ else _) => destruct b
  | |- preserves _ (match ?x with _ => _ end) => destruct x
  end.

Ltac unfoldOp :=
  unfold runOp, createEnrollment, bulkCreateEnrollments, updateEnrollment,
    transferStudent, deleteEnrollment, deleteStudent.

Ltac frameSide :=
  intros; unfold sameButEnrollments in *; simpl;
  try match goal with
      | H : findById _ _ _ = Some _ |- _ =>
          rewrite (replaceFirst_setCurrentStudents _ _ _ _ H)
      end;
  assumption.

Lemma sameClassData_of_maps :
  forall l l',
    map (setCurrentStudents 0) l' = map (setCurrentStudents 0) l ->
    Forall2 sameClassData l l'.
Proof.
  induction l as [|c l IH]; intros [|c' l'] H; try discriminate; [constructor|].
  simpl in H. inversion H. constructor; [|now apply IH].
  repeat split; assumption.
Qed.

(** X12.  Whatever an enrollment handler or the deletion of a student is
    given and however it ends, it leaves the schools, the teachers, the
    subjects and the schedule entries as they were, adds and removes no
    class, and leaves the [_id], [name], [schoolId], [teacherId],
    [subjectIds], [primarySubjectId], [maxStudents] and [academicYear] of
    every class as they were.  The handlers of the enrollment routes leave
    the students as they were too; the deletion of a student adds none. *)
Theorem enrollment_handlers_frame :
  forall rt (op : EnrollmentOp) (db : DB),
    let after := snd (runOp rt op db) in
    schools after = schools db
    /\ teachers after = teachers db
    /\ subjects after = subjects db
    /\ schedules after = schedules db
    /\ Forall2 sameClassData (classes db) (classes after)
    /\ match op with
       | OpDeleteStudent _ => forall s, In s (students after) -> In s (students db)
       | _ => students after = students db
       end.
Proof.
  intros rt op db after.
  assert (Hframe : sameButEnrollments db after).
  { assert (H : preserves (sameButEnrollments db) (runOp rt op)).
    { destruct op; unfoldOp; repeat keepStep frameSide. }
    apply H. repeat split; reflexivity. }
  destruct Hframe as (H1 & H2 & H3 & H4 & H5).
  split; [exact H1|]. split; [exact H2|]. split; [exact H3|]. split; [exact H4|].
  split; [now apply sameClassData_of_maps|].
  clear H1 H2 H3 H4 H5. subst after. destruct op.
  1-5: match goal with
       | |- students (snd (runOp ?r ?o ?d0)) = _ =>
           assert (H : preserves (fun d => students d = students d0) (runOp r o))
             by (unfoldOp; repeat keepStep ltac:(intros; simpl; assumption));
           apply H; reflexivity
       end.
  assert (H : preserves (fun d => forall s, In s (students d) -> In s (students db))
                (runOp rt (OpDeleteStudent id))).
  { unfoldOp.
    repeat keepStep
      ltac:(first [ solve [intros; simpl in *; auto]
                  | let H := fresh in let Hs := fresh in
                    intros ? ? H ? Hs; apply H; simpl in Hs;
                    exact (removeFirst_sublist studentModel _ _ _ Hs) ]). }
  apply H. auto.
Qed.

(** ** The accounts of a bulk enrollment *)

Lemma addsAtMost_readOnly : forall A (m : M A), readOnly m -> addsAtMost 0 m.
Proof.
  intros A m H db. exists []. rewrite H, app_nil_r. split; [reflexivity | simpl; lia].
Qed.

Lemma addsAtMost_weaken :
  forall A (m : M A) n n', (n <= n')%nat -> addsAtMost n m -> addsAtMost n' m.
Proof.
  intros A m n n' Hle H db. destruct (H db) as [added [Ha Hl]].
  exists added. split; [exact Ha | lia].
Qed.

Lemma addsAtMost_bind :
  forall A B (m : M A) (k : A -> M B) n1 n2,
    addsAtMost n1 m -> (forall a, addsAtMost n2 (k a)) -> addsAtMost (n1 + n2) (bind m k).
Proof.
  intros A B m k n1 n2 Hm Hk db. unfold bind.
  destruct (Hm db) as [added1 [Ha1 Hl1]].
  destruct (m db) as [[a|e] db1]; simpl in Ha1.
  - destruct (Hk a db1) as [added2 [Ha2 Hl2]].
    exists (added1 ++ added2)%list. rewrite Ha2, Ha1, app_assoc, length_app.
    split; [reflexivity | lia].
  - exists added1. split; [exact Ha1 | lia].
Qed.

Lemma addsAtMost_tryCatch :
  forall A (m h : M A) n1 n2,
    addsAtMost n1 m -> addsAtMost n2 h -> addsAtMost (n1 + n2) (tryCatch m h).
Proof.
  intros A m h n1 n2 Hm Hh db. unfold tryCatch.
  destruct (Hm db) as [added1 [Ha1 Hl1]].
  destruct (m db) as [[a|e] db1]; simpl in Ha1.
  - exists added1. split; [exact Ha1 | lia].
  - destruct (Hh db1) as [added2 [Ha2 Hl2]].
    exists (added1 ++ added2)%list. rewrite Ha2, Ha1, app_assoc, length_app.
    split; [reflexivity | lia].
Qed.

Lemma addsAtMost_create :
  forall rt item, addsAtMost 1 (create (enrollmentModel rt) item).
Proof.
  intros rt item db. unfold create, bind, getDB, putDB.
  destruct (construct (enrollmentModel rt) (nextId db) item) as [d|].
  - destruct (indexOk (enrollmentModel rt) (collection (enrollmentModel rt) db) d).
    + exists [d]. split; [reflexivity | simpl; lia].
    + exists []. simpl. rewrite app_nil_r. split; [reflexivity | lia].
  - exists []. simpl. rewrite app_nil_r. split; [reflexivity | lia].
Qed.

Lemma addsAtMost_updateClassStudentCount :
  forall rt id, addsAtMost 0 (updateClassStudentCount rt id).
Proof.
  intros rt id db. exists []. rewrite app_nil_r. split; [|simpl; lia].
  assert (H : preserves (fun d => enrollments d = enrollments db)
                        (updateClassStudentCount rt id))
    by (apply keeps_updateClassStudentCount; intros; simpl; assumption).
  apply H. reflexivity.
Qed.

Ltac quietEnd H :=
  unfold ret, throw in H; inversion H; subst;
  exists []; rewrite app_nil_r;
  split; [reflexivity | split; [simpl; lia | let E := fresh in intros ? E; discriminate E]].

Lemma bulkEnrollOne_adds :
  forall rt cls classId enrollmentDate academicYear studentId db r db',
    bulkEnrollOne rt cls classId enrollmentDate academicYear studentId db = (r, db') ->
    exists added,
      enrollments db' = (enrollments db ++ added)%list
      /\ (List.length added <= 1)%nat
      /\ forall data, r = Ok (inl data) -> List.length added = 1%nat.
Proof.
  intros rt cls classId enrollmentDate academicYear studentId db r db' Hrun.
  unfold bulkEnrollOne, bind in Hrun.
  pose proof (readOnly_getById rt studentModel studentId db) as H1.
  destruct (getById rt studentModel studentId db) as [[student|e] db1];
    simpl in H1; subst db1; [|quietEnd Hrun].
  destruct student as [student|]; [|quietEnd Hrun].
  unfold getAll, bind, getDB in Hrun. unfold ret at 1 in Hrun.
  match type of Hrun with
  | context [match find ?f ?l with _ => _ end] => destruct (find f l)
  end; [quietEnd Hrun|].
  pose proof (readOnly_getEnrollmentsByClassId rt classId db) as H2.
  destruct (getEnrollmentsByClassId rt classId db) as [[ofClass|e] db1];
    simpl in H2; subst db1; [|quietEnd Hrun].
  destruct (Class.maxStudents cls <=? _); [quietEnd Hrun|].
  unfold create, bind, getDB, putDB in Hrun.
  destruct (construct (enrollmentModel rt) (nextId db) _) as [d|]; [|quietEnd Hrun].
  destruct (indexOk (enrollmentModel rt) (collection (enrollmentModel rt) db) d);
    [|quietEnd Hrun].
  unfold ret at 1 in Hrun.
  match type of Hrun with
  | context [mapEnrollmentToResponse rt ?e ?s] =>
      pose proof (readOnly_mapEnrollmentToResponse rt e s) as H3;
      destruct (mapEnrollmentToResponse rt e s) as [[data|ex] db1];
      simpl in H3; subst db1
  end.
  - unfold ret in Hrun. inversion Hrun. subst.
    exists [d]. split; [reflexivity | split; [simpl; lia | reflexivity]].
  - inversion Hrun. subst.
    exists [d]. split; [reflexivity | split; [simpl; lia | reflexivity]].
Qed.

Lemma bulkLoop_accounts :
  forall rt cls classId enrollmentDate academicYear studentIds created errors db r db',
    bulkLoop rt cls classId enrollmentDate academicYear studentIds created errors db
    = (Ok r, db') ->
    (List.length (fst r) + List.length (snd r)
     = List.length created + List.length errors + List.length studentIds)%nat
    /\ exists added,
        enrollments db' = (enrollments db ++ added)%list
        /\ (List.length (fst r) <= List.length created + List.length added)%nat
        /\ (List.length created <= List.length (fst r))%nat
        /\ (List.length added <= List.length studentIds)%nat.
Proof.
  intros rt cls classId enrollmentDate academicYear studentIds.
  induction studentIds as [|studentId rest IH]; intros created errors db r db' Hrun.
  - simpl in Hrun. unfold ret in Hrun. inversion Hrun. subst. simpl.
    split; [lia|]. exists []. rewrite app_nil_r. simpl. repeat split; lia.
  - simpl in Hrun. unfold bind, tryCatch in Hrun.
    destruct (bulkEnrollOne rt cls classId enrollmentDate academicYear studentId db)
      as [r1 db1] eqn:Hone.
    destruct (bulkEnrollOne_adds _ _ _ _ _ _ _ Hone) as [added1 [Ha1 [Hl1 Hin1]]].
    destruct r1 as [[data|message]|e].
    + destruct (IH _ _ _ _ _ Hrun) as [Hsum [added [Ha [Hle [Hge Hl]]]]].
      specialize (Hin1 data eq_refl). rewrite length_app in *. simpl in *.
      split; [lia|]. exists (added1 ++ added)%list.
      rewrite Ha, Ha1, app_assoc, length_app. repeat split; lia.
    + destruct (IH _ _ _ _ _ Hrun) as [Hsum [added [Ha [Hle [Hge Hl]]]]].
      rewrite length_app in *. simpl in *.
      split; [lia|]. exists (added1 ++ added)%list.
      rewrite Ha, Ha1, app_assoc, length_app. repeat split; lia.
    + unfold ret at 1 in Hrun.
      destruct (IH _ _ _ _ _ Hrun) as [Hsum [added [Ha [Hle [Hge Hl]]]]].
      rewrite length_app in *. simpl in *.
      split; [lia|]. exists (added1 ++ added)%list.
      rewrite Ha, Ha1, app_assoc, length_app. repeat split; lia.
Qed.

(** X13.  When a bulk enrollment is answered (200), every student of the
    request is in exactly one of the two lists: [created] and [errors]
    together are as long as [studentIds].  The enrollments that were there
    are all kept, unchanged and in their order; the new ones follow them,
    at least one for each entry of [created] and at most one for each
    student of the request. *)
Theorem bulkCreateEnrollments_accounts :
  forall rt studentIds classId enrollmentDate academicYear db created errors db',
    bulkCreateEnrollments rt studentIds classId enrollmentDate academicYear db
    = (Ok {| statusCode := 200; body := BulkBody created errors |}, db') ->
    exists ids added,
      studentIds = Some ids
      /\ (List.length created + List.length errors = List.length ids)%nat
      /\ enrollments db' = (enrollments db ++ added)%list
      /\ (List.length created <= List.length added <= List.length ids)%nat.
Proof.
  intros rt studentIds classId enrollmentDate academicYear db created errors db' Hrun.
  unfold bulkCreateEnrollments, tryCatch in Hrun.
  destruct studentIds as [[|studentId rest]|]; try (unfold ret in Hrun; discriminate).
  exists (studentId :: rest).
  unfold bind at 1 in Hrun.
  pose proof (readOnly_getById rt (classModel rt) classId db) as H1.
  destruct (getById rt (classModel rt) classId db) as [[cls|e] db1];
    simpl in H1; subst db1; [|unfold ret in Hrun; discriminate].
  destruct cls as [cls|]; [|unfold ret in Hrun; discriminate].
  unfold bind at 1 in Hrun.
  destruct (bulkLoop rt cls classId enrollmentDate academicYear (studentId :: rest) [] [] db)
    as [[r|e] db1] eqn:Hloop; [|unfold ret in Hrun; discriminate].
  destruct (bulkLoop_accounts _ _ _ _ _ _ _ _ _ Hloop)
    as [Hsum [added [Ha [Hle [_ Hl]]]]].
  unfold bind in Hrun.
  destruct (addsAtMost_updateClassStudentCount rt classId db1) as [none [Hnone Hl0]].
  destruct (updateClassStudentCount rt classId db1) as [[u|e] db2];
    [|unfold ret in Hrun; discriminate].
  unfold ret in Hrun. inversion Hrun. subst.
  simpl in Hnone. destruct none; [|simpl in Hl0; lia]. rewrite app_nil_r in Hnone.
  exists added. simpl in *. rewrite Hnone, Ha. repeat split; lia.
Qed.

(** Witness for X13: Fatima is enrolled in class B by a batch that names
    her and the class by their ObjectIds. *)
Lemma bulkCreateEnrollments_accounts_witness :
  let run :=
    bulkCreateEnrollments exampleRuntime
      (Some [JStr (ObjectId_toString (StudentDoc._id fatima))])
      (JStr (ObjectId_toString classB_id)) "2024-09-01" "2024-2025" fullFirstClassDB in
  exists created errors,
    run = (Ok {| statusCode := 200; body := BulkBody created errors |}, snd run)
    /\ List.length created = 1%nat
    /\ exists ids added,
        Some [JStr (ObjectId_toString (StudentDoc._id fatima))] = Some ids
        /\ (List.length created + List.length errors = List.length ids)%nat
        /\ enrollments (snd run) = (enrollments fullFirstClassDB ++ added)%list
        /\ (List.length created <= List.length added <= List.length ids)%nat.
Proof.
  intro run.
  assert (Hrun : exists created,
             run = (Ok {| statusCode := 200; body := BulkBody created [] |}, snd run)
             /\ List.length created = 1%nat).
  { unfold run. vm_compute. eexists. split; reflexivity. }
  destruct Hrun as [created [Hrun Hlen]].
  exists created, []. split; [exact Hrun|]. split; [exact Hlen|].
  exact (@bulkCreateEnrollments_accounts exampleRuntime
           (Some [JStr (ObjectId_toString (StudentDoc._id fatima))])
           (JStr (ObjectId_toString classB_id)) "2024-09-01" "2024-2025" fullFirstClassDB
           created [] (snd run) Hrun).
Defined.

(** ** The unique index of the schedule entries *)

Lemma sameSlot_sym : forall a b, sameSlot a b = sameSlot b a.
Proof.
  intros a b. unfold sameSlot.
  now rewrite (N.eqb_sym (ClassScheduleDoc.classId a)),
              (Z.eqb_sym (ClassScheduleDoc.dayOfWeek a)),
              (String.eqb_sym (ClassScheduleDoc.startTime a)).
Qed.

Lemma scheduleIndexOk_sameSlot :
  forall others d, scheduleIndexOk others d = negb (existsb (sameSlot d) others).
Proof. reflexivity. Qed.

Lemma slotsDistinct_append :
  forall l d,
    slotsDistinct l = true -> scheduleIndexOk l d = true -> slotsDistinct (l ++ [d]) = true.
Proof.
  induction l as [|x l IH]; intros d Hl Hd; simpl slotsDistinct in *.
  - reflexivity.
  - apply andb_true_iff in Hl. destruct Hl as [Hx Hl].
    rewrite scheduleIndexOk_sameSlot in *. simpl existsb in Hd.
    apply negb_true_iff, orb_false_iff in Hd. destruct Hd as [Hdx Hd].
    apply andb_true_iff. split.
    + apply negb_true_iff. rewrite existsb_app. simpl.
      apply negb_true_iff in Hx. rewrite Hx, sameSlot_sym, Hdx. reflexivity.
    + apply IH; [exact Hl|]. rewrite scheduleIndexOk_sameSlot. now apply negb_true_iff.
Qed.

Lemma existsb_removeFirst_schedule :
  forall (f : ClassScheduleDoc.t -> bool) rt o l,
    existsb f l = false -> existsb f (removeFirst (scheduleModel rt) o l) = false.
Proof.
  intros f rt o l. induction l as [|x l IH]; intro H; simpl in *; [reflexivity|].
  apply orb_false_iff in H. destruct H as [Hx Hl].
  destruct (ClassScheduleDoc._id x =? o)%N; simpl; [exact Hl|].
  now rewrite Hx, IH.
Qed.

Lemma slotsDistinct_removeFirst :
  forall rt o l,
    slotsDistinct l = true -> slotsDistinct (removeFirst (scheduleModel rt) o l) = true.
Proof.
  intros rt o l. induction l as [|x l IH]; intro H; [reflexivity|].
  simpl slotsDistinct in H. apply andb_true_iff in H. destruct H as [Hx Hl].
  simpl removeFirst. destruct (ClassScheduleDoc._id x =? o)%N; [exact Hl|].
  simpl slotsDistinct. apply andb_true_iff. split; [|now apply IH].
  rewrite scheduleIndexOk_sameSlot in *. apply negb_true_iff.
  apply existsb_removeFirst_schedule. now apply negb_true_iff.
Qed.

Lemma slotsDistinct_at_most_one :
  forall l (cls : ObjectId) (day : Z) (startTime : string),
    slotsDistinct l = true ->
    (List.length (filter (fun x => N.eqb (ClassScheduleDoc.classId x) cls
                                   && Z.eqb (ClassScheduleDoc.dayOfWeek x) day
                                   && String.eqb (ClassScheduleDoc.startTime x) startTime)
                         l) <= 1)%nat.
Proof.
  induction l as [|x l IH]; intros cls day startTime H; simpl in *; [lia|].
  apply andb_true_iff in H. destruct H as [Hx Hl].
  destruct ((ClassScheduleDoc.classId x =? cls)%N
            && (ClassScheduleDoc.dayOfWeek x =? day)
            && String.eqb (ClassScheduleDoc.startTime x) startTime) eqn:E;
    [|now apply IH].
  apply andb_true_iff in E. destruct E as [E E3].
  apply andb_true_iff in E. destruct E as [E1 E2].
  apply N.eqb_eq in E1. apply Z.eqb_eq in E2. apply String.eqb_eq in E3. subst.
  simpl. rewrite scheduleIndexOk_sameSlot in Hx. apply negb_true_iff in Hx.
  assert (Hnone : filter (sameSlot x) l = []).
  { clear IH Hl. induction l as [|y l IHl]; [reflexivity|].
    simpl in *. apply orb_false_iff in Hx. destruct Hx as [Hxy Hx].
    rewrite Hxy. now apply IHl. }
  unfold sameSlot in Hnone. rewrite Hnone. simpl. lia.
Qed.

Lemma keeps_create_schedule :
  forall rt item,
    preserves (fun d => slotsDistinct (schedules d) = true) (create (scheduleModel rt) item).
Proof.
  intros rt item db H. unfold create, bind, getDB, putDB.
  destruct (construct (scheduleModel rt) (nextId db) item) as [d|]; [|exact H].
  destruct (indexOk (scheduleModel rt) (collection (scheduleModel rt) db) d) eqn:E;
    [|exact H].
  cbn [snd]. simpl. now apply slotsDistinct_append.
Qed.

Lemma preserves_mapM :
  forall P A B (f : A -> M B) l,
    (forall a, preserves P (f a)) -> preserves P (mapM f l).
Proof.
  intros P A B f l Hf. induction l as [|x l IH]; simpl.
  - apply preserves_ret.
  - apply preserves_bind; [apply Hf|]. intro y.
    apply preserves_bind; [exact IH|]. intro ys. apply preserves_ret.
Qed.

Ltac slotStep :=
  lazymatch goal with
  | |- preserves _ (create (scheduleModel _) _) => apply keeps_create_schedule
  | |- preserves _ (delete _ (scheduleModel _) _) =>
      apply keeps_delete_removal; intros; simpl; now apply slotsDistinct_removeFirst
  | |- preserves _ (mapM _ _) => apply preserves_mapM; intro
  | |- preserves _ (mapClassToResponse _ _) => unfold mapClassToResponse
  | |- preserves _ (createScheduleEntry _ _ _) => unfold createScheduleEntry
  | |- _ => keepStep ltac:(intros; simpl; assumption)
  end.

Lemma handle_keeps_slots :
  forall rt request,
    preserves (fun d => slotsDistinct (schedules d) = true) (handle rt request).
Proof.
  intros rt [[body|id body|id]|op]; simpl handle.
  - unfold runClassOp, createClass, checkSubjectExists, checkScheduleItem.
    repeat slotStep.
  - unfold runClassOp, updateClass, checkSubjectExists. repeat slotStep.
  - unfold runClassOp, ClassesRoute.deleteClass. repeat slotStep.
  - destruct op; unfoldOp; repeat slotStep.
Qed.

(** X14.  Start from a database on which the unique index of the
    schedule entries holds.  After any sequence of requests to the writing
    handlers of the class routes ([createClass], [updateClass],
    [deleteClass]), the enrollment routes and the student deletion,
    whatever their arguments and however each ends, a class has at most
    one schedule entry on a given day at a given start time. *)
Theorem schedule_slots_stay_distinct :
  forall rt (requests : list Request) (start : DB),
    slotsDistinct (schedules start) = true ->
    forall cls day startTime,
      (List.length (entriesAt cls day startTime (afterRequests rt requests start)) <= 1)%nat.
Proof.
  intros rt requests. induction requests as [|request rest IH]; intros start H cls day t.
  - apply slotsDistinct_at_most_one. exact H.
  - simpl afterRequests. apply IH. now apply handle_keeps_slots.
Qed.

(** Witness for X14: the schedule of the example class is replaced and
    the class is deleted. *)
Lemma schedule_slots_stay_distinct_witness :
  slotsDistinct (schedules morningDB) = true
  /\ (List.length
        (entriesAt classA_id 1 "09:00"
           (afterRequests exampleRuntime
              [ClassRequest (OpUpdateClass (Some (apiId classA_id))
                                           (scheduleOnly [foreignSubjectEntry]));
               ClassRequest (OpDeleteClass (Some (apiId classA_id)))]
              morningDB)) <= 1)%nat.
Proof.
  split; [reflexivity|].
  apply (@schedule_slots_stay_distinct exampleRuntime). reflexivity.
Defined.

(** ** The schedule reports *)

Lemma readOnly_tryCatch :
  forall A (m h : M A), readOnly m -> readOnly h -> readOnly (tryCatch m h).
Proof.
  intros A m h Hm Hh db. unfold tryCatch. specialize (Hm db).
  destruct (m db) as [[a|e] db1]; simpl in Hm; subst db1; [reflexivity | apply Hh].
Qed.

Lemma readOnly_roomLoop :
  forall rt allSchedules roomUtilization,
    readOnly (roomLoop rt allSchedules roomUtilization).
Proof.
  intros rt allSchedules. induction allSchedules as [|schedule rest IH];
    intro roomUtilization; simpl.
  - apply readOnly_ret.
  - destruct (ClassSchedule.room schedule) as [[|c label]|]; try apply IH.
    apply readOnly_bind; [apply readOnly_getById|]. intro cls.
    apply readOnly_bind; [apply readOnly_getById|]. intro subject.
    apply readOnly_bind; [apply readOnly_checkScheduleConflicts|]. intro conflicts.
    apply IH.
Qed.

Lemma readOnly_conflictEntries :
  forall rt allSchedules conflicts, readOnly (conflictEntries rt allSchedules conflicts).
Proof.
  intros rt allSchedules. induction allSchedules as [|schedule rest IH];
    intro conflicts; simpl.
  - apply readOnly_ret.
  - apply readOnly_bind; [apply readOnly_checkScheduleConflicts|].
    intros [|message more]; [apply IH|].
    apply readOnly_bind; [apply readOnly_getById|]. intro cls.
    apply readOnly_bind; [apply readOnly_getById|]. intro subject.
    apply IH.
Qed.

(** X15.  The schedule reports only read.  Whatever [validateSchedule],
    [getScheduleConflicts] and [getRoomUtilization] are given and however
    they end (an answer or an error), the database is exactly as it was:
    validating a proposed entry does not store it. *)
Theorem schedule_reports_only_read :
  forall rt (db : DB),
    (forall classId subjectId dayOfWeek startTime endTime room,
        snd (validateSchedule rt classId subjectId dayOfWeek startTime endTime room db) = db)
    /\ snd (getScheduleConflicts rt db) = db
    /\ snd (getRoomUtilization rt db) = db.
Proof.
  intros rt db. split; [|split].
  - intros classId subjectId dayOfWeek startTime endTime room.
    assert (H : readOnly (validateSchedule rt classId subjectId dayOfWeek
                                           startTime endTime room)).
    { unfold validateSchedule. apply readOnly_tryCatch; [|apply readOnly_ret].
      destruct dayOfWeek as [day|]; [|apply readOnly_ret].
      destruct (_ || _); [apply readOnly_ret|].
      destruct (_ || _); [apply readOnly_ret|].
      destruct (dateGe _ _); [apply readOnly_ret|].
      apply readOnly_bind; [apply readOnly_checkScheduleConflicts|].
      intro conflicts. apply readOnly_ret. }
    apply H.
  - assert (H : readOnly (getScheduleConflicts rt)).
    { unfold getScheduleConflicts. apply readOnly_tryCatch; [|apply readOnly_ret].
      apply readOnly_bind; [apply readOnly_getAll|]. intro allSchedules.
      apply readOnly_bind; [apply readOnly_conflictEntries|]. intro conflicts.
      apply readOnly_ret. }
    apply H.
  - assert (H : readOnly (getRoomUtilization rt)).
    { unfold getRoomUtilization. apply readOnly_tryCatch; [|apply readOnly_ret].
      apply readOnly_bind; [apply readOnly_getAll|]. intro allSchedules.
      apply readOnly_bind; [apply readOnly_roomLoop|]. intro roomUtilization.
      apply readOnly_ret. }
    apply H.
Qed.

Lemma filter_none :
  forall A (f : A -> bool) l, (forall x, In x l -> f x = false) -> filter f l = [].
Proof.
  intros A f l H. induction l as [|x l IH]; [reflexivity|].
  simpl. rewrite (H x (or_introl eq_refl)). apply IH. intros y Hy. apply H. now right.
Qed.

Lemma checkScheduleConflicts_quiet :
  forall rt schedule excludeId db,
    wellTimed schedule ->
    (forall d, In d (schedules db) -> wellTimedDoc d) ->
    (forall d, In d (schedules db) ->
        notExcluded excludeId (populated (scheduleModel rt) db d)
        && overlaps schedule (populated (scheduleModel rt) db d) = false) ->
    checkScheduleConflicts rt schedule excludeId db = (Ok [], db).
Proof.
  intros rt schedule excludeId db Hs Hdb Hnone.
  unfold checkScheduleConflicts, getAll, bind, getDB. simpl.
  rewrite conflictLoop_skip, filter_twice.
  rewrite filter_none; [reflexivity|].
  intros s Hin. apply in_map_iff in Hin. destruct Hin as [d [<- Hd]].
  pose proof (populated_schedule_wellTimed rt db (Hdb d Hd)) as Hw.
  pose proof (Hnone d Hd) as H.
  change (isSameDay schedule excludeId (populated (scheduleModel rt) db d)
          && timesOverlap rt schedule (populated (scheduleModel rt) db d) = false).
  remember (populated (scheduleModel rt) db d) as existing.
  rewrite (timesOverlap_minutes rt Hs Hw).
  unfold isSameDay, overlaps, notExcluded in *.
  destruct (ClassSchedule.dayOfWeek existing =? ClassSchedule.dayOfWeek schedule);
    [|reflexivity].
  destruct (negb _); [|reflexivity]. simpl in *. exact H.
Qed.

Lemma conflictEntries_report :
  forall rt allSchedules conflicts db r db',
    conflictEntries rt allSchedules conflicts db = (Ok r, db') ->
    Forall (fun e => ConflictEntry.conflicts e <> []) conflicts ->
    Forall (fun e => ConflictEntry.conflicts e <> []) r
    /\ (List.length r <= List.length conflicts + List.length allSchedules)%nat.
Proof.
  intros rt allSchedules. induction allSchedules as [|schedule rest IH];
    intros conflicts db r db' Hrun Hacc.
  - simpl in Hrun. unfold ret in Hrun. inversion Hrun. subst. split; [exact Hacc | simpl; lia].
  - simpl in Hrun. unfold bind at 1 in Hrun.
    destruct (checkScheduleConflicts rt schedule (Some (ClassSchedule.id schedule)) db)
      as [[[|message more]|e] db1]; [| |discriminate].
    + destruct (IH _ _ _ _ Hrun Hacc) as [H1 H2]. split; [exact H1 | simpl; lia].
    + unfold bind at 1 in Hrun.
      destruct (getById rt (classModel rt) (ClassSchedule.classId schedule) db1)
        as [[cls|e] db2]; [|discriminate].
      unfold bind at 1 in Hrun.
      destruct (getById rt subjectModel (ClassSchedule.subjectId schedule) db2)
        as [[subject|e] db3]; [|discriminate].
      apply IH in Hrun.
      * destruct Hrun as [H1 H2]. split; [exact H1|].
        rewrite length_app in H2. simpl in *. lia.
      * apply Forall_app. split; [exact Hacc|].
        constructor; [|constructor]. simpl. discriminate.
Qed.

(** X16.  In the conflict report, [totalConflicts] is the number of
    entries reported, there are no more of them than schedule entries,
    and each carries at least one conflict message.  When the times are
    in the two-digit form and no two entries with different ids overlap
    (same day, [start1 < end2] and [start2 < end1]), the report is empty:
    an entry is never reported as in conflict with itself. *)
Theorem getScheduleConflicts_report :
  forall rt (db : DB),
    (forall total conflicts db',
        getScheduleConflicts rt db = (Ok (inl (total, conflicts)), db') ->
        total = Z.of_nat (List.length conflicts)
        /\ (List.length conflicts <= List.length (schedules db))%nat
        /\ Forall (fun e => ConflictEntry.conflicts e <> []) conflicts)
    /\ ((forall d, In d (schedules db) -> wellTimedDoc d) ->
        (forall a b,
            In a (schedules db) -> In b (schedules db) ->
            apiId (ClassScheduleDoc._id a) <> apiId (ClassScheduleDoc._id b) ->
            overlaps (populated (scheduleModel rt) db a)
                     (populated (scheduleModel rt) db b) = false) ->
        getScheduleConflicts rt db = (Ok (inl (0, [])), db)).
Proof.
  intros rt db. split.
  - intros total conflicts db' Hrun.
    unfold getScheduleConflicts, tryCatch, getAll in Hrun.
    unfold bind at 1 in Hrun. unfold bind at 1 in Hrun.
    unfold getDB at 1 in Hrun. unfold ret at 1 in Hrun. unfold bind in Hrun.
    destruct (conflictEntries rt _ [] db) as [[r|e] db1] eqn:Hloop;
      [|unfold ret in Hrun; discriminate].
    unfold ret in Hrun. inversion Hrun. subst.
    destruct (@conflictEntries_report _ _ _ _ _ _ Hloop (Forall_nil _)) as [H1 H2].
    rewrite length_map in H2. simpl in H2. repeat split; [exact H2 | exact H1].
  - intros Hdb Hapart.
    assert (Hquiet : forall l acc,
               incl l (schedules db) ->
               conflictEntries rt (map (populated (scheduleModel rt) db) l) acc db
               = (Ok acc, db)).
    { induction l as [|d l IH]; intros acc Hincl; [reflexivity|].
      simpl map. simpl conflictEntries. unfold bind.
      rewrite checkScheduleConflicts_quiet.
      - apply IH. intros x Hx. apply Hincl. now right.
      - exact (populated_schedule_wellTimed rt db (Hdb d (Hincl d (or_introl eq_refl)))).
      - exact Hdb.
      - intros x Hx. unfold notExcluded.
        change (ClassSchedule.id (populated (scheduleModel rt) db x))
          with (apiId (ClassScheduleDoc._id x)).
        change (ClassSchedule.id (populated (scheduleModel rt) db d))
          with (apiId (ClassScheduleDoc._id d)).
        destruct (Z.eqb_spec (apiId (ClassScheduleDoc._id x))
                             (apiId (ClassScheduleDoc._id d))) as [Heq|Hne];
          [reflexivity|].
        simpl. apply Hapart; [apply Hincl; now left | exact Hx | congruence]. }
    unfold getScheduleConflicts, tryCatch, getAll, bind, getDB. unfold ret at 1.
    change (collection (scheduleModel rt) db) with (schedules db).
    rewrite (Hquiet (schedules db) [] (incl_refl _)). reflexivity.
Qed.

(** Witness for X16: one entry alone is in no conflict. *)
Lemma getScheduleConflicts_report_witness :
  getScheduleConflicts exampleRuntime morningDB = (Ok (inl (0, [])), morningDB).
Proof.
  apply (proj2 (getScheduleConflicts_report exampleRuntime morningDB)).
  - intros d [<-|[]]. split; reflexivity.
  - intros a b [<-|[]] [<-|[]] Hne. exfalso. apply Hne. reflexivity.
Defined.

(** ** The filters of the class list *)

Lemma filterWhen_incl :
  forall A condition (keep : A -> bool) l x, In x (filterWhen condition keep l) -> In x l.
Proof.
  intros A condition keep l x. unfold filterWhen. destruct condition; [|auto].
  intro H. apply filter_In in H. tauto.
Qed.

Lemma filterWhen_nil :
  forall A condition (keep : A -> bool), filterWhen condition keep [] = [].
Proof. intros A [] keep; reflexivity. Qed.

Lemma filterWhen_none :
  forall A (keep : A -> bool) l,
    (forall x, In x l -> keep x = false) -> filterWhen true keep l = [].
Proof. intros A keep l H. unfold filterWhen. now apply filter_none. Qed.

Lemma populated_class_refs_are_no_numbers :
  forall rt db d n,
    strictEq (Class.schoolId (populated (classModel rt) db d)) (JNum n) = false
    /\ strictEq (Class.teacherId (populated (classModel rt) db d)) (JNum n) = false
    /\ includes (Class.subjectIds (populated (classModel rt) db d)) (JNum n) = false.
Proof.
  intros rt db d n. simpl. unfold populateRef, populateOpt, populateRef, populateMany.
  split; [destruct (inIds _ _); reflexivity|]. split.
  - destruct (ClassDoc.teacherId d) as [t|]; [|reflexivity].
    destruct (inIds _ _); reflexivity.
  - unfold includes. induction (filter _ (ClassDoc.subjectIds d)) as [|x l IH];
      [reflexivity | exact IH].
Qed.

Lemma filterWhen_filter :
  forall A condition (keep : A -> bool) l,
    filterWhen condition keep l = filter (fun x => negb condition || keep x) l.
Proof.
  intros A condition keep l. unfold filterWhen. destruct condition; simpl.
  - reflexivity.
  - induction l as [|x l IH]; [reflexivity|]. simpl. now rewrite <- IH.
Qed.

Lemma applyFilters_one_filter :
  forall rt classes filters,
    ClassesRoute.applyFilters rt classes filters
    = filter
        (fun cls =>
           (negb (isTruthyString (ClassFilters.search filters))
            || String_includes (toLowerCase rt (Class.name cls))
                 (toLowerCase rt (orElse (ClassFilters.search filters) "")))
           && (negb (isTruthyNumber (ClassFilters.schoolId filters))
               || strictEq (Class.schoolId cls)
                    (numberOr (ClassFilters.schoolId filters) JNull))
           && (negb (isTruthyNumber (ClassFilters.teacherId filters))
               || strictEq (Class.teacherId cls)
                    (numberOr (ClassFilters.teacherId filters) JNull))
           && (negb (isTruthyNumber (ClassFilters.subjectId filters))
               || includes (Class.subjectIds cls)
                    (numberOr (ClassFilters.subjectId filters) JNull))
           && (negb (isTruthyString (ClassFilters.academicYear filters))
               || String.eqb (Class.academicYear cls)
                    (orElse (ClassFilters.academicYear filters) "")))
        classes.
Proof.
  intros rt classes filters. unfold ClassesRoute.applyFilters.
  rewrite !filterWhen_filter, !filter_twice. apply filter_ext. intro cls.
  now rewrite !andb_assoc.
Qed.

Lemma truthy_numberOr :
  forall n, isTruthyNumber n = true -> exists k, numberOr n JNull = JNum k.
Proof.
  intros [k|] H; [|discriminate]. exists k. simpl in *.
  destruct (k =? 0); [discriminate | reflexivity].
Qed.

(** X17.  The filters of the class list, on what [getAll] returns.  The
    result is a part of the list, in its order.  A [schoolId], [teacherId]
    or [subjectId] filter that is given (a number other than 0) empties
    it: [populate] has replaced the references of a class by documents,
    and none of them is identical to the number of the query.  Without
    these three, the classes kept are exactly those whose lower-cased name
    contains the lower-cased [search] (when one is given) and whose
    [academicYear] is the one asked for (when one is given). *)
Theorem class_list_filters :
  forall rt (db : DB) (filters : ClassFilters.t),
    let all := map (populated (classModel rt) db) (classes db) in
    (forall cls, In cls (ClassesRoute.applyFilters rt all filters) -> In cls all)
    /\ (isTruthyNumber (ClassFilters.schoolId filters)
        || isTruthyNumber (ClassFilters.teacherId filters)
        || isTruthyNumber (ClassFilters.subjectId filters) = true ->
        ClassesRoute.applyFilters rt all filters = [])
    /\ (isTruthyNumber (ClassFilters.schoolId filters)
        || isTruthyNumber (ClassFilters.teacherId filters)
        || isTruthyNumber (ClassFilters.subjectId filters) = false ->
        ClassesRoute.applyFilters rt all filters
        = filter (fun cls =>
                    (negb (isTruthyString (ClassFilters.search filters))
                     || String_includes (toLowerCase rt (Class.name cls))
                          (toLowerCase rt (orElse (ClassFilters.search filters) "")))
                    && (negb (isTruthyString (ClassFilters.academicYear filters))
                        || String.eqb (Class.academicYear cls)
                             (orElse (ClassFilters.academicYear filters) "")))
                 all).
Proof.
  intros rt db filters all. split; [|split].
  - intros cls H. unfold ClassesRoute.applyFilters in H.
    repeat apply filterWhen_incl in H. exact H.
  - intro Hgiven. rewrite applyFilters_one_filter. apply filter_none.
    intros cls Hin. apply in_map_iff in Hin. destruct Hin as [d [<- _]].
    apply orb_true_iff in Hgiven. destruct Hgiven as [Hgiven|H3].
    + apply orb_true_iff in Hgiven. destruct Hgiven as [H1|H2].
      * destruct (truthy_numberOr _ H1) as [k ->]. rewrite H1.
        rewrite (proj1 (populated_class_refs_are_no_numbers rt db d k)).
        simpl. now rewrite andb_false_r.
      * destruct (truthy_numberOr _ H2) as [k ->]. rewrite H2.
        rewrite (proj1 (proj2 (populated_class_refs_are_no_numbers rt db d k))).
        simpl. now rewrite andb_false_r.
    + destruct (truthy_numberOr _ H3) as [k ->]. rewrite H3.
      rewrite (proj2 (proj2 (populated_class_refs_are_no_numbers rt db d k))).
      simpl. now rewrite andb_false_r.
  - intro Hnone. apply orb_false_iff in Hnone. destruct Hnone as [Hnone H3].
    apply orb_false_iff in Hnone. destruct Hnone as [H1 H2].
    rewrite applyFilters_one_filter. rewrite H1, H2, H3. apply filter_ext. intro cls.
    simpl. now rewrite !andb_true_r.
Qed.

(** Witness for X17: the classes of the school of the example class. *)
Lemma class_list_filters_witness :
  ClassesRoute.applyFilters exampleRuntime
    (map (populated (classModel exampleRuntime) morningDB) (classes morningDB))
    {| ClassFilters.search := None;
       ClassFilters.schoolId := Some (apiId (SchoolDoc._id school1));
       ClassFilters.teacherId := None;
       ClassFilters.subjectId := None;
       ClassFilters.academicYear := None |}
  = [].
Proof.
  apply (proj1 (proj2 (class_list_filters exampleRuntime morningDB
                         {| ClassFilters.search := None;
                            ClassFilters.schoolId := Some (apiId (SchoolDoc._id school1));
                            ClassFilters.teacherId := None;
                            ClassFilters.subjectId := None;
                            ClassFilters.academicYear := None |}))).
  reflexivity.
Defined.

(** ** The filters of the enrollment list *)

Lemma filterM_post :
  forall A (Q : A -> Prop) (keep : A -> M bool) l,
    (forall x, post (fun b => b = true -> Q x) (keep x)) ->
    post (fun r => forall x, In x r -> In x l /\ Q x) (filterM keep l).
Proof.
  intros A Q keep l Hkeep. induction l as [|y l IH]; simpl.
  - apply post_ret. intros x [].
  - intros db r db' Hrun. unfold bind at 1 in Hrun.
    destruct (keep y db) as [[b|e] db1] eqn:Hk; [|discriminate].
    unfold bind in Hrun.
    destruct (filterM keep l db1) as [[kept|e] db2] eqn:Hrest; [|discriminate].
    unfold ret in Hrun. inversion Hrun. subst.
    pose proof (IH db1 kept db' Hrest) as Hkept. simpl in Hkept.
    intros x Hx. destruct b.
    + destruct Hx as [<-|Hx].
      * split; [now left | exact (Hkeep y db true db1 Hk eq_refl)].
      * destruct (Hkept x Hx). split; [now right | assumption].
    + destruct (Hkept x Hx). split; [now right | assumption].
Qed.

Lemma getById_populated :
  forall rt D J I U (model : Model D J I U) id db j db',
    getById rt model id db = (Ok (Some j), db') ->
    exists d, j = populated model db d.
Proof.
  intros rt D J I U model id db j db' H.
  unfold getById, idToString, castQueryId, bind in H.
  destruct (JsId_toString id) as [s|]; [|discriminate]. unfold ret at 1 in H.
  destruct (ObjectId_isValid rt s).
  - destruct (castObjectId rt id) as [o|]; [|discriminate].
    unfold ret at 1, getDB at 1 in H. unfold ret at 1, getDB, ret in H.
    destruct (findById model o (collection model db)) as [d|]; [|discriminate].
    inversion H. now exists d.
  - unfold getDB at 1 in H. unfold ret at 1, getDB, ret in H.
    destruct (findOne (collection model db)) as [d|]; [|discriminate].
    inversion H. now exists d.
Qed.

Lemma inSchool_never :
  forall rt n enrollment,
    post (fun b => b = true -> False) (EnrollmentsRoute.inSchool rt (JNum n) enrollment).
Proof.
  intros rt n enrollment db b db' Hrun Hb. subst b.
  unfold EnrollmentsRoute.inSchool, bind in Hrun.
  destruct (getById rt (classModel rt) (Enrollment.classId enrollment) db)
    as [[[cls|]|e] db1] eqn:Hget; try discriminate.
  destruct (@getById_populated _ _ _ _ _ _ _ _ _ _ Hget) as [d ->].
  unfold ret in Hrun.
  rewrite (populated_class_school_is_no_number rt db d n) in Hrun. discriminate.
Qed.

Lemma readOnly_filterM :
  forall A (keep : A -> M bool) l,
    (forall x, readOnly (keep x)) -> readOnly (filterM keep l).
Proof.
  intros A keep l H. induction l as [|x l IH]; simpl.
  - apply readOnly_ret.
  - apply readOnly_bind; [apply H|]. intro b.
    apply readOnly_bind; [exact IH|]. intro kept. apply readOnly_ret.
Qed.

Lemma populated_enrollment_refs_are_no_numbers :
  forall rt db d n,
    strictEq (Enrollment.studentId (populated (enrollmentModel rt) db d)) (JNum n) = false
    /\ strictEq (Enrollment.classId (populated (enrollmentModel rt) db d)) (JNum n) = false.
Proof.
  intros rt db d n. simpl. unfold populateRef.
  split; destruct (inIds _ _); reflexivity.
Qed.

Lemma nothing_in_nil : forall A (l : list A), (forall x, In x l -> False) -> l = [].
Proof.
  intros A [|x l] H; [reflexivity|]. exfalso. apply (H x). now left.
Qed.

(** X18.  The filters of the enrollment list, on what [getAll] returns.
    They only read, and what they return is a part of the list.  A
    [studentId], [classId] or [schoolId] filter that is given (a number
    other than 0) leaves nothing: the references of an enrollment and of
    its class are documents after [populate], never identical to the
    number of the query.  Without [search] and without these three, the
    answer is never an error and holds exactly the enrollments with the
    [status] asked for (when one is given) and the [academicYear] asked
    for (when one is given), in their order. *)
Theorem enrollment_list_filters :
  forall rt (db : DB) (filters : EnrollmentFilters.t),
    let all := map (populated (enrollmentModel rt) db) (enrollments db) in
    let byReference :=
      isTruthyNumber (EnrollmentFilters.studentId filters)
      || isTruthyNumber (EnrollmentFilters.classId filters)
      || isTruthyNumber (EnrollmentFilters.schoolId filters) in
    snd (EnrollmentsRoute.applyFilters rt all filters db) = db
    /\ (forall r db',
          EnrollmentsRoute.applyFilters rt all filters db = (Ok r, db') ->
          (forall e, In e r -> In e all) /\ (byReference = true -> r = []))
    /\ (isTruthyString (EnrollmentFilters.search filters) = false ->
        byReference = false ->
        EnrollmentsRoute.applyFilters rt all filters db
        = (Ok (filter (fun e =>
                         (negb (isSome (EnrollmentFilters.status filters))
                          || Status_eqb (Enrollment.status e)
                               (orElse (EnrollmentFilters.status filters) active))
                         && (negb (isTruthyString (EnrollmentFilters.academicYear filters))
                             || String.eqb (Enrollment.academicYear e)
                                  (orElse (EnrollmentFilters.academicYear filters) "")))
                      all),
           db)).
Proof.
  intros rt db filters all byReference. split; [|split].
  - assert (H : readOnly (EnrollmentsRoute.applyFilters rt all filters)).
    { unfold EnrollmentsRoute.applyFilters.
      apply readOnly_bind.
      - destruct (isTruthyString (EnrollmentFilters.search filters)); [|apply readOnly_ret].
        apply readOnly_filterM. intro x. unfold EnrollmentsRoute.matchesSearch.
        repeat readOnlyStep.
      - intro filtered. apply readOnly_bind; [|intro; apply readOnly_ret].
        destruct (isTruthyNumber (EnrollmentFilters.schoolId filters));
          [|apply readOnly_ret].
        apply readOnly_filterM. intro x. unfold EnrollmentsRoute.inSchool.
        repeat readOnlyStep. }
    apply H.
  - intros r db' Hrun. unfold EnrollmentsRoute.applyFilters in Hrun.
    unfold bind at 1 in Hrun.
    match type of Hrun with
    | context [(if ?c then ?m else ret all) db] =>
        assert (Hfirst : post (fun f1 => forall x, In x f1 -> In x all)
                              (if c then m else ret all))
    end.
    { destruct (isTruthyString (EnrollmentFilters.search filters)); [|apply post_ret; auto].
      intros db0 f1 db1 H1 x Hx.
      exact (proj1 (@filterM_post _ (fun _ => True) _ all
                      ltac:(intros y d0 b d1 _ _; exact I) db0 f1 db1 H1 x Hx)). }
    match type of Hrun with
    | context [(if ?c then ?m else ret all) db] =>
        destruct ((if c then m else ret all) db) as [[f1|e] db1] eqn:H1; [|discriminate];
        pose proof (Hfirst db f1 db1 H1) as Hf1
    end.
    cbv zeta in Hrun. unfold bind in Hrun.
    set (f2 := filterWhen (isTruthyNumber (EnrollmentFilters.classId filters)) _
                 (filterWhen (isTruthyNumber (EnrollmentFilters.studentId filters)) _ f1))
      in Hrun.
    assert (Hf2 : forall x, In x f2 -> In x all).
    { intros x Hx. unfold f2 in Hx. do 2 apply filterWhen_incl in Hx. now apply Hf1. }
    assert (Hf2' : isTruthyNumber (EnrollmentFilters.studentId filters)
                   || isTruthyNumber (EnrollmentFilters.classId filters) = true ->
                   f2 = []).
    { intro Hgiven. apply nothing_in_nil. intros x Hx.
      assert (Hall : In x all) by now apply Hf2.
      apply in_map_iff in Hall. destruct Hall as [d [<- _]].
      unfold f2 in Hx. apply orb_true_iff in Hgiven. destruct Hgiven as [Hs|Hc].
      - apply filterWhen_incl in Hx. rewrite Hs in Hx. unfold filterWhen in Hx.
        apply filter_In in Hx. destruct Hx as [_ Hx].
        destruct (truthy_numberOr _ Hs) as [k Hk]. rewrite Hk in Hx.
        rewrite (proj1 (populated_enrollment_refs_are_no_numbers rt db d k)) in Hx.
        discriminate.
      - rewrite Hc in Hx. unfold filterWhen at 1 in Hx.
        apply filter_In in Hx. destruct Hx as [_ Hx].
        destruct (truthy_numberOr _ Hc) as [k Hk]. rewrite Hk in Hx.
        rewrite (proj2 (populated_enrollment_refs_are_no_numbers rt db d k)) in Hx.
        discriminate. }
    destruct (isTruthyNumber (EnrollmentFilters.schoolId filters)) eqn:Hschool.
    + destruct (truthy_numberOr _ Hschool) as [k Hk]. rewrite Hk in Hrun.
      destruct (filterM (EnrollmentsRoute.inSchool rt (JNum k)) f2 db1)
        as [[f3|e] db2] eqn:H3; [|discriminate].
      pose proof (@filterM_post _ (fun _ => False) _ f2 (inSchool_never rt k) db1 f3 db2 H3)
        as Hf3.
      assert (Hnil : f3 = []) by (apply nothing_in_nil; intros x Hx; exact (proj2 (Hf3 x Hx))).
      subst f3. unfold ret in Hrun. inversion Hrun. subst.
      rewrite !filterWhen_nil. split; [intros e0 []|reflexivity].
    + unfold ret in Hrun. inversion Hrun. subst. split.
      * intros e0 He. do 2 apply filterWhen_incl in He. now apply Hf2.
      * unfold byReference. rewrite orb_false_r. intro Hgiven.
        rewrite (Hf2' Hgiven), !filterWhen_nil. reflexivity.
  - intros Hsearch Hnone. unfold byReference in Hnone.
    apply orb_false_iff in Hnone. destruct Hnone as [Hnone H3].
    apply orb_false_iff in Hnone. destruct Hnone as [H1 H2].
    unfold EnrollmentsRoute.applyFilters. rewrite Hsearch, H1, H2, H3.
    unfold bind, ret. unfold filterWhen at 3 4.
    rewrite !filterWhen_filter, filter_twice. reflexivity.
Qed.

(** Witness for X18: the active enrollments, and the enrollments of a
    student asked for by number. *)
Lemma enrollment_list_filters_witness :
  let all := map (populated (enrollmentModel exampleRuntime) twoInFirstClassDB)
                 (enrollments twoInFirstClassDB) in
  EnrollmentsRoute.applyFilters exampleRuntime all
    {| EnrollmentFilters.search := None;
       EnrollmentFilters.studentId := None;
       EnrollmentFilters.classId := None;
       EnrollmentFilters.schoolId := None;
       EnrollmentFilters.status := Some active;
       EnrollmentFilters.academicYear := None |} twoInFirstClassDB
  = (Ok all, twoInFirstClassDB).
Proof.
  intro all.
  exact (proj2 (proj2 (enrollment_list_filters exampleRuntime twoInFirstClassDB
                         {| EnrollmentFilters.search := None;
                            EnrollmentFilters.studentId := None;
                            EnrollmentFilters.classId := None;
                            EnrollmentFilters.schoolId := None;
                            EnrollmentFilters.status := Some active;
                            EnrollmentFilters.academicYear := None |}))
               eq_refl eq_refl).
Defined.

(** ** The guard of [deleteClass] *)

Lemma getObjectId_delete :
  forall rt n db o db',
    getObjectId rt (classModel rt) (JNum n) db = (Ok o, db') ->
    forall db2,
      classes db2 = classes db ->
      delete rt (classModel rt) (JNum n) db2 = deleteOne (classModel rt) o db2.
Proof.
  intros rt n db o db' Hget db2 Hsame.
  unfold getObjectId, idToString, bind in Hget. unfold delete, idToString, bind.
  cbn [JsId_toString] in *. unfold ret at 1 in Hget. unfold ret at 1.
  unfold castQueryId, castObjectId. cbn [JsId_toString].
  destruct (ObjectId_isValid rt (Number_toString n)).
  - unfold ret in Hget. inversion Hget. reflexivity.
  - unfold getDB in *.
    change (collection (classModel rt) db2) with (classes db2).
    change (collection (classModel rt) db) with (classes db) in Hget.
    rewrite Hsame.
    destruct (findOne (classes db)) as [first|]; [|discriminate].
    unfold ret in Hget. inversion Hget. reflexivity.
Qed.

Lemma inIds_removeFirst :
  forall rt o c x,
    inIds (map ClassDoc._id c) x = true -> x <> o ->
    inIds (map ClassDoc._id (removeFirst (classModel rt) o c)) x = true.
Proof.
  intros rt o c x. unfold inIds. induction c as [|d c IH]; intros H Hne; [discriminate|].
  simpl in *. destruct (N.eqb_spec (ClassDoc._id d) o) as [Hd|Hd].
  - apply orb_true_iff in H. destruct H as [H|H]; [|exact H].
    apply N.eqb_eq in H. congruence.
  - simpl. apply orb_true_iff in H. apply orb_true_iff.
    destruct H as [H|H]; [now left | right; now apply IH].
Qed.

Lemma no_active_populated :
  forall rt db (o : ObjectId),
    (0 <? Z.of_nat (List.length
                      (filter isActive
                         (map (populated (enrollmentModel rt) db)
                              (filter (fun e => (EnrollmentDoc.classId e =? o)%N)
                                      (enrollments db)))))) = false ->
    forall e, In e (enrollments db) -> EnrollmentDoc.status e = active ->
              EnrollmentDoc.classId e <> o.
Proof.
  intros rt db o H e Hin Hactive Heq.
  apply Z.ltb_ge in H.
  assert (Hmem : In (populated (enrollmentModel rt) db e)
                    (filter isActive
                       (map (populated (enrollmentModel rt) db)
                            (filter (fun e => (EnrollmentDoc.classId e =? o)%N)
                                    (enrollments db))))).
  { apply filter_In. split.
    - apply in_map. apply filter_In. split; [exact Hin | now apply N.eqb_eq].
    - unfold isActive. simpl. now rewrite Hactive. }
  destruct (filter isActive _) as [|x l]; [contradiction | simpl in H; lia].
Qed.

(** X19.  [deleteClass] never takes away the class of an active
    enrollment.  If every active enrollment is in a class that exists
    before the request, so it is after it, whatever the id and however
    the request ends: the class the handler deletes is the one whose
    enrollments it has checked, and it deletes it only when none of them
    is active. *)
Theorem deleteClass_keeps_active_enrollments_placed :
  forall rt (id : option Z) (db : DB),
    activePlaced db -> activePlaced (snd (ClassesRoute.deleteClass rt id db)).
Proof.
  intros rt id db Hok. unfold ClassesRoute.deleteClass, tryCatch.
  destruct id as [n|]; [|exact Hok].
  unfold bind at 1.
  pose proof (readOnly_getById rt (classModel rt) (JNum n) db) as H1.
  destruct (getById rt (classModel rt) (JNum n) db) as [[existing|e] db1];
    simpl in H1; subst db1; [|exact Hok].
  destruct existing as [existing|]; [|exact Hok].
  unfold bind at 1. unfold getEnrollmentsByClassId at 1. unfold bind at 1.
  pose proof (readOnly_getObjectId rt (classModel rt) (JNum n) db) as H2.
  destruct (getObjectId rt (classModel rt) (JNum n) db) as [[o|e] db1] eqn:Hget;
    simpl in H2; subst db1; [|exact Hok].
  unfold bind at 1. unfold getDB at 1. unfold ret at 1.
  destruct (0 <? _) eqn:Hactive; [exact Hok|].
  pose proof (@no_active_populated rt db o Hactive) as Hnone.
  unfold bind at 1.
  pose proof (readOnly_getSchedulesByClassId rt (JNum n) db) as H3.
  destruct (getSchedulesByClassId rt (JNum n) db) as [[ofClass|e] db1];
    simpl in H3; subst db1; [|exact Hok].
  unfold bind at 1.
  match goal with
  | |- context [forEach ofClass ?body db] =>
      assert (Hloop : preserves (fun d => classes d = classes db
                                          /\ enrollments d = enrollments db)
                                (forEach ofClass body))
  end.
  { apply preserves_forEach. intro schedule.
    apply preserves_bind; [|intro; apply preserves_ret].
    apply keeps_delete_removal. intros d0 o0 H. exact H. }
  specialize (Hloop db (conj eq_refl eq_refl)).
  match goal with
  | |- context [forEach ofClass ?body db] =>
      destruct (forEach ofClass body db) as [[u|e] db2]
  end; simpl in Hloop; destruct Hloop as [Hclasses Henrollments].
  2: { intros e0 Hin Hact. simpl. rewrite Hclasses. apply Hok; [|exact Hact].
       simpl in Hin. now rewrite <- Henrollments. }
  unfold bind.
  rewrite (@getObjectId_delete rt n db o db Hget db2 Hclasses).
  unfold deleteOne, bind, getDB, putDB.
  change (collection (classModel rt) db2) with (classes db2).
  change (setCollection (classModel rt)) with set_classes.
  match goal with
  | |- context [match findById ?m ?x ?c with _ => _ end] =>
      destruct (findById m x c) as [d|]
  end.
  - unfold ret. cbn [negb fst snd]. intros e0 Hin Hact.
    cbn [classes enrollments set_classes] in *. rewrite Hclasses.
    rewrite Henrollments in Hin.
    apply inIds_removeFirst; [now apply Hok | now apply Hnone].
  - unfold ret. cbn [negb fst snd]. intros e0 Hin Hact.
    rewrite Hclasses. rewrite Henrollments in Hin. now apply Hok.
Qed.

(** Witness for X19: the first class has an active enrollment and is not
    deleted. *)
Lemma deleteClass_keeps_active_enrollments_placed_witness :
  activePlaced fullFirstClassDB
  /\ activePlaced (snd (ClassesRoute.deleteClass exampleRuntime (Some (apiId classA_id))
                          fullFirstClassDB))
  /\ map ClassDoc._id
         (classes (snd (ClassesRoute.deleteClass exampleRuntime (Some (apiId classA_id))
                          fullFirstClassDB)))
     = [classA_id; classB_id].
Proof.
  assert (H : activePlaced fullFirstClassDB).
  { intros e [<-|[]] _. reflexivity. }
  split; [exact H|]. split; [|reflexivity].
  exact (@deleteClass_keeps_active_enrollments_placed exampleRuntime
           (Some (apiId classA_id)) fullFirstClassDB H).
Defined.

(** ** What the conflict check reports *)

Lemma getById_option_populated :
  forall rt D J I U (model : Model D J I U) id db r db',
    getById rt model id db = (Ok r, db') ->
    db' = db /\ exists a, r = option_map (populated model db) a.
Proof.
  intros rt D J I U model id db r db' H.
  unfold getById, idToString, castQueryId, bind in H.
  destruct (JsId_toString id) as [s|]; [|discriminate]. unfold ret at 1 in H.
  destruct (ObjectId_isValid rt s).
  - destruct (castObjectId rt id) as [o|]; [|discriminate].
    unfold ret at 1, getDB at 1 in H. unfold ret at 1, getDB, ret in H.
    inversion H. split; [reflexivity | now eexists].
  - unfold getDB at 1 in H. unfold ret at 1, getDB, ret in H.
    inversion H. split; [reflexivity | now eexists].
Qed.

Lemma conflictsWith_messages :
  forall rt schedule existing db messages db',
    conflictsWith rt schedule existing db = (Ok messages, db') ->
    messages = []
    \/ (sameRoom rt existing schedule = true
        /\ exists existingClass,
            messages = [roomConflictMessage schedule existing existingClass]).
Proof.
  intros rt schedule existing db messages db' Hrun. unfold conflictsWith in Hrun.
  destruct (timesOverlap rt schedule existing);
    [|unfold ret in Hrun; inversion Hrun; now left].
  unfold bind at 1 in Hrun.
  destruct (getById rt (classModel rt) (ClassSchedule.classId existing) db)
    as [[existingClass|e] db1] eqn:H1; [|discriminate].
  destruct (@getById_option_populated _ _ _ _ _ _ _ _ _ _ H1) as [-> [a ->]].
  unfold bind at 1 in Hrun.
  destruct (getById rt (classModel rt) (ClassSchedule.classId schedule) db)
    as [[newClass|e] db2] eqn:H2; [|discriminate].
  destruct (@getById_option_populated _ _ _ _ _ _ _ _ _ _ H2) as [-> [b ->]].
  rewrite sameTeacher_populated in Hrun. unfold ret in Hrun. inversion Hrun.
  destruct (sameRoom rt existing schedule); [right | now left].
  split; [reflexivity | now eexists].
Qed.

Lemma conflictLoop_messages :
  forall rt schedule sameDay conflicts db messages db',
    conflictLoop rt schedule sameDay conflicts db = (Ok messages, db') ->
    exists pushed,
      messages = (conflicts ++ pushed)%list
      /\ (List.length pushed <= List.length sameDay)%nat
      /\ forall m, In m pushed ->
           exists existing existingClass,
             In existing sameDay
             /\ sameRoom rt existing schedule = true
             /\ m = roomConflictMessage schedule existing existingClass.
Proof.
  intros rt schedule sameDay. induction sameDay as [|existing rest IH];
    intros conflicts db messages db' Hrun.
  - simpl in Hrun. unfold ret in Hrun. inversion Hrun. exists [].
    rewrite app_nil_r. repeat split; [simpl; lia | intros m []].
  - simpl in Hrun. unfold bind in Hrun.
    destruct (conflictsWith rt schedule existing db) as [[one|e] db1] eqn:Hone;
      [|discriminate].
    destruct (IH _ _ _ _ Hrun) as [pushed [-> [Hlen Hall]]].
    exists (one ++ pushed)%list. rewrite app_assoc. split; [reflexivity|].
    destruct (@conflictsWith_messages _ _ _ _ _ _ Hone) as [->|[Hroom [cls ->]]].
    + split; [simpl; lia|]. intros m Hm.
      destruct (Hall m Hm) as [x [c [Hx H]]]. exists x, c. split; [now right | exact H].
    + split; [simpl; lia|]. intros m [<-|Hm].
      * exists existing, cls. split; [now left | now split].
      * destruct (Hall m Hm) as [x [c [Hx H]]]. exists x, c. split; [now right | exact H].
Qed.

(** X20.  [checkScheduleConflicts] never reports a teacher conflict.
    Every message it returns is the room conflict message of an entry of
    the same day that has the candidate's room (compared in lower case),
    at most one message for each such entry; a candidate without a room
    gets no message at all.  The two classes whose teachers the check
    compares are objects built by two calls of [getById], and their
    populated [teacherId] are never identical. *)
Theorem checkScheduleConflicts_reports_rooms_only :
  forall rt (schedule : ClassSchedule.t) excludeId (db : DB) messages db',
    checkScheduleConflicts rt schedule excludeId db = (Ok messages, db') ->
    (List.length messages <= List.length (schedules db))%nat
    /\ (forall m, In m messages ->
          exists existing existingClass,
            In existing (map (populated (scheduleModel rt) db) (schedules db))
            /\ ClassSchedule.dayOfWeek existing = ClassSchedule.dayOfWeek schedule
            /\ sameRoom rt existing schedule = true
            /\ m = roomConflictMessage schedule existing existingClass)
    /\ (ClassSchedule.room schedule = None -> messages = []).
Proof.
  intros rt schedule excludeId db messages db' Hrun.
  unfold checkScheduleConflicts, getAll in Hrun.
  unfold bind at 1 in Hrun. unfold bind at 1 in Hrun.
  unfold getDB at 1, ret at 1 in Hrun.
  change (collection (scheduleModel rt) db) with (schedules db) in Hrun.
  destruct (@conflictLoop_messages _ _ _ _ _ _ _ Hrun) as [pushed [-> [Hlen Hall]]].
  simpl app.
  assert (Hmsg : forall m, In m pushed ->
            exists existing existingClass,
              In existing (map (populated (scheduleModel rt) db) (schedules db))
              /\ ClassSchedule.dayOfWeek existing = ClassSchedule.dayOfWeek schedule
              /\ sameRoom rt existing schedule = true
              /\ m = roomConflictMessage schedule existing existingClass).
  { intros m Hm. destruct (Hall m Hm) as [x [c [Hx [Hroom ->]]]].
    apply filter_In in Hx. destruct Hx as [Hin Hday].
    exists x, c. split; [exact Hin|]. split; [|now split].
    unfold isSameDay in Hday. apply andb_true_iff in Hday.
    now apply Z.eqb_eq. }
  split; [|split; [exact Hmsg|]].
  - etransitivity; [exact Hlen|].
    etransitivity; [apply filter_length_le|]. rewrite length_map. lia.
  - intro Hnone. apply nothing_in_nil. intros m Hm.
    destruct (Hmsg m Hm) as [x [c [_ [_ [Hroom _]]]]].
    unfold sameRoom in Hroom. rewrite Hnone in Hroom.
    destruct (ClassSchedule.room x); discriminate.
Qed.

(** Witness for X20: classes B and C have the same teacher, the candidate
    of class C overlaps the entry of class B in the same room, and the one
    message is the room conflict. *)
Lemma checkScheduleConflicts_reports_rooms_only_witness :
  let schedule := candidate (JNum (apiId classC_id)) 1 "10:00" "11:00" (Some "hall1") in
  checkScheduleConflicts exampleRuntime schedule None sharedTeacherDB
  = (Ok ["Room conflict: hall1 is already booked at 09:00 - 10:30 for class Group A"],
     sharedTeacherDB)
  /\ forall m,
      In m ["Room conflict: hall1 is already booked at 09:00 - 10:30 for class Group A"] ->
      exists existing existingClass,
        In existing (map (populated (scheduleModel exampleRuntime) sharedTeacherDB)
                         (schedules sharedTeacherDB))
        /\ ClassSchedule.dayOfWeek existing = ClassSchedule.dayOfWeek schedule
        /\ sameRoom exampleRuntime existing schedule = true
        /\ m = roomConflictMessage schedule existing existingClass.
Proof.
  intro schedule.
  assert (Hrun : checkScheduleConflicts exampleRuntime schedule None sharedTeacherDB
                 = (Ok ["Room conflict: hall1 is already booked at 09:00 - 10:30 for class Group A"],
                    sharedTeacherDB)) by (vm_compute; reflexivity).
  split; [exact Hrun|].
  exact (proj1 (proj2 (@checkScheduleConflicts_reports_rooms_only exampleRuntime schedule None
                         sharedTeacherDB _ sharedTeacherDB Hrun))).
Defined.

(** ** The duplicate checks of the enrollment handlers *)

Lemma getAll_enrollments_populated :
  forall rt,
    post (fun all => forall e, In e all ->
            exists db d, e = populated (enrollmentModel rt) db d)
         (getAll (enrollmentModel rt)).
Proof.
  intros rt db all db' Hrun. unfold getAll, bind, getDB, ret in Hrun. inversion Hrun.
  intros e He. apply in_map_iff in He. destruct He as [d [<- _]].
  eexists. eexists. reflexivity.
Qed.

Lemma no_duplicate_found :
  forall rt (studentId classId : JsId) all,
    (forall e, In e all -> exists db d, e = populated (enrollmentModel rt) db d) ->
    truthy classId = true ->
    find (isActiveEnrollmentOf studentId classId) all = None.
Proof.
  intros rt studentId classId all Hall Htruthy.
  destruct (find _ all) as [e|] eqn:Hfind; [|reflexivity].
  exfalso. apply find_some in Hfind. destruct Hfind as [Hin Htest].
  destruct (Hall e Hin) as [db [d ->]].
  unfold isActiveEnrollmentOf in Htest.
  apply andb_true_iff in Htest. destruct Htest as [Htest _].
  apply andb_true_iff in Htest. destruct Htest as [_ Hclass].
  simpl in Hclass. unfold populateRef in Hclass.
  destruct (inIds _ _); destruct classId; simpl in *; discriminate.
Qed.

(** X21.  The duplicate checks of [createEnrollment] and
    [transferStudent] never refuse a request: neither handler ever
    answers "Student is already enrolled in this class" or "Student is
    already enrolled in the new class".  The enrollments they search come
    from [getAll], where [populate] has put the class document (or [null])
    in place of [classId]; it is never identical to the class id of the
    request, so no enrollment is found to be a duplicate. *)
Theorem duplicate_checks_never_refuse :
  forall rt (db : DB),
    (forall body, fst (createEnrollment rt body db) <> Ok alreadyEnrolled)
    /\ (forall today id newClassId,
          fst (transferStudent rt today id newClassId db) <> Ok alreadyEnrolledInNewClass).
Proof.
  intros rt db. split.
  - intros body Hfst.
    assert (Hpost : post (fun r => r <> alreadyEnrolled) (createEnrollment rt body)).
    { unfold createEnrollment.
      apply post_tryCatch; [|apply post_ret; differs].
      destruct body as [enrollmentData|]; [|apply post_ret; differs].
      apply post_bind. intros [student|]; [|apply post_ret; differs].
      apply post_bind. intros [cls|]; [|apply post_ret; differs].
      eapply post_bind_with; [apply getAll_enrollments_populated|].
      intros all Hall. cbv beta in Hall.
      destruct (Z.eqb_spec (CreateEnrollmentRequest.classId enrollmentData) 0) as [Hz|Hnz].
      - (* a class id of 0 is no ObjectId either: the populated class is not 0 *)
        destruct (find _ all) as [e|] eqn:Hfind.
        + exfalso. apply find_some in Hfind. destruct Hfind as [Hin Htest].
          destruct (Hall e Hin) as [db0 [d ->]].
          unfold isActiveEnrollmentOf in Htest.
          apply andb_true_iff in Htest. destruct Htest as [Htest _].
          apply andb_true_iff in Htest. destruct Htest as [_ Hclass].
          rewrite (proj2 (populated_enrollment_refs_are_no_numbers rt db0 d _)) in Hclass.
          discriminate.
        + apply post_bind. intro ofClass.
          destruct (_ <=? _); [apply post_ret; differs|].
          apply post_bind. intro newEnrollment. apply post_bind. intros _.
          apply post_bind. intro data. apply post_ret. differs.
      - rewrite (@no_duplicate_found rt _ _ all Hall)
          by (simpl; apply negb_true_iff, Z.eqb_neq; exact Hnz).
        apply post_bind. intro ofClass.
        destruct (_ <=? _); [apply post_ret; differs|].
        apply post_bind. intro newEnrollment. apply post_bind. intros _.
        apply post_bind. intro data. apply post_ret. differs. }
    destruct (createEnrollment rt body db) as [[r|e] db'] eqn:Hrun; [|discriminate].
    simpl in Hfst. inversion Hfst. subst r.
    exact (Hpost db alreadyEnrolled db' Hrun eq_refl).
  - intros today id newClassId Hfst.
    assert (Hpost : post (fun r => r <> alreadyEnrolledInNewClass)
                         (transferStudent rt today id newClassId)).
    { unfold transferStudent.
      apply post_tryCatch; [|apply post_ret; differs].
      destruct id as [n|]; [|apply post_ret; differs].
      destruct (truthy newClassId) eqn:Htruthy; simpl negb; cbv iota;
        [|apply post_ret; differs].
      apply post_bind. intros [existing|]; [|apply post_ret; differs].
      apply post_bind. intros [newClass|]; [|apply post_ret; differs].
      eapply post_bind_with; [apply getAll_enrollments_populated|].
      intros all Hall. cbv beta in Hall.
      rewrite (@no_duplicate_found rt _ _ all Hall Htruthy).
      apply post_bind. intro ofClass.
      destruct (_ <=? _); [apply post_ret; differs|].
      apply post_bind. intros _. apply post_bind. intro newEnrollment.
      apply post_bind. intros _. apply post_bind. intros _.
      apply post_bind. intro data. apply post_ret. differs. }
    destruct (transferStudent rt today id newClassId db) as [[r|e] db'] eqn:Hrun;
      [|discriminate].
    simpl in Hfst. inversion Hfst. subst r.
    exact (Hpost db alreadyEnrolledInNewClass db' Hrun eq_refl).
Qed.

(** ** The refusals of [validateSchedule] *)

(** X22.  [validateSchedule] refuses, in this order and each time with a
    400 that leaves the database alone: a request without [classId],
    [subjectId], [dayOfWeek], [startTime] or [endTime] ("Missing required
    fields"); a time the pattern does not accept ("Invalid time format.
    Use HH:MM format"); and, for times with two hour digits, an end that
    is not after the start ("End time must be after start time"), an entry
    of no length included.  The day itself is not checked. *)
Theorem validateSchedule_refusals :
  forall rt (classId subjectId : JsId) (dayOfWeek : option Z)
         (startTime endTime : string) (room : option string) (db : DB),
    let answer := validateSchedule rt classId subjectId dayOfWeek startTime endTime room db in
    let present :=
      isSome dayOfWeek && truthy classId && truthy subjectId
      && negb (String.eqb startTime "") && negb (String.eqb endTime "") in
    (present = false -> answer = (Ok (validationError "Missing required fields"), db))
    /\ (present = true -> timeRegex startTime && timeRegex endTime = false ->
        answer = (Ok (validationError "Invalid time format. Use HH:MM format"), db))
    /\ (present = true -> timeRegex startTime && timeRegex endTime = true ->
        String.length startTime = 5%nat -> String.length endTime = 5%nat ->
        minutesSinceMidnight endTime <= minutesSinceMidnight startTime ->
        answer = (Ok (validationError "End time must be after start time"), db)).
Proof.
  intros rt classId subjectId dayOfWeek startTime endTime room db answer present.
  unfold answer, present, validateSchedule, tryCatch. split; [|split].
  - intro Hmissing. destruct dayOfWeek as [day|]; [|reflexivity].
    simpl isSome in Hmissing. rewrite andb_true_l in Hmissing.
    destruct (truthy classId); [|reflexivity].
    destruct (truthy subjectId); [|reflexivity].
    destruct (String.eqb startTime ""); [reflexivity|].
    destruct (String.eqb endTime ""); [reflexivity|]. discriminate.
  - intros Hpresent Hformat. destruct dayOfWeek as [day|]; [|discriminate].
    simpl isSome in Hpresent. rewrite andb_true_l in Hpresent.
    destruct (truthy classId); [|discriminate].
    destruct (truthy subjectId); [|discriminate].
    destruct (String.eqb startTime ""); [discriminate|].
    destruct (String.eqb endTime ""); [discriminate|]. simpl orb. cbv iota.
    destruct (timeRegex startTime); [|reflexivity].
    destruct (timeRegex endTime); [discriminate | reflexivity].
  - intros Hpresent Hformat Hls Hle Horder. destruct dayOfWeek as [day|]; [|discriminate].
    simpl isSome in Hpresent. rewrite andb_true_l in Hpresent.
    destruct (truthy classId); [|discriminate].
    destruct (truthy subjectId); [|discriminate].
    destruct (String.eqb startTime ""); [discriminate|].
    destruct (String.eqb endTime ""); [discriminate|]. simpl orb. cbv iota.
    apply andb_true_iff in Hformat. destruct Hformat as [Hs He].
    rewrite Hs, He. simpl orb. cbv iota.
    assert (Hiso : forall t, timeRegex t = true -> String.length t = 5%nat ->
                             isoTime t = true).
    { intros t H1 H2. rewrite isoTime_timeRegex, H1, H2. reflexivity. }
    rewrite (clockDate_iso rt _ (Hiso _ Hs Hls)), (clockDate_iso rt _ (Hiso _ He Hle)).
    unfold dateGe.
    replace (minutesSinceMidnight endTime * 60000 <=? minutesSinceMidnight startTime * 60000)
      with true by (symmetry; apply Z.leb_le; lia).
    reflexivity.
Qed.

(** Witness for X22: an entry from 10:00 to 10:00. *)
Lemma validateSchedule_refusals_witness :
  validateSchedule exampleRuntime (JNum 3073) (JNum 1281) (Some 1) "10:00" "10:00"
    (Some "Hall1") morningDB
  = (Ok (validationError "End time must be after start time"), morningDB).
Proof.
  apply (proj2 (proj2 (validateSchedule_refusals exampleRuntime (JNum 3073) (JNum 1281)
                         (Some 1) "10:00" "10:00" (Some "Hall1") morningDB)));
    reflexivity || (simpl; lia).
Defined.
